(** * Bathroom pricing engine: a shallow embedding and its properties

    The Python sources embedded here are
      - [pricing_logic/material_db.py]      (module [MaterialDatabase]),
      - [pricing_logic/labor_calc.py]       (module [LaborCalculator]),
      - [pricing_logic/vat_rules.py]        (module [VATRules]),
      - [pricing_logic/confidence_scorer.py] (module [ConfidenceScorer]),
      - [pricing_engine.py]                 (module [SmartPricingEngine]).

    Modelling conventions.
      - A Python [float] is an exact rational ([Q]): sums, products and
        quotients are exact, comparisons are the rational ones, and
        [round(x, n)] is rounding to the nearest multiple of [10^-n], ties to
        the even neighbour.  Equalities between amounts are therefore stated
        with [==].  The one operation that leaves the rationals,
        [x ** 0.5], is a parameter [pow_half] of the development.
      - A Python [str] is a [string]; one [ascii] stands for one code point
        of the Latin-1 range (0..255), so that the unit marker of the size
        pattern, code point 178, is one character.
      - A Python dict with a fixed vocabulary of keys is a record (optional
        fields where the code reads with [.get]); a dict that is iterated or
        indexed by a computed key is an association list in insertion order.
      - Exceptions are values of [exn]; a function that can raise returns a
        [result].  The logger is not modelled.
      - The rule tables are the ones built by the constructors. *)

From Stdlib Require Import ZArith QArith Qround Qabs Qfield Lia Lqa.
From Stdlib Require Import List Bool String Ascii.
Import ListNotations.

Local Open Scope string_scope.
Local Open Scope Q_scope.

(** ** Numbers *)

Module PyNum.

(** Nearest integer, ties to even. *)
Definition round_half_even (x : Q) : Z :=
  let f := Qfloor x in
  match ((x - inject_Z f) ?= (1 # 2))%Q with
  | Lt => f
  | Gt => (f + 1)%Z
  | Eq => if Z.even f then f else (f + 1)%Z
  end.

(** [round(x, ndigits)] of Python on exact values. *)
Definition scale (ndigits : nat) : positive :=
  Nat.iter ndigits (Pos.mul 10) 1%positive.

Definition py_round (x : Q) (ndigits : nat) : Q :=
  round_half_even (x * inject_Z (Zpos (scale ndigits))) # scale ndigits.

(** [sum(xs)] *)
Definition py_sum (xs : list Q) : Q := fold_left Qplus xs 0.

(** [min(a, b)] and [max(a, b)] of Python: [min] returns its first argument
    unless the second is strictly smaller, [max] unless strictly larger. *)
Definition py_min (a b : Q) : Q := if Qlt_le_dec b a then b else a.
Definition py_max (a b : Q) : Q := if Qlt_le_dec a b then b else a.

Definition Qltb (a b : Q) : bool := negb (Qle_bool b a).

End PyNum.
Import PyNum.

(** ** Strings *)

Module PyStr.

(** Code point 178, the superscript two of the area unit. *)
Definition sup2 : ascii := "178"%char.

(** [str.isspace] on one character of the Latin-1 range; the same class is
    the [\s] of the [re] module on [str] patterns. *)
Definition isspace (c : ascii) : bool :=
  let n := nat_of_ascii c in
  ((9 <=? n) && (n <=? 13) || (28 <=? n) && (n <=? 32)
   || (n =? 133) || (n =? 160))%nat.

(** [\d] on the Latin-1 range: the ten decimal digits. *)
Definition isdigit (c : ascii) : bool :=
  let n := nat_of_ascii c in ((48 <=? n) && (n <=? 57))%nat.

Definition digit_value (c : ascii) : Z := Z.of_nat (nat_of_ascii c - 48).

(** [str.lower] on one character of the Latin-1 range. *)
Definition lower_char (c : ascii) : ascii :=
  let n := nat_of_ascii c in
  if ((65 <=? n) && (n <=? 90)
      || (192 <=? n) && (n <=? 222) && negb (n =? 215))%nat
  then ascii_of_nat (n + 32) else c.

Fixpoint lower (s : string) : string :=
  match s with
  | EmptyString => EmptyString
  | String c s' => String (lower_char c) (lower s')
  end.

Fixpoint lstrip (s : string) : string :=
  match s with
  | EmptyString => EmptyString
  | String c s' => if isspace c then lstrip s' else s
  end.

Fixpoint rstrip (s : string) : string :=
  match s with
  | EmptyString => EmptyString
  | String c s' =>
      match rstrip s' with
      | EmptyString => if isspace c then EmptyString else String c EmptyString
      | r => String c r
      end
  end.

(** [s.strip()] *)
Definition strip (s : string) : string := rstrip (lstrip s).

(** [sub in s] *)
Fixpoint contains (sub s : string) : bool :=
  prefix sub s ||
  match s with
  | EmptyString => false
  | String _ s' => contains sub s'
  end.

(** [any(w in s for w in words)] *)
Definition any_in (words : list string) (s : string) : bool :=
  existsb (fun w => contains w s) words.

(** [sep.join(parts)] *)
Fixpoint join (sep : string) (parts : list string) : string :=
  match parts with
  | [] => EmptyString
  | [p] => p
  | p :: rest => p ++ sep ++ join sep rest
  end.

(** The longest prefix of [s] made of characters satisfying [p], and the
    rest of [s]. *)
Fixpoint span (p : ascii -> bool) (s : string) : string * string :=
  match s with
  | EmptyString => (EmptyString, EmptyString)
  | String c s' =>
      if p c then let '(a, b) := span p s' in (String c a, b)
      else (EmptyString, s)
  end.

(** Value of a run of decimal digits. *)
Fixpoint digits_value (acc : Z) (s : string) : Z :=
  match s with
  | EmptyString => acc
  | String c s' => digits_value (10 * acc + digit_value c) s'
  end.

Fixpoint pow10 (n : nat) : positive :=
  match n with O => 1%positive | S n' => (10 * pow10 n')%positive end.

(** [float(text)] for a text of the shape [digits] or [digits.digits]. *)
Definition float_of_decimal (int_part frac_part : string) : Q :=
  inject_Z (digits_value 0 int_part)
  + (digits_value 0 frac_part # pow10 (String.length frac_part)).

End PyStr.
Import PyStr.

(** ** Exceptions and dicts *)

Inductive exn : Type :=
| KeyError (key : string)
| ValueError (msg : string)
| RuntimeError (msg : string).

(** [str(e)] *)
Definition str_of_exn (e : exn) : string :=
  match e with
  | KeyError k => "'" ++ k ++ "'"
  | ValueError m => m
  | RuntimeError m => m
  end.

Inductive result (A : Type) : Type :=
| Ok (a : A)
| Raise (e : exn).
Arguments Ok {A} a.
Arguments Raise {A} e.

Definition bind {A B : Type} (r : result A) (k : A -> result B) : result B :=
  match r with
  | Ok a => k a
  | Raise e => Raise e
  end.

Notation "x <- r ;; k" := (bind r (fun x => k))
  (at level 61, r at next level, right associativity).

(** A dict in insertion order. *)
Definition dict (V : Type) : Type := list (string * V).

(** [d.get(k)] *)
Fixpoint dict_get {V : Type} (d : dict V) (k : string) : option V :=
  match d with
  | [] => None
  | (k', v) :: d' => if String.eqb k k' then Some v else dict_get d' k
  end.

(** [d.get(k, dflt)] *)
Definition dict_get_or {V : Type} (d : dict V) (k : string) (dflt : V) : V :=
  match dict_get d k with Some v => v | None => dflt end.

(** [d[k]] *)
Definition dict_index {V : Type} (d : dict V) (k : string) : result V :=
  match dict_get d k with Some v => Ok v | None => Raise (KeyError k) end.

(** [k in d] *)
Definition dict_mem {V : Type} (d : dict V) (k : string) : bool :=
  match dict_get d k with Some _ => true | None => false end.

(** [list(d.keys())] and [d.values()] *)
Definition dict_keys {V : Type} (d : dict V) : list string := map fst d.
Definition dict_values {V : Type} (d : dict V) : list V := map snd d.

(** [d[k] = v]: an existing key keeps its place, a new key goes last. *)
Fixpoint dict_set {V : Type} (d : dict V) (k : string) (v : V) : dict V :=
  match d with
  | [] => [(k, v)]
  | (k', v') :: d' =>
      if String.eqb k k' then (k, v) :: d' else (k', v') :: dict_set d' k v
  end.

(** [for k, v in new.items(): if k in d: d[k] = v], the loop of the
    recalibration hooks. *)
Definition update_existing {V : Type} (d new : dict V) : dict V :=
  fold_left
    (fun d (item : string * V) =>
       let '(k, v) := item in
       if dict_mem d k then dict_set d k v else d)
    new d.

(** [x in xs] for a list of strings *)
Definition str_mem (x : string) (xs : list string) : bool :=
  existsb (String.eqb x) xs.

(** [record[key]] for a field that may be absent. *)
Definition field {A : Type} (key : string) (v : option A) : result A :=
  match v with Some a => Ok a | None => Raise (KeyError key) end.

(** ** material_db.py *)

Module MaterialDatabase.

Record area_materials : Type := {
  base_cost_per_m2 : Q;
  size_factor : Q;
  quality_multipliers : dict Q
}.

Record painting_materials : Type := {
  p_base_cost_per_m2 : Q;
  p_size_factor : Q;
  p_coats : Z;
  p_quality_multipliers : dict Q
}.

Record fixture : Type := {
  f_base_cost : Q;
  f_size_factor : Q
}.

Record vanity_materials : Type := {
  v_base_cost : Q;
  v_size_factor : Q;
  v_quality_multipliers : dict Q
}.

Record electrical_materials : Type := {
  e_base_cost : Q;
  e_size_factor : Q;
  e_per_outlet : Q
}.

Record materials_table : Type := {
  tiles : area_materials;
  plumbing : dict fixture;
  painting : painting_materials;
  flooring : area_materials;
  vanity : vanity_materials;
  electrical : electrical_materials
}.

Definition _load_default_materials : materials_table := {|
  tiles := {|
    base_cost_per_m2 := 45.0;
    size_factor := 0.95;
    quality_multipliers :=
      [("basic", 0.8); ("standard", 1.0); ("premium", 1.4); ("luxury", 2.0)]
  |};
  plumbing := [
    ("shower", {| f_base_cost := 180.0; f_size_factor := 0.9 |});
    ("toilet", {| f_base_cost := 120.0; f_size_factor := 1.0 |});
    ("sink", {| f_base_cost := 85.0; f_size_factor := 0.95 |});
    ("bath", {| f_base_cost := 350.0; f_size_factor := 1.1 |})
  ];
  painting := {|
    p_base_cost_per_m2 := 8.5;
    p_size_factor := 1.05;
    p_coats := 2;
    p_quality_multipliers :=
      [("basic", 0.7); ("standard", 1.0); ("premium", 1.3)]
  |};
  flooring := {|
    base_cost_per_m2 := 32.0;
    size_factor := 0.98;
    quality_multipliers :=
      [("basic", 0.8); ("standard", 1.0); ("premium", 1.5)]
  |};
  vanity := {|
    v_base_cost := 220.0;
    v_size_factor := 1.0;
    v_quality_multipliers :=
      [("basic", 0.7); ("standard", 1.0); ("premium", 1.6)]
  |};
  electrical := {|
    e_base_cost := 45.0;
    e_size_factor := 1.0;
    e_per_outlet := 15.0
  |}
|}.

(** [self.materials] *)
Definition materials : materials_table := _load_default_materials.

(** The keys of [self.materials]. *)
Definition materials_keys : list string :=
  ["tiles"; "plumbing"; "painting"; "flooring"; "vanity"; "electrical"].

Section Costs.

(** [x ** 0.5] *)
Variable pow_half : Q -> Q.

Definition _calculate_tiles_cost (m : area_materials) (bathroom_size : Q)
    (quality : string) : Q :=
  let base_cost := base_cost_per_m2 m in
  let size_factor := size_factor m in
  let quality_mult := dict_get_or (quality_multipliers m) quality 1.0 in
  let wall_height := 2.4 in
  let wall_area := (pow_half bathroom_size * 4) * wall_height in
  let total_cost := wall_area * base_cost * size_factor * quality_mult in
  py_round total_cost 2.

Definition _calculate_plumbing_cost (m : dict fixture) (bathroom_size : Q) : Q :=
  let total_cost :=
    fold_left
      (fun total_cost (item : string * fixture) =>
         let data := snd item in
         let fixture_cost := f_base_cost data * f_size_factor data in
         total_cost + fixture_cost)
      m 0.0 in
  py_round total_cost 2.

Definition _calculate_painting_cost (m : painting_materials)
    (bathroom_size : Q) (quality : string) : Q :=
  let base_cost := p_base_cost_per_m2 m in
  let size_factor := p_size_factor m in
  let quality_mult := dict_get_or (p_quality_multipliers m) quality 1.0 in
  let coats := inject_Z (p_coats m) in
  let wall_height := 2.4 in
  let wall_area := (pow_half bathroom_size * 4) * wall_height in
  let total_cost :=
    wall_area * base_cost * size_factor * quality_mult * coats in
  py_round total_cost 2.

Definition _calculate_flooring_cost (m : area_materials) (bathroom_size : Q)
    (quality : string) : Q :=
  let base_cost := base_cost_per_m2 m in
  let size_factor := size_factor m in
  let quality_mult := dict_get_or (quality_multipliers m) quality 1.0 in
  let total_cost := bathroom_size * base_cost * size_factor * quality_mult in
  py_round total_cost 2.

Definition _calculate_vanity_cost (m : vanity_materials) (quality : string) : Q :=
  let base_cost := v_base_cost m in
  let quality_mult := dict_get_or (v_quality_multipliers m) quality 1.0 in
  let total_cost := base_cost * quality_mult in
  py_round total_cost 2.

Definition _calculate_electrical_cost (m : electrical_materials)
    (bathroom_size : Q) : Q :=
  let base_cost := e_base_cost m in
  let size_factor := e_size_factor m in
  let outlets :=
    if Qle_bool bathroom_size 4 then 2
    else if Qle_bool bathroom_size 6 then 3
    else 4 in
  let outlet_cost := outlets * e_per_outlet m in
  let total_cost := base_cost * size_factor + outlet_cost in
  py_round total_cost 2.

(** [get_task_materials_cost(task, bathroom_size, quality='standard')] *)
Definition get_task_materials_cost (task : string) (bathroom_size : Q)
    (quality : string) : Q :=
  if negb (str_mem task materials_keys) then 0.0
  else if task =? "tiles" then
    _calculate_tiles_cost (tiles materials) bathroom_size quality
  else if task =? "plumbing" then
    _calculate_plumbing_cost (plumbing materials) bathroom_size
  else if task =? "painting" then
    _calculate_painting_cost (painting materials) bathroom_size quality
  else if task =? "flooring" then
    _calculate_flooring_cost (flooring materials) bathroom_size quality
  else if task =? "vanity" then
    _calculate_vanity_cost (vanity materials) quality
  else if task =? "electrical" then
    _calculate_electrical_cost (electrical materials) bathroom_size
  else 0.0.

End Costs.

End MaterialDatabase.

(** ** labor_calc.py *)

Module LaborCalculator.

Record tiles_times : Type := {
  t_per_m2 : Q; t_setup_time : Q; t_cleanup_time : Q
}.

Record plumbing_times : Type := {
  shower : Q; toilet : Q; sink : Q; bath : Q;
  pl_setup_time : Q; pl_testing_time : Q
}.

Record painting_times : Type := {
  pa_per_m2 : Q; pa_prep_time : Q; pa_drying_time : Q; pa_cleanup_time : Q
}.

Record flooring_times : Type := {
  fl_per_m2 : Q; fl_prep_time : Q; fl_cleanup_time : Q
}.

Record vanity_times : Type := {
  va_base_time : Q; va_plumbing_time : Q; va_setup_time : Q
}.

Record electrical_times : Type := {
  el_base_time : Q; el_per_outlet : Q; el_testing_time : Q
}.

Record time_estimates : Type := {
  tiles : tiles_times;
  plumbing : plumbing_times;
  painting : painting_times;
  flooring : flooring_times;
  vanity : vanity_times;
  electrical : electrical_times
}.

Definition hourly_rates : dict Q := [
  ("tiles", 45.0); ("plumbing", 55.0); ("painting", 35.0);
  ("flooring", 40.0); ("vanity", 42.0); ("electrical", 48.0)
].

Definition complexity_factors : dict Q := [
  ("tiles", 1.2); ("plumbing", 1.4); ("painting", 0.9);
  ("flooring", 1.1); ("vanity", 0.8); ("electrical", 1.3)
].

Definition base_time_estimates : time_estimates := {|
  tiles := {| t_per_m2 := 2.5; t_setup_time := 2.0; t_cleanup_time := 1.5 |};
  plumbing := {|
    shower := 8.0; toilet := 4.0; sink := 3.0; bath := 6.0;
    pl_setup_time := 1.0; pl_testing_time := 2.0
  |};
  painting := {|
    pa_per_m2 := 0.3; pa_prep_time := 1.5; pa_drying_time := 0.0;
    pa_cleanup_time := 1.0
  |};
  flooring := {| fl_per_m2 := 1.8; fl_prep_time := 2.0; fl_cleanup_time := 1.0 |};
  vanity := {|
    va_base_time := 3.0; va_plumbing_time := 1.5; va_setup_time := 0.5
  |};
  electrical := {|
    el_base_time := 2.0; el_per_outlet := 0.5; el_testing_time := 1.0
  |}
|}.

(** The keys of [self.base_time_estimates]. *)
Definition base_time_keys : list string :=
  ["tiles"; "plumbing"; "painting"; "flooring"; "vanity"; "electrical"].

Definition _get_complexity_multiplier (complexity : string) : Q :=
  let complexity_multipliers : dict Q :=
    [("simple", 0.8); ("standard", 1.0); ("complex", 1.3)] in
  dict_get_or complexity_multipliers complexity 1.0.

Section Durations.

(** [x ** 0.5] *)
Variable pow_half : Q -> Q.

Definition _calculate_tiles_duration (estimates : tiles_times)
    (bathroom_size : Q) (complexity : string) : Q :=
  let wall_height := 2.4 in
  let wall_area := (pow_half bathroom_size * 4) * wall_height in
  let area_time := wall_area * t_per_m2 estimates in
  let total_time :=
    area_time + t_setup_time estimates + t_cleanup_time estimates in
  let complexity_mult := _get_complexity_multiplier complexity in
  py_round (total_time * complexity_mult) 1.

Definition _calculate_plumbing_duration (estimates : plumbing_times)
    (complexity : string) : Q :=
  let fixture_time :=
    py_sum [shower estimates; toilet estimates; sink estimates] in
  let total_time :=
    fixture_time + pl_setup_time estimates + pl_testing_time estimates in
  let complexity_mult := _get_complexity_multiplier complexity in
  py_round (total_time * complexity_mult) 1.

Definition _calculate_painting_duration (estimates : painting_times)
    (bathroom_size : Q) (complexity : string) : Q :=
  let wall_height := 2.4 in
  let wall_area := (pow_half bathroom_size * 4) * wall_height in
  let area_time := wall_area * pa_per_m2 estimates in
  let total_time :=
    area_time + pa_prep_time estimates + pa_cleanup_time estimates in
  let complexity_mult := _get_complexity_multiplier complexity in
  py_round (total_time * complexity_mult) 1.

Definition _calculate_flooring_duration (estimates : flooring_times)
    (bathroom_size : Q) (complexity : string) : Q :=
  let area_time := bathroom_size * fl_per_m2 estimates in
  let total_time :=
    area_time + fl_prep_time estimates + fl_cleanup_time estimates in
  let complexity_mult := _get_complexity_multiplier complexity in
  py_round (total_time * complexity_mult) 1.

Definition _calculate_vanity_duration (estimates : vanity_times)
    (complexity : string) : Q :=
  let total_time :=
    va_base_time estimates + va_plumbing_time estimates
    + va_setup_time estimates in
  let complexity_mult := _get_complexity_multiplier complexity in
  py_round (total_time * complexity_mult) 1.

Definition _calculate_electrical_duration (estimates : electrical_times)
    (bathroom_size : Q) (complexity : string) : Q :=
  let outlets :=
    if Qle_bool bathroom_size 4 then 2
    else if Qle_bool bathroom_size 6 then 3
    else 4 in
  let outlet_time := outlets * el_per_outlet estimates in
  let total_time :=
    el_base_time estimates + outlet_time + el_testing_time estimates in
  let complexity_mult := _get_complexity_multiplier complexity in
  py_round (total_time * complexity_mult) 1.

(** [get_task_duration(task, bathroom_size, complexity='standard')] *)
Definition get_task_duration (task : string) (bathroom_size : Q)
    (complexity : string) : Q :=
  if negb (str_mem task base_time_keys) then 0.0
  else
    let base_estimates := base_time_estimates in
    if task =? "tiles" then
      _calculate_tiles_duration (tiles base_estimates) bathroom_size complexity
    else if task =? "plumbing" then
      _calculate_plumbing_duration (plumbing base_estimates) complexity
    else if task =? "painting" then
      _calculate_painting_duration (painting base_estimates) bathroom_size
        complexity
    else if task =? "flooring" then
      _calculate_flooring_duration (flooring base_estimates) bathroom_size
        complexity
    else if task =? "vanity" then
      _calculate_vanity_duration (vanity base_estimates) complexity
    else if task =? "electrical" then
      _calculate_electrical_duration (electrical base_estimates) bathroom_size
        complexity
    else 0.0.

(** [calculate_labor_cost(task, bathroom_size, complexity='standard')] *)
Definition calculate_labor_cost (task : string) (bathroom_size : Q)
    (complexity : string) : Q :=
  match dict_get hourly_rates task with
  | None => 0.0
  | Some hourly_rate =>
      let total_hours := get_task_duration task bathroom_size complexity in
      let complexity_multiplier := _get_complexity_multiplier complexity in
      let total_cost := total_hours * hourly_rate * complexity_multiplier in
      py_round total_cost 2
  end.

Record project_duration : Type := {
  total_hours : Q;
  working_days : Z;
  buffer_days : Q;
  total_days : Q;
  task_breakdown : dict Q
}.

(** [estimate_project_duration(tasks, bathroom_size)]; [math.ceil] is the
    ceiling, an integer. *)
Definition estimate_project_duration (tasks : list string)
    (bathroom_size : Q) : project_duration :=
  let '(total_hours, task_durations) :=
    fold_left
      (fun (acc : Q * dict Q) task =>
         let '(total_hours, task_durations) := acc in
         let duration := get_task_duration task bathroom_size "standard" in
         (total_hours + duration, dict_set task_durations task duration))
      tasks (0, []) in
  let working_days := Qceiling (total_hours / 8) in
  let buffer_days := py_max 1 (inject_Z working_days * 0.2) in
  let total_days := inject_Z working_days + buffer_days in
  {| total_hours := total_hours;
     working_days := working_days;
     buffer_days := buffer_days;
     total_days := total_days;
     task_breakdown := task_durations |}.

End Durations.

(** [get_daily_rate(task)], over the table [self.hourly_rates]. *)
Definition get_daily_rate (rates : dict Q) (task : string) : Q :=
  match dict_get rates task with
  | None => 0.0
  | Some rate => rate * 8
  end.

(** [update_hourly_rates(new_rates)]: the new value of [self.hourly_rates]. *)
Definition update_hourly_rates (rates new_rates : dict Q) : dict Q :=
  update_existing rates new_rates.

End LaborCalculator.

(** ** Task price lines and requirements *)

(** One entry of [task_prices].  The engine writes the keys [task],
    [materials], [labor], [total], [city_multiplier] and, on the fallback
    path, [error]; the VAT rules read the key [task_type]. *)
Record task_price : Type := {
  tp_task : option string;
  tp_task_type : option string;
  tp_materials : option Q;
  tp_labor : option Q;
  tp_total : option Q;
  tp_city_multiplier : option Q;
  tp_error : option string
}.

(** The [requirements] dict. *)
Record requirements : Type := {
  bathroom_size : option Q;
  location : option string;
  tasks : option (list string);
  budget_conscious : option bool;
  original_transcript : option string
}.

Definition get_or {A : Type} (v : option A) (dflt : A) : A :=
  match v with Some a => a | None => dflt end.

(** ** vat_rules.py *)

Module VATRules.

Definition vat_rates : dict Q :=
  [("standard", 0.20); ("reduced", 0.10); ("super_reduced", 0.055)].

Definition task_vat_classification : dict string := [
  ("tiles", "reduced"); ("plumbing", "reduced"); ("painting", "reduced");
  ("flooring", "reduced"); ("vanity", "standard"); ("electrical", "reduced")
].

Record reduced_conditions : Type := {
  min_work_value : Q;
  max_work_value : Q;
  property_age : Z;
  work_type : string
}.

(** [self.vat_conditions['reduced']] *)
Definition vat_conditions_reduced : reduced_conditions := {|
  min_work_value := 1000.0;
  max_work_value := 50000.0;
  property_age := 2;
  work_type := "renovation"
|}.

Definition _is_eligible_for_reduced_vat (work_value : Q) (age : Z) : bool :=
  let conditions := vat_conditions_reduced in
  if negb (Qle_bool (min_work_value conditions) work_value
           && Qle_bool work_value (max_work_value conditions))
  then false
  else if (age <? property_age conditions)%Z then false
  else true.

(** [get_vat_rate(task, work_value=0.0, property_age=10)] *)
Definition get_vat_rate (task : string) (work_value : Q) (age : Z) : result Q :=
  match dict_get task_vat_classification task with
  | None => dict_index vat_rates "standard"
  | Some vat_type =>
      if vat_type =? "reduced" then
        if _is_eligible_for_reduced_vat work_value age
        then dict_index vat_rates "reduced"
        else dict_index vat_rates "standard"
      else dict_index vat_rates vat_type
  end.

Record task_vat : Type := {
  vat_rate : Q;
  vat_amount : Q;
  vat_type : string
}.

(** [calculate_task_vat(task, amount, work_value=0.0, property_age=10)] *)
Definition calculate_task_vat (task : string) (amount work_value : Q)
    (age : Z) : result task_vat :=
  vat_rate <- get_vat_rate task work_value age ;;
  let vat_amount := amount * vat_rate in
  Ok {| vat_rate := vat_rate;
        vat_amount := py_round vat_amount 2;
        vat_type := dict_get_or task_vat_classification task "standard" |}.

(** One turn of the loop of [calculate_total_vat]. *)
Definition total_vat_step (work_value : Q) (age : Z) (acc : result Q)
    (line : task_price) : result Q :=
  total_vat <- acc ;;
  let task_type := get_or (tp_task_type line) "" in
  let materials := get_or (tp_materials line) 0.0 in
  let labor := get_or (tp_labor line) 0.0 in
  materials_vat <- calculate_task_vat task_type materials work_value age ;;
  labor_vat <- calculate_task_vat task_type labor work_value age ;;
  Ok (total_vat + (vat_amount materials_vat + vat_amount labor_vat)).

(** [calculate_total_vat(task_prices, work_value=0.0, property_age=10)] *)
Definition calculate_total_vat (task_prices : list task_price)
    (work_value : Q) (age : Z) : result Q :=
  total_vat <-
    fold_left (total_vat_step work_value age) task_prices (Ok 0.0) ;;
  Ok (py_round total_vat 2).

(** The two tables the update hooks replace entries of. *)
Record vat_tables : Type := {
  t_vat_rates : dict Q;
  t_task_vat_classification : dict string
}.

(** The tables built by the constructor. *)
Definition initial_tables : vat_tables := {|
  t_vat_rates := vat_rates;
  t_task_vat_classification := task_vat_classification
|}.

(** [update_vat_rates(new_rates)] *)
Definition update_vat_rates (self : vat_tables) (new_rates : dict Q)
    : vat_tables :=
  {| t_vat_rates := update_existing (t_vat_rates self) new_rates;
     t_task_vat_classification := t_task_vat_classification self |}.

(** [update_task_classifications(new_classifications)] *)
Definition update_task_classifications (self : vat_tables)
    (new_classifications : dict string) : vat_tables :=
  {| t_vat_rates := t_vat_rates self;
     t_task_vat_classification :=
       fold_left
         (fun cls (item : string * string) =>
            let '(task, vat_type) := item in
            if dict_mem (t_vat_rates self) vat_type
            then dict_set cls task vat_type
            else cls)
         new_classifications (t_task_vat_classification self) |}.

(** [get_vat_rate] reading the tables of [self]. *)
Definition get_vat_rate_of (self : vat_tables) (task : string)
    (work_value : Q) (age : Z) : result Q :=
  match dict_get (t_task_vat_classification self) task with
  | None => dict_index (t_vat_rates self) "standard"
  | Some vat_type =>
      if vat_type =? "reduced" then
        if _is_eligible_for_reduced_vat work_value age
        then dict_index (t_vat_rates self) "reduced"
        else dict_index (t_vat_rates self) "standard"
      else dict_index (t_vat_rates self) vat_type
  end.

Record task_vat_entry : Type := {
  e_task_type : string;
  e_materials_vat : task_vat;
  e_labor_vat : task_vat;
  e_total_task_vat : Q
}.

Record vat_breakdown : Type := {
  b_total_vat : Q;
  b_vat_by_task : list task_vat_entry;
  b_vat_by_rate : dict Q
}.

(** One turn of the loop of [get_vat_breakdown]. *)
Definition breakdown_step (work_value : Q) (age : Z)
    (acc : result vat_breakdown) (line : task_price) : result vat_breakdown :=
  breakdown <- acc ;;
  let task_type := get_or (tp_task_type line) "" in
  let materials := get_or (tp_materials line) 0.0 in
  let labor := get_or (tp_labor line) 0.0 in
  materials_vat <- calculate_task_vat task_type materials work_value age ;;
  labor_vat <- calculate_task_vat task_type labor work_value age ;;
  let task_vat_total := vat_amount materials_vat + vat_amount labor_vat in
  let vat_type := vat_type materials_vat in
  bucket <- dict_index (b_vat_by_rate breakdown) vat_type ;;
  Ok {| b_total_vat := b_total_vat breakdown + task_vat_total;
        b_vat_by_task :=
          (b_vat_by_task breakdown ++
           [{| e_task_type := task_type;
               e_materials_vat := materials_vat;
               e_labor_vat := labor_vat;
               e_total_task_vat := task_vat_total |}])%list;
        b_vat_by_rate :=
          dict_set (b_vat_by_rate breakdown) vat_type
            (bucket + task_vat_total) |}.

(** [get_vat_breakdown(task_prices, work_value=0.0, property_age=10)] *)
Definition get_vat_breakdown (task_prices : list task_price)
    (work_value : Q) (age : Z) : result vat_breakdown :=
  breakdown <-
    fold_left (breakdown_step work_value age) task_prices
      (Ok {| b_total_vat := 0.0;
             b_vat_by_task := [];
             b_vat_by_rate :=
               [("standard", 0.0); ("reduced", 0.0); ("super_reduced", 0.0)]
          |}) ;;
  Ok {| b_total_vat := py_round (b_total_vat breakdown) 2;
        b_vat_by_task := b_vat_by_task breakdown;
        b_vat_by_rate :=
          map (fun item : string * Q => (fst item, py_round (snd item) 2))
            (b_vat_by_rate breakdown) |}.


(** The default arguments of the three functions above. *)
Definition default_work_value : Q := 0.0.
Definition default_property_age : Z := 10.


End VATRules.

(** ** confidence_scorer.py *)

Module ConfidenceScorer.

Record size_bucket : Type := {
  range_min : Q;
  range_max : option Q;  (* [None] is [float('inf')] *)
  sb_score : Q;
  sb_flag : option string
}.

Record price_threshold : Type := {
  multiplier : Q;
  pt_score : Q;
  pt_flag : option string
}.

Record price_history : Type := {
  h_min : Q; h_max : Q; h_avg : Q
}.

(** [self.confidence_factors] *)
Definition bathroom_size_factors : dict size_bucket := [
  ("very_small", {| range_min := 0; range_max := Some 2; sb_score := 0.7;
                    sb_flag := Some "unusually_small" |});
  ("small", {| range_min := 2; range_max := Some 4; sb_score := 0.9;
               sb_flag := None |});
  ("medium", {| range_min := 4; range_max := Some 8; sb_score := 1.0;
                sb_flag := None |});
  ("large", {| range_min := 8; range_max := Some 12; sb_score := 0.95;
               sb_flag := None |});
  ("very_large", {| range_min := 12; range_max := None; sb_score := 0.8;
                    sb_flag := Some "unusually_large" |})
].

Definition task_complexity_simple : list string := ["painting"; "vanity"].
Definition task_complexity_moderate : list string := ["flooring"; "electrical"].
Definition task_complexity_complex : list string := ["tiles"; "plumbing"].

Definition location_confidence : dict Q := [
  ("paris", 0.95); ("marseille", 1.0); ("lyon", 0.9); ("toulouse", 0.9);
  ("nice", 0.9); ("nantes", 0.9); ("strasbourg", 0.9); ("montpellier", 0.9)
].

Definition price_thresholds : dict price_threshold := [
  ("very_low", {| multiplier := 0.5; pt_score := 0.6;
                  pt_flag := Some "suspiciously_low" |});
  ("low", {| multiplier := 0.8; pt_score := 0.8;
             pt_flag := Some "below_average" |});
  ("normal", {| multiplier := 1.0; pt_score := 1.0; pt_flag := None |});
  ("high", {| multiplier := 1.3; pt_score := 0.9;
              pt_flag := Some "above_average" |});
  ("very_high", {| multiplier := 1.8; pt_score := 0.7;
                   pt_flag := Some "suspiciously_high" |})
].

(** The scorer object: the historical table and the flags of the last
    scoring call. *)
Record scorer : Type := {
  historical_pricing : dict price_history;
  flags : list string
}.

(** [ConfidenceScorer()] *)
Definition init : scorer := {|
  historical_pricing := [
    ("tiles", {| h_min := 35; h_max := 65; h_avg := 50 |});
    ("plumbing", {| h_min := 120; h_max := 200; h_avg := 160 |});
    ("painting", {| h_min := 6; h_max := 12; h_avg := 9 |});
    ("flooring", {| h_min := 25; h_max := 45; h_avg := 35 |});
    ("vanity", {| h_min := 180; h_max := 300; h_avg := 240 |});
    ("electrical", {| h_min := 35; h_max := 60; h_avg := 48 |})
  ];
  flags := []
|}.

(** Methods that touch [self.flags] are state transformers over the scorer. *)
Definition M (A : Type) : Type := scorer -> A * scorer.

Definition ret {A : Type} (a : A) : M A := fun sc => (a, sc).

Definition mbind {A B : Type} (m : M A) (k : A -> M B) : M B :=
  fun sc => let '(a, sc') := m sc in k a sc'.

Notation "x <~ m ;; k" := (mbind m (fun x => k))
  (at level 61, m at next level, right associativity).
Notation "m ;;; k" := (mbind m (fun _ => k))
  (at level 61, right associativity).

(** [self.flags.append(flag)] *)
Definition append_flag (flag : string) : M unit :=
  fun sc => (tt, {| historical_pricing := historical_pricing sc;
                    flags := (flags sc ++ [flag])%list |}).

(** [self.flags = []] *)
Definition reset_flags : M unit :=
  fun sc => (tt, {| historical_pricing := historical_pricing sc; flags := [] |}).

(** [if flag: self.flags.append(flag)]: [None] and the empty string are
    falsy. *)
Definition append_if_truthy (flag : option string) : M unit :=
  match flag with
  | Some f => if f =? "" then ret tt else append_flag f
  | None => ret tt
  end.

Definition in_range (b : size_bucket) (x : Q) : bool :=
  Qle_bool (range_min b) x
  && match range_max b with
     | Some hi => Qltb x hi
     | None => true
     end.

Fixpoint size_loop (buckets : dict size_bucket) (size : Q) : M Q :=
  match buckets with
  | [] =>
      append_flag "unusually_large" ;;;
      ret 0.7
  | (_, data) :: rest =>
      if in_range data size then
        append_if_truthy (sb_flag data) ;;;
        ret (sb_score data)
      else size_loop rest size
  end.

Definition _calculate_size_confidence (size : Q) : M Q :=
  size_loop bathroom_size_factors size.

Definition _calculate_location_confidence (loc : string) : Q :=
  dict_get_or location_confidence loc 0.8.

Definition _calculate_task_confidence (tasks : list string) : M Q :=
  match tasks with
  | [] =>
      append_flag "no_tasks_detected" ;;;
      ret 0.5
  | _ =>
      (if (List.length tasks =? 1)%nat
       then append_flag "single_task_project" else ret tt) ;;;
      (if (5 <? List.length tasks)%nat
       then append_flag "many_tasks" else ret tt) ;;;
      let essential_tasks := ["plumbing"; "tiles"] in
      let missing_essential :=
        filter (fun task => negb (str_mem task tasks)) essential_tasks in
      (match missing_essential with
       | [] => ret tt
       | _ => append_flag
                ("missing_essential_tasks: " ++ join ", " missing_essential)
       end) ;;;
      if (List.length tasks <=? 2)%nat then ret 0.8
      else if (List.length tasks <=? 4)%nat then ret 0.9
      else ret 0.85
  end.

Fixpoint price_loop (thresholds : dict price_threshold) (price_ratio : Q)
    : M Q :=
  match thresholds with
  | [] =>
      append_flag "suspiciously_high" ;;;
      ret 0.7
  | (_, data) :: rest =>
      if Qle_bool price_ratio (multiplier data) then
        append_if_truthy (pt_flag data) ;;;
        ret (pt_score data)
      else price_loop rest price_ratio
  end.

Definition _calculate_price_confidence (task_prices : list task_price)
    (final_price : Q) : M Q :=
  fun sc =>
  match task_prices with
  | [] => (0.5, sc)
  | _ =>
      let total_materials :=
        py_sum (map (fun task => get_or (tp_materials task) 0) task_prices) in
      let total_labor :=
        py_sum (map (fun task => get_or (tp_labor task) 0) task_prices) in
      let bathroom_size := 4.0 in
      let price_per_m2 :=
        if Qltb 0 bathroom_size then final_price / bathroom_size else 0 in
      let historical_avg :=
        py_sum (map h_avg (dict_values (historical_pricing sc))) in
      let price_ratio :=
        if Qltb 0 historical_avg then price_per_m2 / historical_avg
        else 1.0 in
      price_loop price_thresholds price_ratio sc
  end.

Definition _calculate_complexity_confidence (tasks : list string) : Q :=
  match tasks with
  | [] => 0.5
  | _ =>
      let complexity_scores :=
        map (fun task =>
               if str_mem task task_complexity_simple then 0.9
               else if str_mem task task_complexity_moderate then 0.95
               else if str_mem task task_complexity_complex then 0.85
               else 0.8)
            tasks in
      py_sum complexity_scores / inject_Z (Z.of_nat (List.length complexity_scores))
  end.

(** [calculate_confidence(requirements, task_prices, final_price)], in two
    steps: the five sub-scores, computed in the order of the source after
    the flags are reset, then the weighted score. *)
Definition sub_scores (req : requirements) (task_prices : list task_price)
    (final_price : Q) : M (Q * Q * Q * Q * Q) :=
  reset_flags ;;;
  size_confidence <~
    _calculate_size_confidence (get_or (bathroom_size req) 4.0) ;;
  let location_confidence :=
    _calculate_location_confidence (get_or (location req) "marseille") in
  task_confidence <~ _calculate_task_confidence (get_or (tasks req) []) ;;
  price_confidence <~ _calculate_price_confidence task_prices final_price ;;
  let complexity_confidence :=
    _calculate_complexity_confidence (get_or (tasks req) []) in
  ret (size_confidence, location_confidence, task_confidence,
       price_confidence, complexity_confidence).

Definition weighted_score (scores : Q * Q * Q * Q * Q) (flag_count : nat) : Q :=
  let '(size_confidence, location_confidence, task_confidence,
        price_confidence, complexity_confidence) := scores in
  let weighted_confidence :=
    size_confidence * 0.15 + location_confidence * 0.10
    + task_confidence * 0.20 + price_confidence * 0.35
    + complexity_confidence * 0.20 in
  let confidence_percentage := weighted_confidence * 100 in
  let flag_penalty :=
    py_min (inject_Z (Z.of_nat flag_count) * 0.05) 0.20 in
  let confidence_percentage :=
    py_max (confidence_percentage * (1 - flag_penalty)) 0 in
  py_round confidence_percentage 1.

Definition calculate_confidence (req : requirements)
    (task_prices : list task_price) (final_price : Q) : M Q :=
  scores <~ sub_scores req task_prices final_price ;;
  fun sc => (weighted_score scores (List.length (flags sc)), sc).

(** [get_flags()] *)
Definition get_flags (sc : scorer) : list string := flags sc.

(** The body of the loop of [suggest_improvements]. *)
Definition suggestion_step (suggestions : list string) (flag : string)
    : list string :=
  if flag =? "suspiciously_low" then
    (suggestions ++
     ["Review material and labor costs - prices seem unusually low"])%list
  else if flag =? "suspiciously_high" then
    (suggestions ++
     ["Review pricing calculations - prices seem unusually high"])%list
  else if flag =? "unusually_small" then
    (suggestions ++
     ["Verify bathroom size - very small bathrooms may need special considerations"])%list
  else if flag =? "unusually_large" then
    (suggestions ++
     ["Verify bathroom size - very large bathrooms may need different pricing model"])%list
  else if flag =? "missing_essential_tasks" then
    (suggestions ++
     ["Consider adding essential renovation tasks for complete bathroom renovation"])%list
  else if flag =? "single_task_project" then
    (suggestions ++
     ["Single task projects may need different pricing approach"])%list
  else if flag =? "many_tasks" then
    (suggestions ++
     ["Many tasks detected - verify all are necessary for this project"])%list
  else suggestions.

(** [suggest_improvements()] *)
Definition suggest_improvements (sc : scorer) : list string :=
  fold_left suggestion_step (flags sc) [].

(** [_calculate_flag_severity()] *)
Definition _calculate_flag_severity (sc : scorer) : string :=
  match flags sc with
  | [] => "none"
  | _ =>
      let high_severity_flags :=
        ["suspiciously_low"; "suspiciously_high"; "no_tasks_detected"] in
      let medium_severity_flags :=
        ["unusually_small"; "unusually_large"; "missing_essential_tasks"] in
      let high_count :=
        List.length
          (filter (fun flag => str_mem flag high_severity_flags) (flags sc)) in
      let medium_count :=
        List.length
          (filter (fun flag => str_mem flag medium_severity_flags) (flags sc)) in
      if (0 <? high_count)%nat then "high"
      else if (0 <? medium_count)%nat then "medium"
      else "low"
  end.

Record flag_categories : Type := {
  size_issues : list string;
  task_issues : list string;
  price_issues : list string;
  location_issues : list string
}.

Record flag_summary : Type := {
  total_flags : nat;
  categories : flag_categories;
  all_flags : list string;
  severity : string
}.

(** The body of the loop of [get_flag_summary]. *)
Definition categorize (c : flag_categories) (flag : string) : flag_categories :=
  if contains "size" flag || contains "small" flag || contains "large" flag
  then {| size_issues := (size_issues c ++ [flag])%list;
          task_issues := task_issues c;
          price_issues := price_issues c;
          location_issues := location_issues c |}
  else if contains "task" flag
  then {| size_issues := size_issues c;
          task_issues := (task_issues c ++ [flag])%list;
          price_issues := price_issues c;
          location_issues := location_issues c |}
  else if contains "price" flag || contains "low" flag || contains "high" flag
  then {| size_issues := size_issues c;
          task_issues := task_issues c;
          price_issues := (price_issues c ++ [flag])%list;
          location_issues := location_issues c |}
  else if contains "location" flag
  then {| size_issues := size_issues c;
          task_issues := task_issues c;
          price_issues := price_issues c;
          location_issues := (location_issues c ++ [flag])%list |}
  else c.

(** [get_flag_summary()] *)
Definition get_flag_summary (sc : scorer) : flag_summary :=
  let flag_categories :=
    fold_left categorize (flags sc)
      {| size_issues := []; task_issues := []; price_issues := [];
         location_issues := [] |} in
  {| total_flags := List.length (flags sc);
     categories := flag_categories;
     all_flags := flags sc;
     severity := _calculate_flag_severity sc |}.

Record confidence_report : Type := {
  r_confidence_score : Q;
  r_flags : flag_summary;
  r_suggestions : list string;
  r_historical_data : dict price_history
}.

(** [get_confidence_report()], without the copy of the constant factor
    tables: it scores the empty requirements [{}] with no price line and a
    final price of 0, then reads the flags of that call. *)
Definition get_confidence_report : M confidence_report :=
  score <~
    calculate_confidence
      {| bathroom_size := None; location := None; tasks := None;
         budget_conscious := None; original_transcript := None |}
      [] 0 ;;
  fun sc =>
    ({| r_confidence_score := score;
        r_flags := get_flag_summary sc;
        r_suggestions := suggest_improvements sc;
        r_historical_data := historical_pricing sc |}, sc).

End ConfidenceScorer.

(** ** pricing_engine.py *)

Module SmartPricingEngine.

(** [self.city_multipliers] *)
Definition city_multipliers : dict Q := [
  ("marseille", 1.0); ("paris", 1.3); ("nice", 1.25); ("lyon", 1.15);
  ("toulouse", 1.1); ("nantes", 1.05); ("strasbourg", 1.1);
  ("montpellier", 1.05)
].

(** The pattern [(\d+(?:\.\d+)?)\s*m²] tried at the start of [s]; the result
    is the text of group 1, as its integer digits and its fraction digits.
    The digit runs are taken greedily: giving back a digit leaves a digit
    where the pattern needs a dot, a space or the unit, so no shorter run can
    match.  The second alternative is the pattern without its optional
    group. *)
Definition unit_follows (s : string) : bool :=
  let '(_, rest) := span isspace s in
  prefix (String "m" (String sup2 EmptyString)) rest.

Definition match_size_at (s : string) : option (string * string) :=
  let '(int_digits, r1) := span isdigit s in
  match int_digits with
  | EmptyString => None
  | _ =>
      let with_fraction :=
        match r1 with
        | String "." r1' =>
            let '(frac_digits, r2) := span isdigit r1' in
            match frac_digits with
            | EmptyString => None
            | _ => if unit_follows r2 then Some (int_digits, frac_digits)
                   else None
            end
        | _ => None
        end in
      match with_fraction with
      | Some g => Some g
      | None => if unit_follows r1 then Some (int_digits, EmptyString) else None
      end
  end.

(** [re.search] with that pattern: the match at the leftmost position. *)
Fixpoint search_size (s : string) : option (string * string) :=
  match match_size_at s with
  | Some g => Some g
  | None =>
      match s with
      | EmptyString => None
      | String _ s' => search_size s'
      end
  end.

Definition _extract_location (transcript : string) : string :=
  let cities := dict_keys city_multipliers in
  match find (fun city => contains city transcript) cities with
  | Some city => city
  | None => "marseille"
  end.

Definition task_keywords : dict (list string) := [
  ("tiles", ["tiles"; "tile"; "ceramic"; "porcelain"]);
  ("plumbing", ["plumbing"; "shower"; "bath"; "sink"; "toilet"]);
  ("painting", ["paint"; "repaint"; "wall"]);
  ("flooring", ["floor"; "flooring"; "laying"]);
  ("vanity", ["vanity"; "cabinet"; "storage"]);
  ("electrical", ["electrical"; "lighting"; "outlet"; "switch"])
].

Definition _extract_tasks (transcript : string) : list string :=
  fold_left
    (fun detected_tasks (item : string * list string) =>
       let '(task_type, keywords) := item in
       if any_in keywords transcript
       then (detected_tasks ++ [task_type])%list
       else detected_tasks)
    task_keywords [].

(** [parse_transcript(transcript)].  [not transcript] is the test for the
    empty string; the [isinstance] test holds of every [string].  Nothing in
    the inner [try] block raises here, so its [except] clause has no
    counterpart. *)
Definition parse_transcript (transcript : string) : result requirements :=
  if (String.length transcript =? 0)%nat then
    Raise (ValueError "Transcript must be a non-empty string")
  else if (String.length (strip transcript) <? 10)%nat then
    Raise (ValueError "Transcript too short - please provide more details")
  else
    let transcript_lower := strip (lower transcript) in
    let size_match := search_size transcript_lower in
    let bathroom_size :=
      match size_match with
      | Some (int_digits, frac_digits) =>
          float_of_decimal int_digits frac_digits
      | None => 4.0
      end in
    let location := _extract_location transcript_lower in
    let tasks := _extract_tasks transcript_lower in
    let tasks :=
      match tasks with
      | [] => ["painting"]
      | _ => tasks
      end in
    let budget_conscious :=
      any_in ["budget"; "cheap"; "affordable"; "economy"] transcript_lower in
    Ok {| bathroom_size := Some bathroom_size;
          location := Some location;
          tasks := Some tasks;
          budget_conscious := Some budget_conscious;
          original_transcript := Some transcript |}.

Definition _apply_margin_protection (base_price : Q) (budget_conscious : bool)
    : Q :=
  let margin := if budget_conscious then 0.15 else 0.25 in
  base_price * (1 + margin).

Definition _calculate_margin_percentage (subtotal final_price : Q) : Q :=
  if Qltb 0 subtotal then ((final_price - subtotal) / subtotal) * 100
  else 0.0.

Record pricing_breakdown : Type := {
  pb_tasks : list task_price;
  labor_total : Q;
  materials_total : Q;
  vat_amount : Q;
  subtotal : Q;
  final_price : Q
}.

Record business_metrics : Type := {
  confidence_score : Q;
  margin_percentage : Q;
  city_multiplier : Q;
  total_duration : Q;
  estimated_duration : Q
}.

Record metadata : Type := {
  version : string;
  generated_by : string;
  algorithm_version : string;
  last_updated : string
}.

Record quote : Type := {
  quote_id : string;
  generated_at : string;
  client_requirements : requirements;
  pricing : pricing_breakdown;
  metrics : business_metrics;
  meta : metadata
}.

(** The readings of [datetime.now()] made by one call of [generate_quote],
    already formatted: [strftime('%Y%m%d%H%M%S')] for the identifier and
    [isoformat()] for the two time stamps. *)
Record clock : Type := {
  now_strftime : string;
  now_generated_at : string;
  now_last_updated : string
}.

Section Engine.

(** [x ** 0.5] *)
Variable pow_half : Q -> Q.

Definition task_price_body (task : string) (req : requirements)
    : result task_price :=
  size <- field "bathroom_size" (bathroom_size req) ;;
  let material_cost :=
    MaterialDatabase.get_task_materials_cost pow_half task size "standard" in
  size' <- field "bathroom_size" (bathroom_size req) ;;
  let labor_cost :=
    LaborCalculator.calculate_labor_cost pow_half task size' "standard" in
  loc <- field "location" (location req) ;;
  city_multiplier <- dict_index city_multipliers loc ;;
  let adjusted_material_cost := material_cost * city_multiplier in
  let adjusted_labor_cost := labor_cost * city_multiplier in
  Ok {| tp_task := Some task;
        tp_task_type := None;
        tp_materials := Some adjusted_material_cost;
        tp_labor := Some adjusted_labor_cost;
        tp_total := Some (adjusted_material_cost + adjusted_labor_cost);
        tp_city_multiplier := Some city_multiplier;
        tp_error := None |}.

(** [_calculate_task_price(task, requirements)]: the [try] body, and the
    fallback line of the [except] clause. *)
Definition _calculate_task_price (task : string) (req : requirements)
    : task_price :=
  match task_price_body task req with
  | Ok line => line
  | Raise e =>
      {| tp_task := Some task;
         tp_task_type := None;
         tp_materials := Some 100.0;
         tp_labor := Some 200.0;
         tp_total := Some 300.0;
         tp_city_multiplier := Some 1.0;
         tp_error := Some (str_of_exn e) |}
  end.

(** One term of the sum of [_calculate_total_duration]. *)
Definition total_duration_step (req : requirements) (acc : result Q)
    (task : task_price) : result Q :=
  total <- acc ;;
  name <- field "task" (tp_task task) ;;
  size <- field "bathroom_size" (bathroom_size req) ;;
  Ok (total
      + LaborCalculator.get_task_duration pow_half name size "standard").

Definition _calculate_total_duration (task_prices : list task_price)
    (req : requirements) : result Q :=
  fold_left (total_duration_step req) task_prices (Ok 0).

(** One turn of the accumulation loop of [generate_quote]. *)
Definition price_tasks_step (req : requirements)
    (acc : result (list task_price * Q * Q)) (task : string)
    : result (list task_price * Q * Q) :=
  st <- acc ;;
  let '(task_prices, total_labor, total_materials) := st in
  let task_price := _calculate_task_price task req in
  labor <- field "labor" (tp_labor task_price) ;;
  materials <- field "materials" (tp_materials task_price) ;;
  Ok ((task_prices ++ [task_price])%list,
      total_labor + labor, total_materials + materials).

(** The accumulation loop of [generate_quote]: the lines in task order, the
    labor total and the materials total. *)
Definition price_tasks (req : requirements) (tasks : list string)
    : result (list task_price * Q * Q) :=
  fold_left (price_tasks_step req) tasks (Ok ([], 0, 0)).

(** The [try] body of [generate_quote], over the scorer it mutates. *)
Definition generate_quote_body (now : clock) (transcript : string)
    (sc : ConfidenceScorer.scorer)
    : result quote * ConfidenceScorer.scorer :=
  match parse_transcript transcript with
  | Raise e => (Raise e, sc)
  | Ok req =>
      match
        (task_list <- field "tasks" (tasks req) ;;
         priced <- price_tasks req task_list ;;
         let '(task_prices, total_labor, total_materials) := priced in
         vat_amount <-
           VATRules.calculate_total_vat task_prices
             VATRules.default_work_value VATRules.default_property_age ;;
         budget <- field "budget_conscious" (budget_conscious req) ;;
         Ok (task_prices, total_labor, total_materials, vat_amount, budget))
      with
      | Raise e => (Raise e, sc)
      | Ok (task_prices, total_labor, total_materials, vat_amount, budget) =>
          let subtotal := total_labor + total_materials in
          let total_with_vat := subtotal + vat_amount in
          let final_price := _apply_margin_protection total_with_vat budget in
          let '(confidence_score, sc') :=
            ConfidenceScorer.calculate_confidence req task_prices final_price
              sc in
          (loc <- field "location" (location req) ;;
           city_multiplier <- dict_index city_multipliers loc ;;
           total_duration <- _calculate_total_duration task_prices req ;;
           estimated_duration <- _calculate_total_duration task_prices req ;;
           Ok {| quote_id := "DQ" ++ now_strftime now;
                 generated_at := now_generated_at now;
                 client_requirements := req;
                 pricing := {|
                   pb_tasks := task_prices;
                   labor_total := total_labor;
                   materials_total := total_materials;
                   vat_amount := vat_amount;
                   subtotal := subtotal;
                   final_price := final_price
                 |};
                 metrics := {|
                   confidence_score := confidence_score;
                   margin_percentage :=
                     _calculate_margin_percentage subtotal final_price;
                   city_multiplier := city_multiplier;
                   total_duration := total_duration;
                   estimated_duration := estimated_duration
                 |};
                 meta := {|
                   version := "1.0.0";
                   generated_by := "Donizo Smart Pricing Engine";
                   algorithm_version := "2.1.0";
                   last_updated := now_last_updated now
                 |} |},
           sc')
      end
  end.

(** [generate_quote(transcript)]: every exception of the body is turned
    into a [RuntimeError]. *)
Definition generate_quote (now : clock) (transcript : string)
    (sc : ConfidenceScorer.scorer)
    : result quote * ConfidenceScorer.scorer :=
  match generate_quote_body now transcript sc with
  | (Ok q, sc') => (Ok q, sc')
  | (Raise e, sc') =>
      (Raise (RuntimeError ("Failed to generate quote: " ++ str_of_exn e)), sc')
  end.

End Engine.

End SmartPricingEngine.

(** * Vocabulary of the statements *)

Section Vocabulary.

Import ConfidenceScorer SmartPricingEngine.

(** The eligibility conditions of the reduced rate, as the specification
    words them. *)
Definition reduced_conditions (work_value : Q) (property_age : Z) : Prop :=
  1000 <= work_value /\ work_value <= 50000 /\ (2 <= property_age)%Z.

(** The cost of one fixture. *)
Definition fixture_cost (f : MaterialDatabase.fixture) : Q :=
  MaterialDatabase.f_base_cost f * MaterialDatabase.f_size_factor f.



(** A price line with the two amounts the scorer reads. *)
Definition amounts_line (materials labor : Q) : task_price := {|
  tp_task := None; tp_task_type := None;
  tp_materials := Some materials; tp_labor := Some labor;
  tp_total := None; tp_city_multiplier := None; tp_error := None
|}.


(** [sum(data['avg'] for data in self.historical_pricing.values())] *)
Definition historical_avg (sc : scorer) : Q :=
  py_sum (map h_avg (dict_values (historical_pricing sc))).

(** The bucket score of a price ratio, as the specification lists it. *)
Definition price_bucket_score (ratio : Q) : Q :=
  if Qle_bool ratio 0.5 then 0.6
  else if Qle_bool ratio 0.8 then 0.8
  else if Qle_bool ratio 1.0 then 1.0
  else if Qle_bool ratio 1.3 then 0.9
  else if Qle_bool ratio 1.8 then 0.7
  else 0.7.

(** The price sub-score as a function of the lines, the final price and
    the historical table alone. *)
Definition price_score_of (task_prices : list task_price) (final_price : Q)
    (history : dict price_history) : Q :=
  match task_prices with
  | [] => 0.5
  | _ =>
      let avg := py_sum (map h_avg (dict_values history)) in
      price_bucket_score
        (if Qltb 0 avg then
           (if Qltb 0 4.0 then final_price / 4.0 else 0) / avg
         else 1.0)
  end.

(** The flag name that [suggest_improvements] compares with, and the
    suggestion it would make. *)
Definition bare_missing_flag : string := "missing_essential_tasks".
Definition essential_suggestion : string :=
  "Consider adding essential renovation tasks for complete bathroom renovation".

(** [q] is a fraction of one. *)
Definition unit_interval (q : Q) : Prop := 0 <= q /\ q <= 1.

(** The message of the [ValueError] raised for a text that is too short. *)
Definition rejection_message (transcript : string) : string :=
  match transcript with
  | EmptyString => "Transcript must be a non-empty string"
  | _ => "Transcript too short - please provide more details"
  end.

(** [l1] lists some elements of [l2], in the order of [l2]. *)
Inductive in_order : list string -> list string -> Prop :=
| in_order_nil : forall l, in_order [] l
| in_order_take : forall x l1 l2, in_order l1 l2 -> in_order (x :: l1) (x :: l2)
| in_order_skip : forall x l1 l2, in_order l1 l2 -> in_order l1 (x :: l2).

(** The task types in their enumeration order. *)
Definition canonical_tasks : list string :=
  ["tiles"; "plumbing"; "painting"; "flooring"; "vanity"; "electrical"].

(** A keyword of [task] occurs in [text]. *)
Definition mentions (text task : string) : bool :=
  any_in (dict_get_or task_keywords task []) text.

(** [x] has at most [n] decimals. *)
Definition on_grid (n : nat) (x : Q) : Prop := exists z : Z, x == z # scale n.

(** The two amounts of a line, as [.get('materials', 0)] and
    [.get('labor', 0)] read them. *)
Definition line_materials (line : task_price) : Q := get_or (tp_materials line) 0.
Definition line_labor (line : task_price) : Q := get_or (tp_labor line) 0.

(** VAT of one line at the standard rate of 20%, materials and labor rounded
    separately. *)
Definition standard_vat_of_line (line : task_price) : Q :=
  py_round (0.20 * line_materials line) 2 + py_round (0.20 * line_labor line) 2.

(** The line of a task, as the loop of [generate_quote] computes it. *)
Definition line_of (pow_half : Q -> Q) (req : requirements) (task : string)
    : task_price :=
  _calculate_task_price pow_half task req.


(** The words that mark a budget-conscious request. *)
Definition budget_words : list string :=
  ["budget"; "cheap"; "affordable"; "economy"].

(** A square root to 8 decimals, exact on the squares of such numbers. *)
Definition sqrt_8_decimals (x : Q) : Q :=
  Z.sqrt ((Qnum x * 10000000000000000) / Zpos (Qden x)) # 100000000.

(** The readings of a clock at noon. *)
Definition noon : clock := {|
  now_strftime := "20250101120000";
  now_generated_at := "2025-01-01T12:00:00";
  now_last_updated := "2025-01-01T12:00:00"
|}.

(** The transcript of [test_transcript_parsing]; its third character is the
    superscript two. *)
Definition marseille_transcript : string :=
  "4m" ++ String sup2 " bathroom renovation with tiles and plumbing in Marseille".


(** The hours of a task before the complexity multiplier is applied:
    [total_time] in the duration functions of [labor_calc.py]. *)
Definition base_hours (pow_half : Q -> Q) (task : string) (size : Q) : Q :=
  if task =? "tiles" then pow_half size * 4 * 2.4 * 2.5 + 2.0 + 1.5
  else if task =? "plumbing" then py_sum [8.0; 4.0; 3.0] + 1.0 + 2.0
  else if task =? "painting" then pow_half size * 4 * 2.4 * 0.3 + 1.5 + 1.0
  else if task =? "flooring" then size * 1.8 + 2.0 + 1.0
  else if task =? "vanity" then 3.0 + 1.5 + 0.5
  else if task =? "electrical" then
    2.0
    + (if Qle_bool size 4 then 2 else if Qle_bool size 6 then 3 else 4) * 0.5
    + 1.0
  else 0.

(** The duration of a task at the default complexity. *)
Definition standard_duration (pow_half : Q -> Q) (size : Q) (task : string)
    : Q :=
  LaborCalculator.get_task_duration pow_half task size "standard".

(** The VAT tables that calls of the two update hooks can produce from the
    tables of the constructor. *)
Inductive reachable_tables : VATRules.vat_tables -> Prop :=
| reach_initial : reachable_tables VATRules.initial_tables
| reach_rates : forall self new_rates,
    reachable_tables self ->
    reachable_tables (VATRules.update_vat_rates self new_rates)
| reach_classifications : forall self new_classifications,
    reachable_tables self ->
    reachable_tables
      (VATRules.update_task_classifications self new_classifications).

(** Every class used by the classification table has a rate, and so have
    the two classes [get_vat_rate] names. *)
Definition tables_ok (self : VATRules.vat_tables) : Prop :=
  dict_mem (VATRules.t_vat_rates self) "standard" = true
  /\ dict_mem (VATRules.t_vat_rates self) "reduced" = true
  /\ Forall (fun item : string * string =>
               dict_mem (VATRules.t_vat_rates self) (snd item) = true)
       (VATRules.t_task_vat_classification self).

(** The flags of the three flag-raising sub-scores, as functions of the
    arguments of the scoring call. *)
Definition size_flags (size : Q) : list string :=
  if Qle_bool 0 size && Qltb size 2 then ["unusually_small"]
  else if Qle_bool 2 size && Qltb size 4 then []
  else if Qle_bool 4 size && Qltb size 8 then []
  else if Qle_bool 8 size && Qltb size 12 then []
  else ["unusually_large"].

Definition task_flags (tasks : list string) : list string :=
  match tasks with
  | [] => ["no_tasks_detected"]
  | _ =>
      (if (List.length tasks =? 1)%nat then ["single_task_project"] else [])
      ++ (if (5 <? List.length tasks)%nat then ["many_tasks"] else [])
      ++ match filter (fun task => negb (str_mem task tasks))
                 ["plumbing"; "tiles"] with
         | [] => []
         | missing => [("missing_essential_tasks: " ++ join ", " missing)%string]
         end
  end%list.

(** The ratio the price sub-score puts in a bucket. *)
Definition price_ratio (final_price : Q) (history : dict price_history) : Q :=
  let avg := py_sum (map h_avg (dict_values history)) in
  if Qltb 0 avg then (if Qltb 0 4.0 then final_price / 4.0 else 0) / avg
  else 1.0.

Definition price_flags (task_prices : list task_price) (final_price : Q)
    (history : dict price_history) : list string :=
  match task_prices with
  | [] => []
  | _ =>
      let ratio := price_ratio final_price history in
      if Qle_bool ratio 0.5 then ["suspiciously_low"]
      else if Qle_bool ratio 0.8 then ["below_average"]
      else if Qle_bool ratio 1.0 then []
      else if Qle_bool ratio 1.3 then ["above_average"]
      else ["suspiciously_high"]
  end.

(** Every flag a scoring call can record. *)
Definition possible_flags : list string :=
  ["unusually_small"; "unusually_large"; "no_tasks_detected";
   "single_task_project"; "many_tasks";
   "missing_essential_tasks: plumbing, tiles";
   "missing_essential_tasks: plumbing"; "missing_essential_tasks: tiles";
   "suspiciously_low"; "below_average"; "above_average"; "suspiciously_high"].

(** The test of [get_flag_summary] that puts a flag in some category. *)
Definition categorized (flag : string) : bool :=
  contains "size" flag || contains "small" flag || contains "large" flag
  || contains "task" flag
  || contains "price" flag || contains "low" flag || contains "high" flag
  || contains "location" flag.

(** The number of flags put in the four categories together. *)
Definition categories_size (c : flag_categories) : nat :=
  (List.length (size_issues c) + List.length (task_issues c)
   + List.length (price_issues c) + List.length (location_issues c))%nat.

(** The area unit of the size pattern: [m] and the superscript two. *)
Definition area_unit : string := String "m" (String sup2 EmptyString).

(** The fields of two requirement records that the extraction computes from
    the text agree. *)
Definition same_extraction (r1 r2 : requirements) : Prop :=
  bathroom_size r1 = bathroom_size r2
  /\ location r1 = location r2
  /\ tasks r1 = tasks r2
  /\ budget_conscious r1 = budget_conscious r2.




End Vocabulary.

(** * Properties *)

(** ** Rounding *)

Section Rounding.

Import PyNum.

(** Turn a hypothesis on [?=] into the order it decides. *)
Ltac qcompare_in H :=
  first [apply Qeq_alt in H | apply Qlt_alt in H | apply Qgt_alt in H].

Lemma round_half_even_comp (x y : Q) :
  x == y -> round_half_even x = round_half_even y.
Proof.
  intros E. unfold round_half_even.
  rewrite (Qfloor_comp _ _ E).
  assert (C : (x - inject_Z (Qfloor y) ?= 1 # 2) = (y - inject_Z (Qfloor y) ?= 1 # 2)).
  { apply Qcompare_comp; [rewrite E|]; reflexivity. }
  rewrite C. reflexivity.
Qed.

Lemma round_half_even_lower (x : Q) : x - (1 # 2) <= inject_Z (round_half_even x).
Proof.
  unfold round_half_even.
  pose proof (Qfloor_le x) as Hl. pose proof (Qlt_floor x) as Hu.
  rewrite inject_Z_plus in Hu. change (inject_Z 1) with 1 in Hu.
  destruct (x - inject_Z (Qfloor x) ?= 1 # 2) eqn:C.
  - apply Qeq_alt in C. destruct (Z.even (Qfloor x)).
    + lra.
    + rewrite inject_Z_plus. change (inject_Z 1) with 1. lra.
  - apply Qlt_alt in C. lra.
  - rewrite inject_Z_plus. change (inject_Z 1) with 1. lra.
Qed.

Lemma round_half_even_upper (x : Q) : inject_Z (round_half_even x) <= x + (1 # 2).
Proof.
  unfold round_half_even.
  pose proof (Qfloor_le x) as Hl. pose proof (Qlt_floor x) as Hu.
  rewrite inject_Z_plus in Hu. change (inject_Z 1) with 1 in Hu.
  destruct (x - inject_Z (Qfloor x) ?= 1 # 2) eqn:C.
  - apply Qeq_alt in C. destruct (Z.even (Qfloor x)).
    + lra.
    + rewrite inject_Z_plus. change (inject_Z 1) with 1. lra.
  - apply Qlt_alt in C. lra.
  - apply Qgt_alt in C. rewrite inject_Z_plus. change (inject_Z 1) with 1. lra.
Qed.

Lemma round_half_even_Z (z : Z) : round_half_even (inject_Z z) = z.
Proof.
  unfold round_half_even. rewrite Qfloor_Z.
  assert (C : (inject_Z z - inject_Z z ?= 1 # 2) = Lt).
  { apply Qlt_alt. setoid_replace (inject_Z z - inject_Z z) with 0 by ring.
    reflexivity. }
  rewrite C. reflexivity.
Qed.

Lemma round_half_even_mono (x y : Q) :
  x <= y -> (round_half_even x <= round_half_even y)%Z.
Proof.
  intros Hxy.
  destruct (Z.eq_dec (Qfloor x) (Qfloor y)) as [E | NE].
  - unfold round_half_even. rewrite E.
    destruct (x - inject_Z (Qfloor y) ?= 1 # 2) eqn:Cx;
      destruct (y - inject_Z (Qfloor y) ?= 1 # 2) eqn:Cy;
      qcompare_in Cx; qcompare_in Cy;
      try (destruct (Z.even (Qfloor y))); try lia; exfalso; lra.
  - assert (L : (Qfloor x < Qfloor y)%Z).
    { pose proof (Qfloor_resp_le _ _ Hxy). lia. }
    assert (U : (round_half_even x <= Qfloor x + 1)%Z).
    { unfold round_half_even.
      destruct (x - inject_Z (Qfloor x) ?= 1 # 2); try destruct (Z.even _); lia. }
    assert (D : (Qfloor y <= round_half_even y)%Z).
    { unfold round_half_even.
      destruct (y - inject_Z (Qfloor y) ?= 1 # 2); try destruct (Z.even _); lia. }
    lia.
Qed.

Lemma scale_Q (n : nat) : 0 < inject_Z (Zpos (scale n)).
Proof. reflexivity. Qed.

Lemma py_round_comp (x y : Q) (n : nat) : x == y -> py_round x n == py_round y n.
Proof.
  intros E. unfold py_round.
  rewrite (round_half_even_comp (x * inject_Z (Zpos (scale n)))
             (y * inject_Z (Zpos (scale n)))); [reflexivity | now rewrite E].
Qed.

Lemma py_round_mono (x y : Q) (n : nat) : x <= y -> py_round x n <= py_round y n.
Proof.
  intros Hxy. unfold py_round, Qle; simpl.
  apply Z.mul_le_mono_nonneg_r; [lia |].
  apply round_half_even_mono.
  apply Qmult_le_compat_r; [exact Hxy | apply Qlt_le_weak, scale_Q].
Qed.

(** A value with at most [n] decimals is left unchanged. *)
Lemma py_round_grid (z : Z) (n : nat) : py_round (z # scale n) n == z # scale n.
Proof.
  unfold py_round.
  rewrite (round_half_even_comp _ (inject_Z z)).
  - now rewrite round_half_even_Z.
  - unfold Qeq; simpl. lia.
Qed.

Lemma py_round_nonneg (x : Q) (n : nat) : 0 <= x -> 0 <= py_round x n.
Proof.
  intros H. apply Qle_trans with (py_round (0 # scale n) n).
  - rewrite py_round_grid. unfold Qle; simpl; lia.
  - apply py_round_mono. unfold Qle in *; simpl in *. lia.
Qed.


(** Rounding keeps a value between two bounds that have at most [n]
    decimals themselves. *)
Lemma py_round_between (x : Q) (n : nat) (lo hi : Z) :
  lo # scale n <= x -> x <= hi # scale n ->
  lo # scale n <= py_round x n /\ py_round x n <= hi # scale n.
Proof.
  intros Hl Hu. split.
  - apply Qle_trans with (py_round (lo # scale n) n).
    + rewrite py_round_grid. apply Qle_refl.
    + now apply py_round_mono.
  - apply Qle_trans with (py_round (hi # scale n) n).
    + now apply py_round_mono.
    + rewrite py_round_grid. apply Qle_refl.
Qed.

End Rounding.

(** ** VAT rate selection *)

Lemma Qle_bool_false (a b : Q) : Qle_bool a b = false -> b < a.
Proof.
  intros H. apply Qnot_le_lt. intros C. apply Qle_bool_iff in C. congruence.
Qed.

Lemma _is_eligible_for_reduced_vat_spec (work_value : Q) (age : Z) :
  VATRules._is_eligible_for_reduced_vat work_value age = true
  <-> reduced_conditions work_value age.
Proof.
  unfold VATRules._is_eligible_for_reduced_vat, reduced_conditions.
  cbn [VATRules.vat_conditions_reduced VATRules.min_work_value
       VATRules.max_work_value VATRules.property_age].
  destruct (Qle_bool 1000.0 work_value) eqn:Lo;
    [apply Qle_bool_iff in Lo | apply Qle_bool_false in Lo];
    (destruct (Qle_bool work_value 50000.0) eqn:Hi;
     [apply Qle_bool_iff in Hi | apply Qle_bool_false in Hi]);
    (destruct (age <? 2)%Z eqn:Ag;
     [apply Z.ltb_lt in Ag | apply Z.ltb_ge in Ag]);
    cbn [andb negb]; split; intros H;
    try discriminate H; try reflexivity;
    try (destruct H as (H1 & H2 & H3); exfalso; first [lia | lra]).
  repeat split; first [lia | lra].
Qed.

(** C3.  For a task whose VAT class is [reduced], [get_vat_rate] returns the
    reduced rate (10%) exactly when the work value lies in [1000, 50000] and
    the property age is at least 2, and the standard rate (20%) exactly when
    it does not; a task that is not in the classification table gets the
    standard rate. *)
Theorem get_vat_rate_by_class (task : string) (work_value : Q) (age : Z) :
  (dict_get VATRules.task_vat_classification task = Some "reduced" ->
   (VATRules.get_vat_rate task work_value age = Ok 0.10
    <-> reduced_conditions work_value age) /\
   (VATRules.get_vat_rate task work_value age = Ok 0.20
    <-> ~ reduced_conditions work_value age)) /\
  (dict_get VATRules.task_vat_classification task = None ->
   VATRules.get_vat_rate task work_value age = Ok 0.20).
Proof.
  split.
  - intros Hclass. unfold VATRules.get_vat_rate. rewrite Hclass. simpl.
    pose proof (_is_eligible_for_reduced_vat_spec work_value age) as E.
    destruct (VATRules._is_eligible_for_reduced_vat work_value age).
    + split; split; intros H.
      * now apply E.
      * reflexivity.
      * discriminate H.
      * exfalso. apply H. now apply E.
    + split; split; intros H.
      * discriminate H.
      * apply E in H. discriminate H.
      * intros C. apply E in C. discriminate C.
      * reflexivity.
  - intros Hclass. unfold VATRules.get_vat_rate. rewrite Hclass. reflexivity.
Qed.

Lemma get_vat_rate_by_class_witness :
  VATRules.get_vat_rate "tiles" 1000 2 = Ok 0.10 /\
  VATRules.get_vat_rate "tiles" 50001 2 = Ok 0.20 /\
  VATRules.get_vat_rate "sauna" 5000 10 = Ok 0.20.
Proof.
  split; [| split].
  - destruct (get_vat_rate_by_class "tiles" 1000 2) as [Hr _].
    destruct (Hr eq_refl) as [[_ H] _]. apply H.
    unfold reduced_conditions. repeat split; try lia; unfold Qle; simpl; lia.
  - destruct (get_vat_rate_by_class "tiles" 50001 2) as [Hr _].
    destruct (Hr eq_refl) as [_ [_ H]]. apply H.
    unfold reduced_conditions. intros (_ & C & _). unfold Qle in C; simpl in C; lia.
  - destruct (get_vat_rate_by_class "sauna" 5000 10) as [_ Hn].
    apply Hn. reflexivity.
Defined.

(** ** Material costs *)

Section MaterialProperties.

Variable pow_half : Q -> Q.




(** C5 at the failing input: the vanity table has no [luxury] entry, so the
    multiplier falls back to 1.0 and the luxury cost (220) is below the
    premium cost (352); the same holds of painting and flooring. *)
Theorem luxury_below_premium (size : Q) :
  MaterialDatabase.get_task_materials_cost pow_half "vanity" size "luxury"
  == 220
  /\ MaterialDatabase.get_task_materials_cost pow_half "vanity" size "premium"
     == 352
  /\ MaterialDatabase.get_task_materials_cost pow_half "vanity" size "luxury"
     < MaterialDatabase.get_task_materials_cost pow_half "vanity" size "premium"
  /\ MaterialDatabase.get_task_materials_cost pow_half "flooring" 4 "luxury"
     < MaterialDatabase.get_task_materials_cost pow_half "flooring" 4 "premium"
  /\ dict_get (MaterialDatabase.quality_multipliers
                 (MaterialDatabase.tiles MaterialDatabase.materials)) "luxury"
     = Some 2.0
  /\ dict_get (MaterialDatabase.v_quality_multipliers
                 (MaterialDatabase.vanity MaterialDatabase.materials)) "luxury"
     = None.
Proof. vm_compute. repeat split; reflexivity. Qed.

(** What does hold of the quality tiers: for every task type and every
    size, the cost does not decrease from [basic] to [standard] to
    [premium]. *)
Lemma cost_monotone_up_to_premium (task : string) (size : Q) :
  (forall x, 0 <= x -> 0 <= pow_half x) -> 0 <= size ->
  MaterialDatabase.get_task_materials_cost pow_half task size "basic"
  <= MaterialDatabase.get_task_materials_cost pow_half task size "standard"
  /\ MaterialDatabase.get_task_materials_cost pow_half task size "standard"
     <= MaterialDatabase.get_task_materials_cost pow_half task size "premium".
Proof.
  intros Hph Hs. pose proof (Hph size Hs) as Hp.
  unfold MaterialDatabase.get_task_materials_cost.
  destruct (negb (str_mem task MaterialDatabase.materials_keys));
    [split; apply Qle_refl |].
  destruct (task =? "tiles").
  { unfold MaterialDatabase._calculate_tiles_cost.
    cbn [MaterialDatabase.materials MaterialDatabase._load_default_materials
         MaterialDatabase.tiles MaterialDatabase.base_cost_per_m2
         MaterialDatabase.size_factor MaterialDatabase.quality_multipliers].
    change (dict_get_or _ "basic" 1.0) with 0.8.
    change (dict_get_or _ "standard" 1.0) with 1.0.
    change (dict_get_or _ "premium" 1.0) with 1.4.
    split; apply py_round_mono; lra. }
  destruct (task =? "plumbing"); [split; apply Qle_refl |].
  destruct (task =? "painting").
  { unfold MaterialDatabase._calculate_painting_cost.
    cbn [MaterialDatabase.materials MaterialDatabase._load_default_materials
         MaterialDatabase.painting MaterialDatabase.p_base_cost_per_m2
         MaterialDatabase.p_size_factor MaterialDatabase.p_coats
         MaterialDatabase.p_quality_multipliers].
    change (dict_get_or _ "basic" 1.0) with 0.7.
    change (dict_get_or _ "standard" 1.0) with 1.0.
    change (dict_get_or _ "premium" 1.0) with 1.3.
    change (inject_Z 2) with 2.
    split; apply py_round_mono; lra. }
  destruct (task =? "flooring").
  { unfold MaterialDatabase._calculate_flooring_cost.
    cbn [MaterialDatabase.materials MaterialDatabase._load_default_materials
         MaterialDatabase.flooring MaterialDatabase.base_cost_per_m2
         MaterialDatabase.size_factor MaterialDatabase.quality_multipliers].
    change (dict_get_or _ "basic" 1.0) with 0.8.
    change (dict_get_or _ "standard" 1.0) with 1.0.
    change (dict_get_or _ "premium" 1.0) with 1.5.
    split; apply py_round_mono; lra. }
  destruct (task =? "vanity"); [vm_compute; split; discriminate |].
  destruct (task =? "electrical"); split; apply Qle_refl.
Qed.

End MaterialProperties.

(** ** Confidence scorer *)

Section ScorerProperties.

Import ConfidenceScorer.

Lemma append_flag_history (f : string) (sc : scorer) :
  historical_pricing (snd (append_flag f sc)) = historical_pricing sc.
Proof. reflexivity. Qed.

Lemma append_if_truthy_history (f : option string) (sc : scorer) :
  historical_pricing (snd (append_if_truthy f sc)) = historical_pricing sc.
Proof.
  destruct f as [f |]; simpl; [destruct (f =? "") |]; reflexivity.
Qed.

Lemma size_loop_history (buckets : dict size_bucket) (size : Q) (sc : scorer) :
  historical_pricing (snd (size_loop buckets size sc)) = historical_pricing sc.
Proof.
  induction buckets as [| [name data] rest IH]; simpl.
  - reflexivity.
  - destruct (in_range data size).
    + unfold mbind. pose proof (append_if_truthy_history (sb_flag data) sc) as H.
      destruct (append_if_truthy (sb_flag data) sc). exact H.
    + exact IH.
Qed.

Lemma _calculate_task_confidence_history (ts : list string) (sc : scorer) :
  historical_pricing (snd (_calculate_task_confidence ts sc))
  = historical_pricing sc.
Proof.
  unfold _calculate_task_confidence.
  destruct ts as [| t ts]; [reflexivity |].
  unfold mbind.
  destruct (List.length (t :: ts) =? 1)%nat;
    destruct (5 <? List.length (t :: ts))%nat;
    destruct (filter _ _);
    destruct (List.length (t :: ts) <=? 2)%nat;
    destruct (List.length (t :: ts) <=? 4)%nat; reflexivity.
Qed.

(** The value of the threshold loop does not depend on the scorer. *)
Lemma price_loop_value (ratio : Q) (sc : scorer) :
  fst (price_loop price_thresholds ratio sc) = price_bucket_score ratio.
Proof.
  unfold price_bucket_score, price_thresholds; simpl.
  repeat (match goal with
          | |- context [Qle_bool ratio ?m] => destruct (Qle_bool ratio m)
          end; simpl; try reflexivity).
Qed.

Lemma price_loop_history (th : dict price_threshold) (ratio : Q) (sc : scorer) :
  historical_pricing (snd (price_loop th ratio sc)) = historical_pricing sc.
Proof.
  induction th as [| [name data] rest IH]; simpl.
  - reflexivity.
  - destruct (Qle_bool ratio (multiplier data)).
    + unfold mbind. pose proof (append_if_truthy_history (pt_flag data) sc) as H.
      destruct (append_if_truthy (pt_flag data) sc). exact H.
    + exact IH.
Qed.

Lemma _calculate_price_confidence_value (tp : list task_price) (fp : Q)
    (sc : scorer) :
  fst (_calculate_price_confidence tp fp sc)
  = price_score_of tp fp (historical_pricing sc).
Proof.
  unfold _calculate_price_confidence, price_score_of.
  destruct tp as [| l tp]; [reflexivity |].
  apply price_loop_value.
Qed.





(** C9 at the failing input.  The flag for missing essential tasks is
    recorded with the list of the missing tasks appended, so the comparison
    with the bare name in [suggest_improvements] never succeeds: three flags
    are recorded and two suggestions are returned, none of them for the
    missing essential tasks. *)
Theorem missing_essential_flag_has_no_suggestion :
  let sc :=
    snd (calculate_confidence
           {| bathroom_size := Some 4.0; location := Some "marseille";
              tasks := Some ["painting"]; budget_conscious := Some false;
              original_transcript := None |}
           [amounts_line 100 50] 300 init) in
  get_flags sc
  = ["single_task_project"; "missing_essential_tasks: plumbing, tiles";
     "suspiciously_low"]
  /\ suggest_improvements sc
     = ["Single task projects may need different pricing approach";
        "Review material and labor costs - prices seem unusually low"]
  /\ ~ In "Consider adding essential renovation tasks for complete bathroom renovation"
         (suggest_improvements sc).
Proof.
  vm_compute. repeat split.
  intros [H | [H | []]]; discriminate H.
Qed.

(** *** The suggestion for missing essential tasks is never made *)

Lemma flags_after_append (f : string) (sc : scorer) :
  flags (snd (append_flag f sc)) = (flags sc ++ [f])%list.
Proof. reflexivity. Qed.

Lemma never_bare_append (f : string) (sc : scorer) :
  f <> bare_missing_flag ->
  Forall (fun g => g <> bare_missing_flag) (flags sc) ->
  Forall (fun g => g <> bare_missing_flag) (flags (snd (append_flag f sc))).
Proof.
  intros Hf H. rewrite flags_after_append. apply Forall_app. split; [exact H |].
  now constructor.
Qed.

Lemma never_bare_size (size : Q) (sc : scorer) :
  Forall (fun g => g <> bare_missing_flag) (flags sc) ->
  Forall (fun g => g <> bare_missing_flag)
    (flags (snd (_calculate_size_confidence size sc))).
Proof.
  intros H. unfold _calculate_size_confidence, bathroom_size_factors.
  cbn [size_loop sb_flag sb_score].
  repeat (match goal with
          | |- context [in_range ?b size] => destruct (in_range b size)
          end;
          [first [exact H | apply never_bare_append; [discriminate | exact H]]
          |]).
  apply never_bare_append; [discriminate | exact H].
Qed.

Lemma never_bare_task (ts : list string) (sc : scorer) :
  Forall (fun g => g <> bare_missing_flag) (flags sc) ->
  Forall (fun g => g <> bare_missing_flag)
    (flags (snd (_calculate_task_confidence ts sc))).
Proof.
  intros H. unfold _calculate_task_confidence.
  destruct ts as [| t ts].
  - apply never_bare_append; [discriminate | exact H].
  - unfold mbind.
    assert (H1 : Forall (fun g => g <> bare_missing_flag)
                   (flags (snd ((if (List.length (t :: ts) =? 1)%nat
                                 then append_flag "single_task_project"
                                 else ret tt) sc)))).
    { destruct (List.length (t :: ts) =? 1)%nat;
        [apply never_bare_append; [discriminate | exact H] | exact H]. }
    destruct ((if (List.length (t :: ts) =? 1)%nat
               then append_flag "single_task_project" else ret tt) sc)
      as [u1 sc1]. cbn [snd] in H1.
    assert (H2 : Forall (fun g => g <> bare_missing_flag)
                   (flags (snd ((if (5 <? List.length (t :: ts))%nat
                                 then append_flag "many_tasks"
                                 else ret tt) sc1)))).
    { destruct (5 <? List.length (t :: ts))%nat;
        [apply never_bare_append; [discriminate | exact H1] | exact H1]. }
    destruct ((if (5 <? List.length (t :: ts))%nat
               then append_flag "many_tasks" else ret tt) sc1)
      as [u2 sc2]. cbn [snd] in H2.
    set (missing := filter _ _).
    assert (H3 : Forall (fun g => g <> bare_missing_flag)
                   (flags (snd (match missing with
                                | [] => ret tt
                                | _ => append_flag
                                         ("missing_essential_tasks: "
                                          ++ join ", " missing)
                                end sc2)))).
    { destruct missing; [exact H2 |].
      apply never_bare_append; [| exact H2].
      unfold bare_missing_flag. cbn [String.append]. discriminate. }
    destruct (match missing with
              | [] => ret tt
              | _ => append_flag _
              end sc2) as [u3 sc3]. cbn [snd] in H3.
    destruct (List.length (t :: ts) <=? 2)%nat;
      [| destruct (List.length (t :: ts) <=? 4)%nat]; exact H3.
Qed.

Lemma never_bare_price (tp : list task_price) (fp : Q) (sc : scorer) :
  Forall (fun g => g <> bare_missing_flag) (flags sc) ->
  Forall (fun g => g <> bare_missing_flag)
    (flags (snd (_calculate_price_confidence tp fp sc))).
Proof.
  intros H. unfold _calculate_price_confidence.
  destruct tp as [| l tp]; [exact H |].
  set (ratio := if Qltb 0 _ then _ else _).
  unfold price_thresholds. cbn [price_loop pt_flag pt_score multiplier].
  repeat (match goal with
          | |- context [Qle_bool ratio ?m] => destruct (Qle_bool ratio m)
          end;
          [first [exact H | apply never_bare_append; [discriminate | exact H]]
          |]).
  apply never_bare_append; [discriminate | exact H].
Qed.

(** No flag recorded by a scoring call is the bare flag name that
    [suggest_improvements] looks for. *)
Lemma never_bare_flags (req : requirements) (tp : list task_price) (fp : Q)
    (sc : scorer) :
  Forall (fun g => g <> bare_missing_flag)
    (flags (snd (calculate_confidence req tp fp sc))).
Proof.
  unfold calculate_confidence, sub_scores, mbind, reset_flags.
  set (sc0 := {| historical_pricing := historical_pricing sc; flags := [] |}).
  pose proof (never_bare_size (get_or (bathroom_size req) 4.0) sc0
                (Forall_nil _)) as H1.
  destruct (_calculate_size_confidence _ sc0) as [s1 sc1]. cbn [snd] in H1.
  pose proof (never_bare_task (get_or (tasks req) []) sc1 H1) as H3.
  destruct (_calculate_task_confidence _ sc1) as [s3 sc3]. cbn [snd] in H3.
  pose proof (never_bare_price tp fp sc3 H3) as H4.
  destruct (_calculate_price_confidence tp fp sc3) as [s4 sc4].
  cbn [snd] in H4. exact H4.
Qed.

Lemma suggestions_without_bare_flag (fs : list string) (acc : list string) :
  Forall (fun g => g <> bare_missing_flag) fs ->
  ~ In essential_suggestion acc ->
  ~ In essential_suggestion
      (fold_left suggestion_step fs acc).
Proof.
  intros H. revert acc. induction H as [| f fs Hf _ IH]; intros acc Hacc.
  - exact Hacc.
  - cbn [fold_left]. apply IH. unfold suggestion_step.
    assert (A : forall s, s <> essential_suggestion ->
                ~ In essential_suggestion (acc ++ [s])).
    { intros s Hs Hin. apply in_app_or in Hin.
      destruct Hin as [Hin | [Hin | []]]; [now apply Hacc | now apply Hs]. }
    destruct (f =? "suspiciously_low"); [apply A; discriminate |].
    destruct (f =? "suspiciously_high"); [apply A; discriminate |].
    destruct (f =? "unusually_small"); [apply A; discriminate |].
    destruct (f =? "unusually_large"); [apply A; discriminate |].
    destruct (f =? "missing_essential_tasks") eqn:E.
    { apply String.eqb_eq in E. now elim Hf. }
    destruct (f =? "single_task_project"); [apply A; discriminate |].
    destruct (f =? "many_tasks"); [apply A; discriminate |].
    exact Hacc.
Qed.

(** After any scoring call, the suggestion for missing essential tasks is
    not among the suggestions, whether or not the flag was fired. *)
Lemma essential_suggestion_never_made (req : requirements)
    (tp : list task_price) (fp : Q) (sc : scorer) :
  ~ In essential_suggestion
      (suggest_improvements (snd (calculate_confidence req tp fp sc))).
Proof.
  unfold suggest_improvements.
  apply suggestions_without_bare_flag.
  - apply never_bare_flags.
  - intros [].
Qed.

(** *** The score is a percentage *)

Lemma size_confidence_unit (size : Q) (sc : scorer) :
  unit_interval (fst (_calculate_size_confidence size sc)).
Proof.
  unfold _calculate_size_confidence, bathroom_size_factors; simpl.
  repeat (match goal with
          | |- context [in_range ?b size] => destruct (in_range b size)
          end; simpl).
  all: unfold unit_interval; split; unfold Qle; simpl; lia.
Qed.

Lemma location_confidence_unit (loc : string) :
  unit_interval (_calculate_location_confidence loc).
Proof.
  unfold _calculate_location_confidence, dict_get_or, location_confidence;
    simpl.
  repeat (match goal with
          | |- context [String.eqb loc ?k] => destruct (String.eqb loc k)
          end; simpl).
  all: unfold unit_interval; split; unfold Qle; simpl; lia.
Qed.

Lemma task_confidence_unit (ts : list string) (sc : scorer) :
  unit_interval (fst (_calculate_task_confidence ts sc)).
Proof.
  unfold _calculate_task_confidence.
  destruct ts as [| t ts].
  - simpl. unfold unit_interval; split; unfold Qle; simpl; lia.
  - unfold mbind.
    destruct (List.length (t :: ts) =? 1)%nat;
      destruct (5 <? List.length (t :: ts))%nat;
      destruct (filter _ _);
      destruct (List.length (t :: ts) <=? 2)%nat;
      destruct (List.length (t :: ts) <=? 4)%nat; simpl;
      unfold unit_interval; split; unfold Qle; simpl; lia.
Qed.

Lemma price_bucket_score_unit (ratio : Q) : unit_interval (price_bucket_score ratio).
Proof.
  unfold price_bucket_score.
  repeat (match goal with
          | |- context [Qle_bool ratio ?m] => destruct (Qle_bool ratio m)
          end).
  all: unfold unit_interval; split; unfold Qle; simpl; lia.
Qed.

Lemma price_score_of_unit (tp : list task_price) (fp : Q)
    (history : dict price_history) :
  unit_interval (price_score_of tp fp history).
Proof.
  unfold price_score_of. destruct tp.
  - unfold unit_interval; split; unfold Qle; simpl; lia.
  - apply price_bucket_score_unit.
Qed.

(** A sum of values between [lo] and [hi]. *)
Lemma py_sum_between (lo hi : Q) (xs : list Q) (a : Q) :
  Forall (fun x => lo <= x /\ x <= hi) xs ->
  a + inject_Z (Z.of_nat (List.length xs)) * lo <= fold_left Qplus xs a
  /\ fold_left Qplus xs a <= a + inject_Z (Z.of_nat (List.length xs)) * hi.
Proof.
  intros H. revert a. induction H as [| x xs [Hl Hh] _ IH]; intros a.
  - simpl. change (inject_Z 0) with 0. split; lra.
  - cbn [fold_left List.length]. rewrite Nat2Z.inj_succ. unfold Z.succ.
    rewrite inject_Z_plus. change (inject_Z 1) with 1.
    destruct (IH (a + x)) as [I1 I2].
    set (n := inject_Z (Z.of_nat (List.length xs))) in *.
    split; lra.
Qed.

Lemma complexity_confidence_unit (ts : list string) :
  unit_interval (_calculate_complexity_confidence ts).
Proof.
  unfold _calculate_complexity_confidence.
  destruct ts as [| t ts].
  - unfold unit_interval; split; unfold Qle; simpl; lia.
  - set (scores := map _ (t :: ts)).
    assert (F : Forall (fun x => 0 <= x /\ x <= 1) scores).
    { apply Forall_forall. intros x Hx. apply in_map_iff in Hx.
      destruct Hx as (task & <- & _).
      destruct (str_mem task task_complexity_simple);
        [| destruct (str_mem task task_complexity_moderate);
           [| destruct (str_mem task task_complexity_complex)]];
        split; unfold Qle; simpl; lia. }
    destruct (py_sum_between 0 1 scores 0 F) as [L U].
    fold (py_sum scores) in L, U.
    assert (P : 0 < inject_Z (Z.of_nat (List.length scores))).
    { unfold scores. rewrite length_map. simpl List.length.
      rewrite Nat2Z.inj_succ. unfold Qlt; simpl. lia. }
    split.
    + apply Qle_shift_div_l; [exact P | lra].
    + apply Qle_shift_div_r; [exact P | lra].
Qed.

Lemma sub_scores_unit (req : requirements) (tp : list task_price) (fp : Q)
    (sc : scorer) :
  let '(s1, s2, s3, s4, s5) := fst (sub_scores req tp fp sc) in
  unit_interval s1 /\ unit_interval s2 /\ unit_interval s3
  /\ unit_interval s4 /\ unit_interval s5.
Proof.
  unfold sub_scores, mbind, reset_flags.
  set (sc0 := {| historical_pricing := historical_pricing sc; flags := [] |}).
  pose proof (size_confidence_unit (get_or (bathroom_size req) 4.0) sc0) as H1.
  destruct (_calculate_size_confidence _ sc0) as [s1 sc1]. simpl in H1.
  pose proof (task_confidence_unit (get_or (tasks req) []) sc1) as H3.
  destruct (_calculate_task_confidence _ sc1) as [s3 sc3]. simpl in H3.
  pose proof (_calculate_price_confidence_value tp fp sc3) as H4.
  destruct (_calculate_price_confidence tp fp sc3) as [s4 sc4]. simpl in H4.
  simpl. repeat split; try apply H1; try apply H3;
    try apply location_confidence_unit; try apply complexity_confidence_unit;
    rewrite H4; apply price_score_of_unit.
Qed.

Lemma flag_penalty_bounds (n : nat) :
  0 <= py_min (inject_Z (Z.of_nat n) * 0.05) 0.20
  /\ py_min (inject_Z (Z.of_nat n) * 0.05) 0.20 <= 0.20.
Proof.
  assert (N : 0 <= inject_Z (Z.of_nat n)) by (unfold Qle; simpl; lia).
  unfold py_min. destruct (Qlt_le_dec _ _); split; lra.
Qed.

Lemma weighted_score_bounds (s1 s2 s3 s4 s5 : Q) (n : nat) :
  unit_interval s1 -> unit_interval s2 -> unit_interval s3 ->
  unit_interval s4 -> unit_interval s5 ->
  0 <= weighted_score (s1, s2, s3, s4, s5) n
  /\ weighted_score (s1, s2, s3, s4, s5) n <= 100.
Proof.
  intros [L1 U1] [L2 U2] [L3 U3] [L4 U4] [L5 U5].
  unfold weighted_score.
  destruct (flag_penalty_bounds n) as [PL PU].
  set (p := py_min _ _) in *.
  set (c := (s1 * 0.15 + s2 * 0.10 + s3 * 0.20 + s4 * 0.35 + s5 * 0.20) * 100).
  assert (C : 0 <= c /\ c <= 100) by (unfold c; split; lra).
  destruct C as [CL CU].
  assert (M : 0 <= py_max (c * (1 - p)) 0 /\ py_max (c * (1 - p)) 0 <= 100).
  { unfold py_max. destruct (Qlt_le_dec _ _) as [G | G]; [split; lra |].
    split; [exact G |].
    assert (0 <= c * p) by (apply Qmult_le_0_compat; lra).
    nra. }
  destruct M as [ML MU].
  destruct (py_round_between (py_max (c * (1 - p)) 0) 1 0 1000) as [RL RU].
  - apply Qle_trans with 0; [unfold Qle; simpl; lia | exact ML].
  - apply Qle_trans with 100; [exact MU | unfold Qle; simpl; lia].
  - split.
    + apply Qle_trans with (0 # scale 1); [unfold Qle; simpl; lia | exact RL].
    + apply Qle_trans with (1000 # scale 1); [exact RU | unfold Qle; simpl; lia].
Qed.

(** C8.  The score returned by [calculate_confidence] is the weighted sum of
    the five sub-scores (weights 0.15, 0.10, 0.20, 0.35, 0.20) times 100,
    reduced by [min(flag count * 5%, 20%)], floored at 0 and rounded to one
    decimal, and it lies between 0 and 100. *)
Theorem confidence_score_in_range (req : requirements)
    (task_prices : list task_price) (final_price : Q) (sc : scorer) :
  let '(score, sc') := calculate_confidence req task_prices final_price sc in
  let '(size_c, location_c, task_c, price_c, complexity_c) :=
    fst (sub_scores req task_prices final_price sc) in
  let flag_count := inject_Z (Z.of_nat (List.length (get_flags sc'))) in
  score
  = py_round
      (py_max
         ((size_c * 0.15 + location_c * 0.10 + task_c * 0.20
           + price_c * 0.35 + complexity_c * 0.20) * 100
          * (1 - py_min (flag_count * 0.05) 0.20))
         0)
      1
  /\ 0 <= score /\ score <= 100.
Proof.
  unfold calculate_confidence, mbind.
  pose proof (sub_scores_unit req task_prices final_price sc) as U.
  destruct (sub_scores req task_prices final_price sc)
    as [[[[[s1 s2] s3] s4] s5] sc'].
  simpl in U. destruct U as (U1 & U2 & U3 & U4 & U5).
  cbn [fst]. split; [reflexivity |].
  now apply weighted_score_bounds.
Qed.

End ScorerProperties.

(** ** Requirement extraction *)

Section ExtractionProperties.

Import SmartPricingEngine.

Lemma length_lstrip (s : string) : (String.length (lstrip s) <= String.length s)%nat.
Proof.
  induction s as [| c s IH]; simpl; [lia |].
  destruct (isspace c); simpl; lia.
Qed.

Lemma length_rstrip (s : string) : (String.length (rstrip s) <= String.length s)%nat.
Proof.
  induction s as [| c s IH]; simpl; [lia |].
  destruct (rstrip s) eqn:E.
  - destruct (isspace c); simpl; lia.
  - simpl in *. lia.
Qed.

Lemma length_strip (s : string) : (String.length (strip s) <= String.length s)%nat.
Proof.
  unfold strip. pose proof (length_rstrip (lstrip s)). pose proof (length_lstrip s).
  lia.
Qed.

(** C6.  A text that is empty or has fewer than 10 characters is rejected by
    the extraction with a [ValueError]; [generate_quote] then returns no
    quote but an error carrying that message, whatever the pricing
    functions and the clock are, and leaves the scorer as it was: no scoring
    call was made. *)
Theorem short_text_is_rejected (pow_half : Q -> Q) (now : clock)
    (transcript : string) (sc : ConfidenceScorer.scorer) :
  (String.length transcript < 10)%nat ->
  parse_transcript transcript
  = Raise (ValueError (rejection_message transcript))
  /\ generate_quote pow_half now transcript sc
     = (Raise (RuntimeError ("Failed to generate quote: "
                             ++ rejection_message transcript)), sc).
Proof.
  intros Hlen.
  assert (P : parse_transcript transcript
              = Raise (ValueError (rejection_message transcript))).
  { unfold parse_transcript. destruct transcript as [| c s]; [reflexivity |].
    cbn [String.length Nat.eqb].
    pose proof (length_strip (String c s)) as L.
    destruct (String.length (strip (String c s)) <? 10)%nat eqn:E.
    - reflexivity.
    - apply Nat.ltb_ge in E. lia. }
  split; [exact P |].
  unfold generate_quote, generate_quote_body. rewrite P. reflexivity.
Qed.

Lemma short_text_is_rejected_witness :
  parse_transcript "tiles"
  = Raise (ValueError "Transcript too short - please provide more details")
  /\ generate_quote (fun x => x)
       {| now_strftime := "20250101120000";
          now_generated_at := "2025-01-01T12:00:00";
          now_last_updated := "2025-01-01T12:00:00" |}
       "tiles" ConfidenceScorer.init
     = (Raise (RuntimeError
                 "Failed to generate quote: Transcript too short - please provide more details"),
        ConfidenceScorer.init).
Proof.
  apply (short_text_is_rejected (fun x => x) _ "tiles" ConfidenceScorer.init).
  simpl. lia.
Defined.

Lemma in_order_filter (p : string -> bool) (l : list string) :
  in_order (filter p l) l.
Proof.
  induction l as [| x l IH]; simpl.
  - constructor.
  - destruct (p x); now constructor.
Qed.

Lemma fold_left_collect (p : list string -> bool)
    (l : dict (list string)) (acc : list string) :
  fold_left
    (fun detected (item : string * list string) =>
       let '(task_type, keywords) := item in
       if p keywords then (detected ++ [task_type])%list else detected)
    l acc
  = (acc ++ map fst (filter (fun item => p (snd item)) l))%list.
Proof.
  revert acc. induction l as [| [k kws] l IH]; intros acc; simpl.
  - now rewrite app_nil_r.
  - rewrite IH. destruct (p kws); simpl; [| reflexivity].
    now rewrite <- app_assoc.
Qed.

(** The loop of [_extract_tasks] keeps the task types, in their order, a
    keyword of which occurs in the text. *)
Lemma _extract_tasks_filter (text : string) :
  _extract_tasks text = filter (mentions text) canonical_tasks.
Proof.
  unfold _extract_tasks.
  rewrite (fold_left_collect (fun keywords => any_in keywords text)).
  unfold mentions, dict_get_or, task_keywords, canonical_tasks.
  cbn [filter map fst snd app dict_get String.eqb Ascii.eqb Bool.eqb].
  repeat match goal with
         | |- context [any_in ?kws text] => destruct (any_in kws text)
         end; reflexivity.
Qed.

(** C10.  For a valid text (10 characters or more once stripped), the
    extraction returns a record whose task list is not empty and lists task
    types in the canonical order (tiles, plumbing, painting, flooring,
    vanity, electrical): when some keyword occurs in the lowercased text the
    list is made of exactly the task types a keyword of which occurs,
    wherever it occurs; when none does, the list is the single default task
    [painting]. *)
Theorem tasks_nonempty_in_canonical_order (transcript : string) :
  (10 <= String.length (strip transcript))%nat ->
  exists req ts,
    parse_transcript transcript = Ok req
    /\ tasks req = Some ts
    /\ ts <> []
    /\ in_order ts canonical_tasks
    /\ (forall text, text = strip (lower transcript) ->
        (existsb (mentions text) canonical_tasks = true ->
         ts = filter (mentions text) canonical_tasks)
        /\ (existsb (mentions text) canonical_tasks = false ->
            ts = ["painting"])).
Proof.
  intros Hlen.
  pose proof (length_strip transcript) as L.
  unfold parse_transcript.
  destruct (String.length transcript =? 0)%nat eqn:E0;
    [apply Nat.eqb_eq in E0; lia |].
  destruct (String.length (strip transcript) <? 10)%nat eqn:E1;
    [apply Nat.ltb_lt in E1; lia |].
  set (text := strip (lower transcript)).
  rewrite (_extract_tasks_filter text).
  destruct (filter (mentions text) canonical_tasks) as [| t ts] eqn:F.
  - eexists. exists ["painting"]. split; [reflexivity |]. cbn [tasks].
    split; [reflexivity |]. split; [discriminate |].
    split; [unfold canonical_tasks; repeat constructor |].
    intros text' ->. fold text. split; [| reflexivity].
    intros H. apply existsb_exists in H. destruct H as (x & Hin & Hm).
    assert (I : In x (filter (mentions text) canonical_tasks))
      by (apply filter_In; now split).
    rewrite F in I. destruct I.
  - eexists. exists (t :: ts). split; [reflexivity |]. cbn [tasks].
    split; [reflexivity |]. split; [discriminate |].
    split; [rewrite <- F; apply in_order_filter |].
    intros text' ->. fold text. split; [intros _; now rewrite F |].
    intros H.
    assert (I : In t (filter (mentions text) canonical_tasks))
      by (rewrite F; now left).
    apply filter_In in I. destruct I as [Hin Hm].
    assert (X : existsb (mentions text) canonical_tasks = true)
      by (apply existsb_exists; now exists t).
    congruence.
Qed.

Lemma tasks_nonempty_in_canonical_order_witness :
  exists req ts,
    parse_transcript "Fix the plumbing, then lay new Tiles" = Ok req
    /\ tasks req = Some ts
    /\ ts <> []
    /\ in_order ts canonical_tasks
    /\ (forall text,
         text = strip (lower "Fix the plumbing, then lay new Tiles") ->
         (existsb (mentions text) canonical_tasks = true ->
          ts = filter (mentions text) canonical_tasks)
         /\ (existsb (mentions text) canonical_tasks = false ->
             ts = ["painting"])).
Proof.
  apply (tasks_nonempty_in_canonical_order "Fix the plumbing, then lay new Tiles").
  vm_compute. lia.
Defined.

End ExtractionProperties.

(** ** Sums of rounded amounts *)

Section Grid.

Lemma on_grid_round (n : nat) (x : Q) : on_grid n (py_round x n).
Proof. eexists. reflexivity. Qed.

Lemma on_grid_plus (n : nat) (x y : Q) :
  on_grid n x -> on_grid n y -> on_grid n (x + y).
Proof.
  intros [a Ha] [b Hb]. exists (a + b)%Z. rewrite Ha, Hb.
  unfold Qeq, Qplus; simpl. nia.
Qed.

Lemma on_grid_comp (n : nat) (x y : Q) : x == y -> on_grid n x -> on_grid n y.
Proof. intros E [a Ha]. exists a. now rewrite <- E. Qed.

Lemma py_round_on_grid (n : nat) (x : Q) : on_grid n x -> py_round x n == x.
Proof.
  intros [z Hz]. rewrite (py_round_comp _ _ n Hz), Hz. apply py_round_grid.
Qed.

Lemma fold_left_Qplus_acc (xs : list Q) (a : Q) :
  fold_left Qplus xs a == a + py_sum xs.
Proof.
  unfold py_sum. revert a. induction xs as [| x xs IH]; intros a; simpl.
  - ring.
  - rewrite (IH (a + x)), (IH (0 + x)). ring.
Qed.

Lemma py_sum_cons (x : Q) (xs : list Q) : py_sum (x :: xs) == x + py_sum xs.
Proof.
  unfold py_sum at 1. simpl. rewrite fold_left_Qplus_acc. ring.
Qed.

Lemma on_grid_sum (n : nat) (xs : list Q) :
  Forall (on_grid n) xs -> on_grid n (py_sum xs).
Proof.
  induction 1 as [| x xs Hx _ IH].
  - exists 0%Z. reflexivity.
  - apply (on_grid_comp n (x + py_sum xs)).
    + symmetry. apply py_sum_cons.
    + now apply on_grid_plus.
Qed.


End Grid.

(** ** Total VAT of the price lines *)

Section VatProperties.

(** The empty task type, read from a line without the key [task_type], is
    not classified: the rate is the standard one for every work value and
    property age. *)
Lemma calculate_task_vat_unclassified (amount work_value : Q) (age : Z) :
  VATRules.calculate_task_vat "" amount work_value age
  = Ok {| VATRules.vat_rate := 0.20;
          VATRules.vat_amount := py_round (amount * 0.20) 2;
          VATRules.vat_type := "standard" |}.
Proof. reflexivity. Qed.

(** The default work value is below the minimum of the reduced rate. *)
Lemma default_work_value_not_eligible (age : Z) :
  VATRules._is_eligible_for_reduced_vat VATRules.default_work_value age = false.
Proof. reflexivity. Qed.

Lemma vat_loop_unclassified (lines : list task_price) (work_value : Q)
    (age : Z) (acc : Q) :
  Forall (fun line => tp_task_type line = None) lines ->
  exists total,
    fold_left (VATRules.total_vat_step work_value age) lines (Ok acc)
    = Ok total
    /\ total == acc + py_sum (map standard_vat_of_line lines).
Proof.
  intros H. revert acc. induction H as [| line lines Hl _ IH]; intros acc.
  - exists acc. split; [reflexivity |]. unfold py_sum; simpl. ring.
  - cbn [fold_left]. unfold VATRules.total_vat_step at 2. cbn [bind].
    rewrite Hl. cbn [get_or].
    rewrite !calculate_task_vat_unclassified. cbn [bind VATRules.vat_amount].
    destruct (IH (acc + (py_round (get_or (tp_materials line) 0.0 * 0.20) 2
                         + py_round (get_or (tp_labor line) 0.0 * 0.20) 2)))
      as (total & Ht & Hs).
    exists total. split; [exact Ht |].
    rewrite Hs. cbn [map]. rewrite py_sum_cons. unfold standard_vat_of_line.
    assert (Em : py_round (get_or (tp_materials line) 0.0 * 0.20) 2
                 == py_round (0.20 * line_materials line) 2).
    { apply py_round_comp. unfold line_materials.
      destruct (tp_materials line); cbn [get_or]; ring. }
    assert (El : py_round (get_or (tp_labor line) 0.0 * 0.20) 2
                 == py_round (0.20 * line_labor line) 2).
    { apply py_round_comp. unfold line_labor.
      destruct (tp_labor line); cbn [get_or]; ring. }
    rewrite Em, El. ring.
Qed.

(** On lines that carry no key [task_type], the total VAT is the sum of the
    standard-rate VAT of the lines: the final rounding changes nothing. *)
Lemma calculate_total_vat_unclassified (lines : list task_price)
    (work_value : Q) (age : Z) :
  Forall (fun line => tp_task_type line = None) lines ->
  exists vat,
    VATRules.calculate_total_vat lines work_value age = Ok vat
    /\ vat == py_sum (map standard_vat_of_line lines).
Proof.
  intros H. unfold VATRules.calculate_total_vat.
  destruct (vat_loop_unclassified lines work_value age 0.0 H)
    as (total & Ht & Hs).
  rewrite Ht. cbn [bind]. eexists. split; [reflexivity |].
  assert (G : on_grid 2 total).
  { apply (on_grid_comp 2 (py_sum (map standard_vat_of_line lines))).
    - rewrite Hs. ring.
    - apply on_grid_sum. apply Forall_forall. intros x Hx.
      apply in_map_iff in Hx. destruct Hx as (line & <- & _).
      apply on_grid_plus; apply on_grid_round. }
  rewrite (py_round_on_grid 2 total G), Hs. ring.
Qed.

End VatProperties.

(** ** Quote generation *)

Section ParseProperties.

Import SmartPricingEngine.

Lemma digits_value_nonneg (s : string) (acc : Z) :
  (0 <= acc)%Z -> (0 <= digits_value acc s)%Z.
Proof.
  revert acc. induction s as [| c s IH]; intros acc H; cbn [digits_value].
  - exact H.
  - apply IH. unfold digit_value. lia.
Qed.

Lemma float_of_decimal_nonneg (int_part frac_part : string) :
  0 <= float_of_decimal int_part frac_part.
Proof.
  unfold float_of_decimal.
  pose proof (digits_value_nonneg int_part 0 (Z.le_refl 0)) as H1.
  pose proof (digits_value_nonneg frac_part 0 (Z.le_refl 0)) as H2.
  assert (0 <= inject_Z (digits_value 0 int_part))
    by (unfold Qle, inject_Z; cbn [Qnum Qden]; lia).
  assert (0 <= digits_value 0 frac_part # pow10 (String.length frac_part))
    by (unfold Qle; cbn [Qnum Qden]; lia).
  lra.
Qed.

Lemma _extract_location_known (text : string) :
  dict_mem city_multipliers (_extract_location text) = true.
Proof.
  unfold _extract_location.
  destruct (find _ _) as [city |] eqn:F; [| reflexivity].
  apply find_some in F. destruct F as [Hin _].
  simpl in Hin.
  repeat (destruct Hin as [<- | Hin]; [reflexivity |]). destruct Hin.
Qed.

(** What the extraction returns on a valid text. *)
Lemma parse_transcript_valid (transcript : string) :
  (10 <= String.length (strip transcript))%nat ->
  exists size loc ts,
    parse_transcript transcript
    = Ok {| bathroom_size := Some size;
            location := Some loc;
            tasks := Some ts;
            budget_conscious :=
              Some (any_in ["budget"; "cheap"; "affordable"; "economy"]
                      (strip (lower transcript)));
            original_transcript := Some transcript |}
    /\ 0 <= size
    /\ dict_mem city_multipliers loc = true
    /\ ts <> []
    /\ Forall (fun task => In task canonical_tasks) ts.
Proof.
  intros Hlen.
  pose proof (length_strip transcript) as L.
  unfold parse_transcript.
  destruct (String.length transcript =? 0)%nat eqn:E0;
    [apply Nat.eqb_eq in E0; lia |].
  destruct (String.length (strip transcript) <? 10)%nat eqn:E1;
    [apply Nat.ltb_lt in E1; lia |].
  set (text := strip (lower transcript)).
  do 3 eexists. split; [reflexivity |].
  split; [| split; [| split]].
  - destruct (search_size text) as [[i f] |].
    + apply float_of_decimal_nonneg.
    + unfold Qle; simpl; lia.
  - apply _extract_location_known.
  - destruct (_extract_tasks text); discriminate.
  - rewrite _extract_tasks_filter.
    destruct (filter (mentions text) canonical_tasks) eqn:F.
    + constructor; [| constructor]. do 2 right. left. reflexivity.
    + rewrite <- F. apply Forall_forall. intros x Hx.
      apply filter_In in Hx. tauto.
Qed.

End ParseProperties.

Section EngineProperties.

Import SmartPricingEngine.

Variable pow_half : Q -> Q.

(** Every line written by the engine carries the key [task] and no key
    [task_type], and has its two amounts. *)
Lemma line_of_shape (req : requirements) (task : string) :
  tp_task (line_of pow_half req task) = Some task
  /\ tp_task_type (line_of pow_half req task) = None
  /\ tp_materials (line_of pow_half req task) = Some (line_materials (line_of pow_half req task))
  /\ tp_labor (line_of pow_half req task) = Some (line_labor (line_of pow_half req task)).
Proof.
  unfold line_of, _calculate_task_price, task_price_body, field,
    line_materials, line_labor.
  destruct (bathroom_size req) as [size |]; cbn [bind];
    [| repeat split; reflexivity].
  destruct (location req) as [loc |]; cbn [bind];
    [| repeat split; reflexivity].
  destruct (dict_index city_multipliers loc); cbn [bind];
    repeat split; reflexivity.
Qed.

Lemma price_tasks_fold (req : requirements) (ts : list string)
    (lines0 : list task_price) (l0 m0 : Q) :
  exists tl tm,
    fold_left (price_tasks_step pow_half req) ts (Ok (lines0, l0, m0))
    = Ok ((lines0 ++ map (line_of pow_half req) ts)%list, tl, tm)
    /\ tl == l0 + py_sum (map line_labor (map (line_of pow_half req) ts))
    /\ tm == m0 + py_sum (map line_materials (map (line_of pow_half req) ts)).
Proof.
  revert lines0 l0 m0. induction ts as [| t ts IH]; intros lines0 l0 m0.
  - exists l0, m0. cbn [fold_left map]. rewrite app_nil_r.
    split; [reflexivity |]. unfold py_sum; simpl. split; ring.
  - cbn [fold_left]. unfold price_tasks_step at 2. cbn [bind].
    fold (line_of pow_half req t).
    destruct (line_of_shape req t) as (_ & _ & Hm & Hl).
    rewrite Hm, Hl. cbn [field bind].
    destruct (IH (lines0 ++ [line_of pow_half req t])%list
                (l0 + line_labor (line_of pow_half req t))
                (m0 + line_materials (line_of pow_half req t)))
      as (tl & tm & E & El & Em).
    exists tl, tm. split; [| split].
    + rewrite E. cbn [map]. now rewrite <- app_assoc.
    + rewrite El. cbn [map]. rewrite py_sum_cons. ring.
    + rewrite Em. cbn [map]. rewrite py_sum_cons. ring.
Qed.

(** The loop prices the tasks in order and totals the two amounts. *)
Lemma price_tasks_spec (req : requirements) (ts : list string) :
  exists tl tm,
    price_tasks pow_half req ts = Ok (map (line_of pow_half req) ts, tl, tm)
    /\ tl == py_sum (map line_labor (map (line_of pow_half req) ts))
    /\ tm == py_sum (map line_materials (map (line_of pow_half req) ts)).
Proof.
  destruct (price_tasks_fold req ts [] 0 0) as (tl & tm & E & El & Em).
  exists tl, tm. split; [exact E |]. split; [rewrite El | rewrite Em]; ring.
Qed.


(** What a successful call of [generate_quote] has computed. *)
Lemma generate_quote_inv (now : clock) (transcript : string)
    (sc sc' : ConfidenceScorer.scorer) (q : quote) :
  generate_quote pow_half now transcript sc = (Ok q, sc') ->
  exists req ts b tl tm vat,
    parse_transcript transcript = Ok req
    /\ tasks req = Some ts
    /\ budget_conscious req = Some b
    /\ price_tasks pow_half req ts = Ok (map (line_of pow_half req) ts, tl, tm)
    /\ tl == py_sum (map line_labor (map (line_of pow_half req) ts))
    /\ tm == py_sum (map line_materials (map (line_of pow_half req) ts))
    /\ VATRules.calculate_total_vat (map (line_of pow_half req) ts)
         VATRules.default_work_value VATRules.default_property_age
       = Ok vat
    /\ client_requirements q = req
    /\ pricing q
       = {| pb_tasks := map (line_of pow_half req) ts;
            labor_total := tl;
            materials_total := tm;
            vat_amount := vat;
            subtotal := tl + tm;
            final_price := _apply_margin_protection (tl + tm + vat) b |}.
Proof.
  unfold generate_quote.
  destruct (generate_quote_body pow_half now transcript sc) as [[q0 | e] sc0]
    eqn:B; intros H; [| discriminate H].
  injection H as -> ->.
  unfold generate_quote_body in B.
  destruct (parse_transcript transcript) as [req | e] eqn:P; [| discriminate B].
  destruct (tasks req) as [ts |] eqn:T; cbn [field bind] in B;
    [| discriminate B].
  destruct (price_tasks_spec req ts) as (tl & tm & PT & El & Em).
  rewrite PT in B. cbn [field bind] in B.
  destruct (VATRules.calculate_total_vat _ _ _) as [vat | e] eqn:V;
    cbn [field bind] in B; [| discriminate B].
  destruct (budget_conscious req) as [b |] eqn:Bc; cbn [field bind] in B;
    [| discriminate B].
  destruct (ConfidenceScorer.calculate_confidence _ _ _ sc) as [conf sc1].
  destruct (location req) as [loc |]; cbn [field bind] in B; [| discriminate B].
  destruct (dict_index city_multipliers loc) as [mult | e]; cbn [field bind] in B;
    [| discriminate B].
  destruct (_calculate_total_duration _ _ _) as [d | e]; cbn [field bind] in B;
    [| discriminate B].
  injection B as <- <-.
  exists req, ts, b, tl, tm, vat. cbn [client_requirements pricing].
  repeat (split; [first [reflexivity | assumption] |]). reflexivity.
Qed.



(** *** Amounts are positive *)

(** The square root of a size is not negative. *)
Hypothesis pow_half_nonneg : forall x, 0 <= x -> 0 <= pow_half x.


Lemma hourly_rate_ge_1 (task : string) (rate : Q) :
  dict_get LaborCalculator.hourly_rates task = Some rate -> 1 <= rate.
Proof.
  unfold LaborCalculator.hourly_rates. cbn [dict_get].
  repeat (match goal with
          | |- context [String.eqb task ?k] => destruct (String.eqb task k)
          end;
          [intros H; injection H as <-; unfold Qle; simpl; lia |]).
  discriminate.
Qed.







(** C2.  In every quote produced by [generate_quote], the VAT amount is the
    sum over the task lines of [round(0.20 x materials, 2) + round(0.20 x
    labor, 2)]: the lines carry the key [task] and not the key [task_type]
    that [calculate_total_vat] reads, so every lookup is made with the empty
    task type, which is not classified; and with the default work value 0
    the rate would be the standard one for every task type. *)
Theorem quote_vat_is_standard_rate (now : clock) (transcript : string)
    (sc sc' : ConfidenceScorer.scorer) (q : quote) :
  generate_quote pow_half now transcript sc = (Ok q, sc') ->
  vat_amount (pricing q)
  == py_sum (map standard_vat_of_line (pb_tasks (pricing q)))
  /\ Forall (fun line =>
               tp_task_type line = None
               /\ (exists task, tp_task line = Some task)
               /\ VATRules.get_vat_rate (get_or (tp_task_type line) "")
                    VATRules.default_work_value
                    VATRules.default_property_age
                  = Ok 0.20)
       (pb_tasks (pricing q))
  /\ (forall task age,
        VATRules.get_vat_rate task VATRules.default_work_value age = Ok 0.20).
Proof.
  intros G.
  destruct (generate_quote_inv _ _ _ _ _ G)
    as (req & ts & b & tl & tm & vat & _ & _ & _ & _ & _ & _ & V & _ & Hp).
  rewrite Hp. cbn [pb_tasks vat_amount].
  assert (S : Forall (fun line => tp_task_type line = None)
                (map (line_of pow_half req) ts)).
  { apply Forall_forall. intros line Hin. apply in_map_iff in Hin.
    destruct Hin as (t & <- & _). apply line_of_shape. }
  split; [| split].
  - destruct (calculate_total_vat_unclassified _ VATRules.default_work_value
                VATRules.default_property_age S) as (vat' & V' & Ev).
    rewrite V in V'. injection V' as <-. exact Ev.
  - apply Forall_forall. intros line Hin. apply in_map_iff in Hin.
    destruct Hin as (t & <- & _).
    destruct (line_of_shape req t) as (Ht & Hty & _).
    rewrite Hty. split; [reflexivity |]. split; [now exists t | reflexivity].
  - intros task age. unfold VATRules.get_vat_rate.
    rewrite default_work_value_not_eligible.
    unfold VATRules.task_vat_classification. cbn [dict_get].
    repeat (match goal with
            | |- context [String.eqb task ?k] => destruct (String.eqb task k)
            end; [reflexivity |]).
    reflexivity.
Qed.

End EngineProperties.

(** ** The scenario of the test suite *)

Section Scenario.

Import SmartPricingEngine.

Lemma sqrt_8_decimals_nonneg (x : Q) : 0 <= x -> 0 <= sqrt_8_decimals x.
Proof.
  intros _. unfold sqrt_8_decimals, Qle; cbn [Qnum Qden].
  pose proof (Z.sqrt_nonneg ((Qnum x * 10000000000000000) / Zpos (Qden x))).
  lia.
Qed.

Example parse_marseille_transcript :
  parse_transcript marseille_transcript
  = Ok {| bathroom_size := Some 4;
          location := Some "marseille";
          tasks := Some ["tiles"; "plumbing"];
          budget_conscious := Some false;
          original_transcript := Some marseille_transcript |}.
Proof. reflexivity. Qed.


Lemma quote_vat_is_standard_rate_witness :
  exists q sc',
    generate_quote sqrt_8_decimals noon marseille_transcript
      ConfidenceScorer.init
    = (Ok q, sc')
    /\ vat_amount (pricing q) == 975.21
    /\ vat_amount (pricing q)
       == py_sum (map standard_vat_of_line (pb_tasks (pricing q))).
Proof.
  eassert (G : generate_quote sqrt_8_decimals noon marseille_transcript
                 ConfidenceScorer.init = (Ok _, _))
    by (vm_compute; reflexivity).
  eexists. eexists. split; [exact G |]. split; [reflexivity |].
  exact (proj1 (quote_vat_is_standard_rate sqrt_8_decimals _ _ _ _ _ G)).
Defined.

End Scenario.

(** * Further properties of the cost models *)

Section DictProperties.

Context {V : Type}.

Lemma dict_get_set (d : dict V) (k k' : string) (v : V) :
  dict_get (dict_set d k v) k'
  = if String.eqb k' k then Some v else dict_get d k'.
Proof.
  induction d as [| [k0 v0] d IH]; cbn [dict_set dict_get].
  - destruct (String.eqb k' k); reflexivity.
  - destruct (String.eqb k k0) eqn:E; cbn [dict_get].
    + apply String.eqb_eq in E. subst k0.
      destruct (String.eqb k' k); reflexivity.
    + rewrite IH. destruct (String.eqb k' k0) eqn:E0; [| reflexivity].
      apply String.eqb_eq in E0. subst k0.
      destruct (String.eqb k' k) eqn:E1; [| reflexivity].
      apply String.eqb_eq in E1. subst k'. rewrite String.eqb_refl in E.
      discriminate E.
Qed.

Lemma dict_keys_set_existing (d : dict V) (k : string) (v : V) :
  dict_mem d k = true -> dict_keys (dict_set d k v) = dict_keys d.
Proof.
  unfold dict_mem, dict_keys.
  induction d as [| [k0 v0] d IH]; cbn [dict_set dict_get map fst].
  - discriminate.
  - destruct (String.eqb k k0) eqn:E; cbn [map fst].
    + intros _. apply String.eqb_eq in E. now subst k0.
    + intros H. now rewrite IH.
Qed.

Lemma update_existing_keys (d new : dict V) :
  dict_keys (update_existing d new) = dict_keys d.
Proof.
  unfold update_existing. revert d.
  induction new as [| [k v] new IH]; intros d; cbn [fold_left].
  - reflexivity.
  - rewrite IH. destruct (dict_mem d k) eqn:M; [| reflexivity].
    now apply dict_keys_set_existing.
Qed.

Lemma dict_get_not_key (d : dict V) (k : string) :
  ~ In k (dict_keys d) -> dict_get d k = None.
Proof.
  unfold dict_keys. induction d as [| [k0 v0] d IH]; cbn [dict_get map fst].
  - reflexivity.
  - intros H. destruct (String.eqb k k0) eqn:E.
    + apply String.eqb_eq in E. subst k0. exfalso. apply H. now left.
    + apply IH. intros C. apply H. now right.
Qed.

Lemma dict_get_key (d : dict V) (k : string) (v : V) :
  dict_get d k = Some v -> In k (dict_keys d).
Proof.
  unfold dict_keys. induction d as [| [k0 v0] d IH]; cbn [dict_get map fst].
  - discriminate.
  - destruct (String.eqb k k0) eqn:E.
    + intros _. apply String.eqb_eq in E. now left.
    + intros H. right. now apply IH.
Qed.

(** The loop of the hooks, read entry by entry: a key of [d] that [new]
    binds gets the value [new] gives it, every other key keeps its value,
    and no key is added. *)
Lemma update_existing_get (d new : dict V) (k : string) :
  NoDup (dict_keys new) ->
  dict_get (update_existing d new) k
  = match dict_get d k, dict_get new k with
    | None, _ => None
    | Some v, None => Some v
    | Some _, Some v' => Some v'
    end.
Proof.
  unfold update_existing. revert d.
  induction new as [| [k0 v0] new IH]; intros d Hnd; cbn [fold_left dict_get].
  - destruct (dict_get d k); reflexivity.
  - cbn [dict_keys map fst] in Hnd. inversion Hnd as [| ? ? Hnotin Hnd']. subst.
    rewrite (IH _ Hnd').
    destruct (String.eqb k k0) eqn:E.
    + apply String.eqb_eq in E. subst k0.
      rewrite (dict_get_not_key new k Hnotin).
      unfold dict_mem. destruct (dict_get d k) eqn:G.
      * rewrite dict_get_set, String.eqb_refl. reflexivity.
      * rewrite G. reflexivity.
    + destruct (dict_mem d k0); [| reflexivity].
      rewrite dict_get_set, E. reflexivity.
Qed.

End DictProperties.

Section CostModelProperties.

Import SmartPricingEngine.

Variable pow_half : Q -> Q.

Lemma str_mem_In (x : string) (xs : list string) :
  str_mem x xs = true <-> In x xs.
Proof.
  unfold str_mem. rewrite existsb_exists. split.
  - intros (y & Hin & E). apply String.eqb_eq in E. now subst.
  - intros H. exists x. split; [exact H | apply String.eqb_refl].
Qed.

Lemma hourly_rate_unknown (task : string) :
  str_mem task canonical_tasks = false ->
  dict_get LaborCalculator.hourly_rates task = None.
Proof.
  intros H. apply dict_get_not_key. intros C.
  change (dict_keys LaborCalculator.hourly_rates) with canonical_tasks in C.
  apply str_mem_In in C. congruence.
Qed.

(** X1.  A task type outside the six supported ones costs nothing and
    raises nothing: its material cost, labor cost and duration are 0 for
    every size, quality and complexity, and the price line the engine builds
    for it has zero amounts and no error marker. *)
Theorem unknown_task_costs_nothing (task : string) (size : Q)
    (quality complexity : string) (req : requirements) (loc : string) :
  str_mem task canonical_tasks = false ->
  bathroom_size req = Some size ->
  location req = Some loc ->
  dict_mem city_multipliers loc = true ->
  MaterialDatabase.get_task_materials_cost pow_half task size quality = 0.0
  /\ LaborCalculator.get_task_duration pow_half task size complexity = 0.0
  /\ LaborCalculator.calculate_labor_cost pow_half task size complexity = 0.0
  /\ line_materials (_calculate_task_price pow_half task req) == 0
  /\ line_labor (_calculate_task_price pow_half task req) == 0
  /\ tp_error (_calculate_task_price pow_half task req) = None.
Proof.
  intros Hu Hs Hl Hm.
  assert (M : forall q,
            MaterialDatabase.get_task_materials_cost pow_half task size q = 0.0).
  { intros q. unfold MaterialDatabase.get_task_materials_cost.
    change MaterialDatabase.materials_keys with canonical_tasks.
    now rewrite Hu. }
  assert (D : forall c,
            LaborCalculator.get_task_duration pow_half task size c = 0.0).
  { intros c. unfold LaborCalculator.get_task_duration.
    change LaborCalculator.base_time_keys with canonical_tasks.
    now rewrite Hu. }
  assert (L : forall c,
            LaborCalculator.calculate_labor_cost pow_half task size c = 0.0).
  { intros c. unfold LaborCalculator.calculate_labor_cost.
    now rewrite (hourly_rate_unknown task Hu). }
  split; [apply M |]. split; [apply D |]. split; [apply L |].
  unfold _calculate_task_price, task_price_body, line_materials, line_labor.
  rewrite Hs, Hl. cbn [field bind]. unfold dict_index.
  unfold dict_mem in Hm.
  destruct (dict_get city_multipliers loc) as [mult |]; [| discriminate Hm].
  cbn [bind tp_materials tp_labor tp_error get_or]. rewrite M, L.
  repeat split; ring.
Qed.

(** Every quality multiplier, the fallback 1.0 included, is positive. *)
Lemma quality_multiplier_nonneg (quality : string) :
  0 <= dict_get_or
         (MaterialDatabase.quality_multipliers
            (MaterialDatabase.tiles MaterialDatabase.materials)) quality 1.0
  /\ 0 <= dict_get_or
            (MaterialDatabase.p_quality_multipliers
               (MaterialDatabase.painting MaterialDatabase.materials))
            quality 1.0
  /\ 0 <= dict_get_or
            (MaterialDatabase.quality_multipliers
               (MaterialDatabase.flooring MaterialDatabase.materials))
            quality 1.0.
Proof.
  unfold dict_get_or.
  cbn [MaterialDatabase.materials MaterialDatabase._load_default_materials
       MaterialDatabase.tiles MaterialDatabase.painting
       MaterialDatabase.flooring MaterialDatabase.quality_multipliers
       MaterialDatabase.p_quality_multipliers dict_get].
  repeat split;
    repeat (match goal with
            | |- context [String.eqb quality ?k] =>
                destruct (String.eqb quality k)
            end);
    unfold Qle; simpl; lia.
Qed.

(** X2.  When the square root is monotone, the material cost of every task
    type does not decrease as the bathroom grows, whatever the quality. *)
Theorem materials_cost_monotone_in_size (task quality : string) (s1 s2 : Q) :
  (forall x y, x <= y -> pow_half x <= pow_half y) ->
  s1 <= s2 ->
  MaterialDatabase.get_task_materials_cost pow_half task s1 quality
  <= MaterialDatabase.get_task_materials_cost pow_half task s2 quality.
Proof.
  intros Hmono Hle. pose proof (Hmono s1 s2 Hle) as Hp.
  destruct (quality_multiplier_nonneg quality) as (Qt & Qp & Qf).
  unfold MaterialDatabase.get_task_materials_cost.
  destruct (negb (str_mem task MaterialDatabase.materials_keys));
    [apply Qle_refl |].
  destruct (task =? "tiles").
  { unfold MaterialDatabase._calculate_tiles_cost.
    set (qm := dict_get_or _ quality 1.0) in *.
    cbn [MaterialDatabase.materials MaterialDatabase._load_default_materials
         MaterialDatabase.tiles MaterialDatabase.base_cost_per_m2
         MaterialDatabase.size_factor].
    apply py_round_mono. nra. }
  destruct (task =? "plumbing"); [apply Qle_refl |].
  destruct (task =? "painting").
  { unfold MaterialDatabase._calculate_painting_cost.
    set (qm := dict_get_or (MaterialDatabase.p_quality_multipliers _) quality
                 1.0) in *.
    cbn [MaterialDatabase.materials MaterialDatabase._load_default_materials
         MaterialDatabase.painting MaterialDatabase.p_base_cost_per_m2
         MaterialDatabase.p_size_factor MaterialDatabase.p_coats].
    change (inject_Z 2) with 2.
    apply py_round_mono. nra. }
  destruct (task =? "flooring").
  { unfold MaterialDatabase._calculate_flooring_cost.
    set (qm := dict_get_or
                 (MaterialDatabase.quality_multipliers
                    (MaterialDatabase.flooring _)) quality 1.0) in *.
    cbn [MaterialDatabase.materials MaterialDatabase._load_default_materials
         MaterialDatabase.flooring MaterialDatabase.base_cost_per_m2
         MaterialDatabase.size_factor].
    apply py_round_mono. nra. }
  destruct (task =? "vanity"); [apply Qle_refl |].
  destruct (task =? "electrical"); [| apply Qle_refl].
  unfold MaterialDatabase._calculate_electrical_cost.
  cbn [MaterialDatabase.materials MaterialDatabase._load_default_materials
       MaterialDatabase.electrical MaterialDatabase.e_base_cost
       MaterialDatabase.e_size_factor MaterialDatabase.e_per_outlet].
  apply py_round_mono.
  destruct (Qle_bool s1 4) eqn:A1;
    [apply Qle_bool_iff in A1 | apply Qle_bool_false in A1];
    (destruct (Qle_bool s1 6) eqn:B1;
     [apply Qle_bool_iff in B1 | apply Qle_bool_false in B1]);
    (destruct (Qle_bool s2 4) eqn:A2;
     [apply Qle_bool_iff in A2 | apply Qle_bool_false in A2]);
    (destruct (Qle_bool s2 6) eqn:B2;
     [apply Qle_bool_iff in B2 | apply Qle_bool_false in B2]);
    lra.
Qed.

Lemma canonical_cases (task : string) (P : string -> Prop) :
  In task canonical_tasks ->
  P "tiles" -> P "plumbing" -> P "painting" -> P "flooring" -> P "vanity" ->
  P "electrical" -> P task.
Proof.
  intros Hin. unfold canonical_tasks in Hin. simpl in Hin.
  destruct Hin as [<- | [<- | [<- | [<- | [<- | [<- | []]]]]]]; auto.
Qed.

(** The duration functions share one shape: the base hours times the
    complexity multiplier, rounded to one decimal. *)
Lemma get_task_duration_base (task : string) (size : Q) (complexity : string) :
  In task canonical_tasks ->
  LaborCalculator.get_task_duration pow_half task size complexity
  = py_round
      (base_hours pow_half task size
       * LaborCalculator._get_complexity_multiplier complexity) 1.
Proof.
  intros Hin. pattern task. apply (canonical_cases task); auto; reflexivity.
Qed.

Lemma base_hours_nonneg (task : string) (size : Q) :
  (forall x, 0 <= x -> 0 <= pow_half x) -> 0 <= size ->
  In task canonical_tasks -> 0 <= base_hours pow_half task size.
Proof.
  intros Hph Hs Hin. pose proof (Hph size Hs) as Hp.
  pattern task. apply (canonical_cases task); auto;
    unfold base_hours; cbn [String.eqb Ascii.eqb Bool.eqb];
    try lra; try (vm_compute; discriminate).
  destruct (Qle_bool size 4); [| destruct (Qle_bool size 6)]; lra.
Qed.

(** X3.  For every task type and every non-negative size, the labor cost
    does not decrease from [simple] to [standard] to [complex]; the
    complexity multiplier enters twice, once in the duration and once in
    the cost. *)
Theorem labor_cost_monotone_in_complexity (task : string) (size : Q) :
  (forall x, 0 <= x -> 0 <= pow_half x) -> 0 <= size ->
  LaborCalculator.calculate_labor_cost pow_half task size "simple"
  <= LaborCalculator.calculate_labor_cost pow_half task size "standard"
  /\ LaborCalculator.calculate_labor_cost pow_half task size "standard"
     <= LaborCalculator.calculate_labor_cost pow_half task size "complex"
  /\ (forall complexity,
        In task canonical_tasks ->
        exists rate,
          dict_get LaborCalculator.hourly_rates task = Some rate
          /\ LaborCalculator.calculate_labor_cost pow_half task size complexity
             = py_round
                 (py_round
                    (base_hours pow_half task size
                     * LaborCalculator._get_complexity_multiplier complexity)
                    1
                  * rate
                  * LaborCalculator._get_complexity_multiplier complexity)
                 2).
Proof.
  intros Hph Hs.
  assert (Shape : forall complexity,
    In task canonical_tasks ->
    exists rate,
      dict_get LaborCalculator.hourly_rates task = Some rate
      /\ LaborCalculator.calculate_labor_cost pow_half task size complexity
         = py_round
             (py_round
                (base_hours pow_half task size
                 * LaborCalculator._get_complexity_multiplier complexity) 1
              * rate
              * LaborCalculator._get_complexity_multiplier complexity) 2).
  { intros c Hin. unfold LaborCalculator.calculate_labor_cost.
    rewrite (get_task_duration_base task size c Hin).
    destruct (dict_get LaborCalculator.hourly_rates task) as [rate |] eqn:R.
    - exists rate. split; reflexivity.
    - exfalso. revert R. pattern task. apply (canonical_cases task); auto;
        discriminate. }
  destruct (str_mem task canonical_tasks) eqn:K.
  - apply str_mem_In in K.
    pose proof (base_hours_nonneg task size Hph Hs K) as HB.
    destruct (Shape "simple" K) as (rate & R & Es).
    destruct (Shape "standard" K) as (rate1 & R1 & En).
    destruct (Shape "complex" K) as (rate2 & R2 & Ec).
    rewrite R in R1, R2. injection R1 as <-. injection R2 as <-.
    pose proof (hourly_rate_ge_1 task rate R) as Hr.
    rewrite Es, En, Ec.
    change (LaborCalculator._get_complexity_multiplier "simple") with 0.8.
    change (LaborCalculator._get_complexity_multiplier "standard") with 1.0.
    change (LaborCalculator._get_complexity_multiplier "complex") with 1.3.
    set (B := base_hours pow_half task size) in *.
    assert (D0 : 0 <= py_round (B * 0.8) 1)
      by (apply py_round_nonneg; lra).
    assert (D1 : py_round (B * 0.8) 1 <= py_round (B * 1.0) 1)
      by (apply py_round_mono; lra).
    assert (D2 : py_round (B * 1.0) 1 <= py_round (B * 1.3) 1)
      by (apply py_round_mono; lra).
    split; [| split; [| exact Shape]]; apply py_round_mono; nra.
  - assert (Z : forall c,
              LaborCalculator.calculate_labor_cost pow_half task size c = 0.0).
    { intros c. unfold LaborCalculator.calculate_labor_cost.
      now rewrite (hourly_rate_unknown task K). }
    rewrite !Z. split; [apply Qle_refl |]. split; [apply Qle_refl |].
    exact Shape.
Qed.

Lemma estimate_fold (size : Q) (tasks : list string) (a : Q) (d : dict Q) :
  fold_left
    (fun (acc : Q * dict Q) task =>
       let '(total_hours, task_durations) := acc in
       let duration :=
         LaborCalculator.get_task_duration pow_half task size "standard" in
       (total_hours + duration, dict_set task_durations task duration))
    tasks (a, d)
  = (fold_left Qplus (map (standard_duration pow_half size) tasks) a,
     fold_left (fun d task => dict_set d task (standard_duration pow_half size task))
       tasks d).
Proof.
  revert a d. induction tasks as [| t ts IH]; intros a d; cbn [fold_left map].
  - reflexivity.
  - now rewrite IH.
Qed.

(** X4.  The project estimate: the total is the sum of the task durations
    (a task listed twice counts twice); the working days are the fewest
    8-hour days that cover the total; the buffer is at least one day and at
    least 20% of the working days, so that even an empty project is
    estimated at one day or more. *)
Theorem project_duration_days (tasks : list string) (size : Q) :
  let r := LaborCalculator.estimate_project_duration pow_half tasks size in
  LaborCalculator.total_hours r
  = py_sum (map (standard_duration pow_half size) tasks)
  /\ LaborCalculator.total_hours r
     <= inject_Z (LaborCalculator.working_days r) * 8
  /\ inject_Z (LaborCalculator.working_days r) * 8
     < LaborCalculator.total_hours r + 8
  /\ 1 <= LaborCalculator.buffer_days r
  /\ inject_Z (LaborCalculator.working_days r) * 0.2
     <= LaborCalculator.buffer_days r
  /\ LaborCalculator.total_days r
     = inject_Z (LaborCalculator.working_days r)
       + LaborCalculator.buffer_days r.
Proof.
  unfold LaborCalculator.estimate_project_duration.
  rewrite estimate_fold.
  cbn [LaborCalculator.total_hours LaborCalculator.working_days
       LaborCalculator.buffer_days LaborCalculator.total_days].
  fold (py_sum (map (standard_duration pow_half size) tasks)).
  set (total := py_sum _).
  pose proof (Qle_ceiling (total / 8)) as C1.
  pose proof (Qceiling_lt (total / 8)) as C2.
  unfold Z.sub in C2. rewrite inject_Z_plus, inject_Z_opp in C2.
  change (inject_Z 1) with 1 in C2.
  assert (E : total == (total / 8) * 8) by (field).
  set (w := inject_Z (Qceiling (total / 8))) in *.
  split; [reflexivity |]. split; [lra |]. split; [lra |].
  unfold py_max. destruct (Qlt_le_dec 1 (w * 0.2)); repeat split; lra.
Qed.

Lemma breakdown_fold (f : string -> Q) (ts : list string) (d : dict Q)
    (k : string) :
  dict_get (fold_left (fun d task => dict_set d task (f task)) ts d) k
  = if str_mem k ts then Some (f k) else dict_get d k.
Proof.
  revert d. induction ts as [| t ts IH]; intros d; cbn [fold_left].
  - reflexivity.
  - rewrite IH, dict_get_set. unfold str_mem. cbn [existsb].
    fold (str_mem k ts).
    destruct (str_mem k ts); [now rewrite orb_true_r |].
    rewrite orb_false_r.
    destruct (String.eqb k t) eqn:E; [| reflexivity].
    apply String.eqb_eq in E. now subst.
Qed.

(** X5.  The per-task breakdown of the project estimate has exactly one
    entry for each task of the list, holding its duration, and no entry for
    any other task. *)
Theorem project_breakdown_lookup (tasks : list string) (size : Q)
    (task : string) :
  dict_get
    (LaborCalculator.task_breakdown
       (LaborCalculator.estimate_project_duration pow_half tasks size)) task
  = if str_mem task tasks
    then Some (LaborCalculator.get_task_duration pow_half task size "standard")
    else None.
Proof.
  unfold LaborCalculator.estimate_project_duration.
  rewrite estimate_fold. cbn [LaborCalculator.task_breakdown].
  rewrite breakdown_fold. reflexivity.
Qed.

(** X6.  [update_hourly_rates] replaces the rate of the tasks it is given
    and that the table already has, and nothing else: the tasks of the table
    and their order are unchanged, a task the table does not have is not
    added (its daily rate stays 0), and the daily rate of an updated task is
    8 times the new rate. *)
Theorem update_hourly_rates_spec (rates new_rates : dict Q) (task : string) :
  NoDup (dict_keys new_rates) ->
  dict_keys (LaborCalculator.update_hourly_rates rates new_rates)
  = dict_keys rates
  /\ LaborCalculator.get_daily_rate
       (LaborCalculator.update_hourly_rates rates new_rates) task
     = match dict_get rates task, dict_get new_rates task with
       | None, _ => 0.0
       | Some rate, None => rate * 8
       | Some _, Some rate' => rate' * 8
       end.
Proof.
  intros Hnd. unfold LaborCalculator.update_hourly_rates. split.
  - apply update_existing_keys.
  - unfold LaborCalculator.get_daily_rate.
    rewrite (update_existing_get rates new_rates task Hnd).
    destruct (dict_get rates task); [| reflexivity].
    destruct (dict_get new_rates task); reflexivity.
Qed.

End CostModelProperties.

Section CostModelWitnesses.

Import SmartPricingEngine.

Lemma unknown_task_costs_nothing_witness :
  MaterialDatabase.get_task_materials_cost sqrt_8_decimals "sauna" 6 "premium"
  = 0.0
  /\ tp_error
       (_calculate_task_price sqrt_8_decimals "sauna"
          {| bathroom_size := Some 6; location := Some "lyon";
             tasks := Some ["sauna"]; budget_conscious := Some false;
             original_transcript := None |})
     = None.
Proof.
  destruct (unknown_task_costs_nothing sqrt_8_decimals "sauna" 6 "premium"
              "complex"
              {| bathroom_size := Some 6; location := Some "lyon";
                 tasks := Some ["sauna"]; budget_conscious := Some false;
                 original_transcript := None |}
              "lyon" eq_refl eq_refl eq_refl eq_refl)
    as (H1 & _ & _ & _ & _ & H6).
  split; [exact H1 | exact H6].
Defined.

Lemma sqrt_8_decimals_mono (x y : Q) :
  x <= y -> sqrt_8_decimals x <= sqrt_8_decimals y.
Proof.
  intros H. unfold sqrt_8_decimals, Qle; cbn [Qnum Qden].
  apply Z.mul_le_mono_nonneg_r; [lia |].
  apply Z.sqrt_le_mono.
  assert (E : forall q : Q,
            (Qnum q * 10000000000000000 / Zpos (Qden q))%Z
            = Qfloor ((Qnum q * 10000000000000000) # Qden q))
    by reflexivity.
  rewrite !E. apply Qfloor_resp_le.
  unfold Qle in *; cbn [Qnum Qden] in *. nia.
Qed.

Lemma materials_cost_monotone_in_size_witness :
  MaterialDatabase.get_task_materials_cost sqrt_8_decimals "tiles" 2 "standard"
  <= MaterialDatabase.get_task_materials_cost sqrt_8_decimals "tiles" 8
       "standard".
Proof.
  apply (materials_cost_monotone_in_size sqrt_8_decimals "tiles" "standard"
           2 8 sqrt_8_decimals_mono).
  unfold Qle; simpl; lia.
Defined.

Lemma labor_cost_monotone_in_complexity_witness :
  LaborCalculator.calculate_labor_cost sqrt_8_decimals "painting" 4 "simple"
  <= LaborCalculator.calculate_labor_cost sqrt_8_decimals "painting" 4
       "standard"
  /\ LaborCalculator.calculate_labor_cost sqrt_8_decimals "painting" 4
       "standard"
     <= LaborCalculator.calculate_labor_cost sqrt_8_decimals "painting" 4
          "complex".
Proof.
  destruct (labor_cost_monotone_in_complexity sqrt_8_decimals "painting" 4
              sqrt_8_decimals_nonneg)
    as (H1 & H2 & _).
  - unfold Qle; simpl; lia.
  - split; [exact H1 | exact H2].
Defined.

Lemma update_hourly_rates_spec_witness :
  LaborCalculator.get_daily_rate
    (LaborCalculator.update_hourly_rates LaborCalculator.hourly_rates
       [("tiles", 50); ("sauna", 60)]) "tiles"
  = 50 * 8
  /\ LaborCalculator.get_daily_rate
       (LaborCalculator.update_hourly_rates LaborCalculator.hourly_rates
          [("tiles", 50); ("sauna", 60)]) "sauna"
     = 0.0.
Proof.
  assert (N : NoDup (dict_keys [("tiles", 50); ("sauna", 60)])).
  { repeat constructor; simpl; intuition discriminate. }
  split.
  - exact (proj2 (update_hourly_rates_spec LaborCalculator.hourly_rates
                    [("tiles", 50); ("sauna", 60)] "tiles" N)).
  - exact (proj2 (update_hourly_rates_spec LaborCalculator.hourly_rates
                    [("tiles", 50); ("sauna", 60)] "sauna" N)).
Defined.

End CostModelWitnesses.

(** * Further properties of the VAT rules *)

Section VatRuleProperties.

Lemma get_vat_rate_cases (task : string) (work_value : Q) (age : Z) :
  VATRules.get_vat_rate task work_value age = Ok 0.10
  \/ VATRules.get_vat_rate task work_value age = Ok 0.20.
Proof.
  unfold VATRules.get_vat_rate, VATRules.task_vat_classification.
  cbn [dict_get].
  repeat (match goal with
          | |- context [String.eqb task ?k] => destruct (String.eqb task k)
          end;
          [first [ right; reflexivity
                 | cbn [String.eqb Ascii.eqb Bool.eqb];
                   destruct (VATRules._is_eligible_for_reduced_vat _ _);
                   [left | right]; reflexivity ] |]).
  right. reflexivity.
Qed.

Lemma vat_label_cases (task : string) :
  dict_get_or VATRules.task_vat_classification task "standard" = "standard"
  \/ dict_get_or VATRules.task_vat_classification task "standard" = "reduced".
Proof.
  unfold dict_get_or, VATRules.task_vat_classification. cbn [dict_get].
  repeat (match goal with
          | |- context [String.eqb task ?k] => destruct (String.eqb task k)
          end; [auto |]).
  now left.
Qed.

(** [calculate_task_vat] never raises: the amount is the rounded product by
    one of the two rates, the label one of the two classes. *)
Lemma calculate_task_vat_total (task : string) (amount work_value : Q)
    (age : Z) :
  exists rate,
    (rate = 0.10 \/ rate = 0.20)
    /\ VATRules.calculate_task_vat task amount work_value age
       = Ok {| VATRules.vat_rate := rate;
               VATRules.vat_amount := py_round (amount * rate) 2;
               VATRules.vat_type :=
                 dict_get_or VATRules.task_vat_classification task "standard"
            |}.
Proof.
  unfold VATRules.calculate_task_vat.
  destruct (get_vat_rate_cases task work_value age) as [E | E]; rewrite E;
    eexists; (split; [| reflexivity]); auto.
Qed.

(** X7.  The label returned with a VAT amount is the class of the task, not
    the rate that was applied: for a task of the reduced class that does not
    meet the conditions of the reduced rate, and so with the default work
    value, the amount is 20% of the base while the label is [reduced]. *)
Theorem reduced_label_with_standard_rate (task : string)
    (amount work_value : Q) (age : Z) :
  dict_get VATRules.task_vat_classification task = Some "reduced" ->
  ~ reduced_conditions work_value age ->
  VATRules.calculate_task_vat task amount work_value age
  = Ok {| VATRules.vat_rate := 0.20;
          VATRules.vat_amount := py_round (amount * 0.20) 2;
          VATRules.vat_type := "reduced" |}.
Proof.
  intros Hc Hn. unfold VATRules.calculate_task_vat, VATRules.get_vat_rate,
    dict_get_or.
  rewrite Hc. cbn [String.eqb Ascii.eqb Bool.eqb].
  destruct (VATRules._is_eligible_for_reduced_vat work_value age) eqn:E.
  - apply _is_eligible_for_reduced_vat_spec in E. contradiction.
  - reflexivity.
Qed.

Lemma reduced_label_with_standard_rate_witness :
  VATRules.calculate_task_vat "tiles" 1000 VATRules.default_work_value
    VATRules.default_property_age
  = Ok {| VATRules.vat_rate := 0.20;
          VATRules.vat_amount := py_round (1000 * 0.20) 2;
          VATRules.vat_type := "reduced" |}.
Proof.
  apply reduced_label_with_standard_rate; [reflexivity |].
  unfold reduced_conditions. intros (H & _). vm_compute in H. now apply H.
Defined.

(** The loops of [get_vat_breakdown] and [calculate_total_vat] side by
    side: same running total, one entry per line, and the two buckets
    [standard] and [reduced] share the total between them. *)
Lemma breakdown_loop (work_value : Q) (age : Z) (lines : list task_price)
    (total : Q) (entries : list VATRules.task_vat_entry) (s r u : Q) :
  on_grid 2 s -> on_grid 2 r ->
  exists total' entries' s' r',
    fold_left (VATRules.breakdown_step work_value age) lines
      (Ok {| VATRules.b_total_vat := total;
             VATRules.b_vat_by_task := entries;
             VATRules.b_vat_by_rate :=
               [("standard", s); ("reduced", r); ("super_reduced", u)] |})
    = Ok {| VATRules.b_total_vat := total';
            VATRules.b_vat_by_task := entries';
            VATRules.b_vat_by_rate :=
              [("standard", s'); ("reduced", r'); ("super_reduced", u)] |}
    /\ fold_left (VATRules.total_vat_step work_value age) lines (Ok total)
       = Ok total'
    /\ List.length entries' = (List.length entries + List.length lines)%nat
    /\ on_grid 2 s' /\ on_grid 2 r'
    /\ s' + r' - (s + r) == total' - total.
Proof.
  revert total entries s r.
  induction lines as [| line lines IH]; intros total entries s r Gs Gr.
  - exists total, entries, s, r. cbn [fold_left List.length].
    split; [reflexivity |]. split; [reflexivity |]. split; [lia |].
    split; [exact Gs |]. split; [exact Gr |]. ring.
  - cbn [fold_left].
    unfold VATRules.breakdown_step at 2. unfold VATRules.total_vat_step at 2.
    cbn [bind].
    set (task_type := get_or (tp_task_type line) "").
    destruct (calculate_task_vat_total task_type
                (get_or (tp_materials line) 0.0) work_value age)
      as (rm & _ & Em).
    destruct (calculate_task_vat_total task_type
                (get_or (tp_labor line) 0.0) work_value age)
      as (rl & _ & El).
    rewrite Em, El.
    cbn [bind VATRules.vat_amount VATRules.vat_type VATRules.b_vat_by_rate
         VATRules.b_total_vat VATRules.b_vat_by_task].
    set (vm := py_round (get_or (tp_materials line) 0.0 * rm) 2).
    set (vl := py_round (get_or (tp_labor line) 0.0 * rl) 2).
    assert (Gv : on_grid 2 (vm + vl))
      by (apply on_grid_plus; apply on_grid_round).
    destruct (vat_label_cases task_type) as [L | L]; rewrite L;
      cbn [dict_index dict_get dict_set String.eqb Ascii.eqb Bool.eqb bind].
    + destruct (IH (total + (vm + vl))
                  (entries ++
                   [{| VATRules.e_task_type := task_type;
                       VATRules.e_materials_vat :=
                         {| VATRules.vat_rate := rm;
                            VATRules.vat_amount := vm;
                            VATRules.vat_type := "standard" |};
                       VATRules.e_labor_vat :=
                         {| VATRules.vat_rate := rl;
                            VATRules.vat_amount := vl;
                            VATRules.vat_type := "standard" |};
                       VATRules.e_total_task_vat := vm + vl |}])%list
                  (s + (vm + vl)) r)
        as (total' & entries' & s' & r' & F1 & F2 & Hlen & Gs' & Gr' & Hsum);
        [now apply on_grid_plus | exact Gr |].
      exists total', entries', s', r'.
      split; [exact F1 |]. split; [exact F2 |].
      rewrite length_app in Hlen. cbn [List.length] in *.
      split; [lia |]. split; [exact Gs' |]. split; [exact Gr' |]. lra.
    + destruct (IH (total + (vm + vl))
                  (entries ++
                   [{| VATRules.e_task_type := task_type;
                       VATRules.e_materials_vat :=
                         {| VATRules.vat_rate := rm;
                            VATRules.vat_amount := vm;
                            VATRules.vat_type := "reduced" |};
                       VATRules.e_labor_vat :=
                         {| VATRules.vat_rate := rl;
                            VATRules.vat_amount := vl;
                            VATRules.vat_type := "reduced" |};
                       VATRules.e_total_task_vat := vm + vl |}])%list
                  s (r + (vm + vl)))
        as (total' & entries' & s' & r' & F1 & F2 & Hlen & Gs' & Gr' & Hsum);
        [exact Gs | now apply on_grid_plus |].
      exists total', entries', s', r'.
      split; [exact F1 |]. split; [exact F2 |].
      rewrite length_app in Hlen. cbn [List.length] in *.
      split; [lia |]. split; [exact Gs' |]. split; [exact Gr' |]. lra.
Qed.

(** X8.  [get_vat_breakdown] never raises and agrees with
    [calculate_total_vat]: for every list of price lines, work value and
    property age its total is the very total VAT; it has one entry per
    line; its three buckets are those of the constructor, the amounts of
    [standard] and [reduced] add up to the total, and [super_reduced] stays
    at 0. *)
Theorem vat_breakdown_agrees_with_total (lines : list task_price)
    (work_value : Q) (age : Z) :
  exists b s r,
    VATRules.get_vat_breakdown lines work_value age = Ok b
    /\ VATRules.calculate_total_vat lines work_value age
       = Ok (VATRules.b_total_vat b)
    /\ List.length (VATRules.b_vat_by_task b) = List.length lines
    /\ VATRules.b_vat_by_rate b
       = [("standard", s); ("reduced", r); ("super_reduced", py_round 0.0 2)]
    /\ s + r == VATRules.b_total_vat b.
Proof.
  assert (G0 : on_grid 2 0.0) by (exists 0%Z; reflexivity).
  destruct (breakdown_loop work_value age lines 0.0 [] 0.0 0.0 0.0 G0 G0)
    as (total & entries & s & r & F1 & F2 & Hlen & Gs & Gr & Hsum).
  unfold VATRules.get_vat_breakdown, VATRules.calculate_total_vat.
  rewrite F1, F2.
  cbn [bind VATRules.b_total_vat VATRules.b_vat_by_task
       VATRules.b_vat_by_rate map fst snd].
  do 3 eexists. split; [reflexivity |].
  cbn [VATRules.b_total_vat VATRules.b_vat_by_task VATRules.b_vat_by_rate].
  split; [reflexivity |]. split; [exact Hlen |]. split; [reflexivity |].
  assert (Gt : on_grid 2 total).
  { apply (on_grid_comp 2 (s + r)); [lra | now apply on_grid_plus]. }
  rewrite (py_round_on_grid 2 s Gs), (py_round_on_grid 2 r Gr),
    (py_round_on_grid 2 total Gt).
  lra.
Qed.





Lemma dict_mem_keys {V : Type} (d : dict V) (k : string) :
  dict_mem d k = true <-> In k (dict_keys d).
Proof.
  unfold dict_mem. split.
  - destruct (dict_get d k) eqn:G; [| discriminate].
    intros _. now apply (dict_get_key d k v).
  - intros H. destruct (dict_get d k) eqn:G; [reflexivity |].
    exfalso. revert H G. unfold dict_keys.
    induction d as [| [k0 v0] d IH]; cbn [map fst dict_get In].
    + tauto.
    + intros [-> | H]; [rewrite String.eqb_refl; discriminate |].
      destruct (String.eqb k k0); [discriminate | now apply IH].
Qed.

Lemma update_existing_mem {V : Type} (d new : dict V) (k : string) :
  dict_mem (update_existing d new) k = dict_mem d k.
Proof.
  pose proof (dict_mem_keys (update_existing d new) k) as H1.
  pose proof (dict_mem_keys d k) as H2.
  rewrite update_existing_keys in H1.
  destruct (dict_mem (update_existing d new) k), (dict_mem d k);
    try reflexivity; [symmetry; tauto | tauto].
Qed.

Lemma dict_set_Forall {V : Type} (P : string * V -> Prop) (d : dict V)
    (k : string) (v : V) :
  Forall P d -> P (k, v) -> Forall P (dict_set d k v).
Proof.
  intros H Hk. induction H as [| [k0 v0] d H0 Hd IH]; cbn [dict_set].
  - now constructor.
  - destruct (String.eqb k k0); constructor; auto.
Qed.

Lemma dict_get_In {V : Type} (d : dict V) (k : string) (v : V) :
  dict_get d k = Some v -> In (k, v) d.
Proof.
  induction d as [| [k0 v0] d IH]; cbn [dict_get].
  - discriminate.
  - destruct (String.eqb k k0) eqn:E.
    + intros H. injection H as <-. apply String.eqb_eq in E. subst. now left.
    + intros H. right. now apply IH.
Qed.

(** The hooks keep the tables consistent. *)
Lemma reachable_tables_ok (self : VATRules.vat_tables) :
  reachable_tables self -> tables_ok self.
Proof.
  induction 1 as [| self new _ (Hs & Hr & Hc) | self new _ (Hs & Hr & Hc)].
  - unfold tables_ok. split; [reflexivity |]. split; [reflexivity |].
    repeat constructor.
  - unfold tables_ok, VATRules.update_vat_rates.
    cbn [VATRules.t_vat_rates VATRules.t_task_vat_classification].
    rewrite !update_existing_mem. split; [exact Hs |]. split; [exact Hr |].
    eapply Forall_impl; [| exact Hc]. intros item Hi.
    now rewrite update_existing_mem.
  - unfold tables_ok, VATRules.update_task_classifications.
    cbn [VATRules.t_vat_rates VATRules.t_task_vat_classification].
    split; [exact Hs |]. split; [exact Hr |].
    revert Hc. generalize (VATRules.t_task_vat_classification self).
    induction new as [| [task vat_type] new IH]; intros cls Hc;
      cbn [fold_left].
    + exact Hc.
    + apply IH.
      destruct (dict_mem (VATRules.t_vat_rates self) vat_type) eqn:M;
        [| exact Hc].
      apply dict_set_Forall; [exact Hc | exact M].
Qed.

(** X10.  Whatever calls of [update_vat_rates] and
    [update_task_classifications] were made, [get_vat_rate] returns a rate
    for every task, work value and property age: no update can make it
    raise a [KeyError].  On the tables of the constructor it is the
    function of the claims. *)
Theorem get_vat_rate_never_raises (self : VATRules.vat_tables)
    (task : string) (work_value : Q) (age : Z) :
  reachable_tables self ->
  (exists rate,
     VATRules.get_vat_rate_of self task work_value age = Ok rate)
  /\ VATRules.get_vat_rate_of VATRules.initial_tables task work_value age
     = VATRules.get_vat_rate task work_value age.
Proof.
  intros Hreach. split; [| reflexivity].
  destruct (reachable_tables_ok self Hreach) as (Hs & Hr & Hc).
  assert (I : forall k, dict_mem (VATRules.t_vat_rates self) k = true ->
              exists rate, dict_index (VATRules.t_vat_rates self) k = Ok rate).
  { intros k. unfold dict_mem, dict_index.
    destruct (dict_get (VATRules.t_vat_rates self) k);
      [eexists; reflexivity | discriminate]. }
  unfold VATRules.get_vat_rate_of.
  destruct (dict_get (VATRules.t_task_vat_classification self) task)
    as [vat_type |] eqn:G; [| now apply I].
  destruct (vat_type =? "reduced").
  - destruct (VATRules._is_eligible_for_reduced_vat work_value age);
      now apply I.
  - apply I. apply dict_get_In in G. rewrite Forall_forall in Hc.
    exact (Hc _ G).
Qed.

Lemma get_vat_rate_never_raises_witness :
  exists rate,
    VATRules.get_vat_rate_of
      (VATRules.update_task_classifications
         (VATRules.update_vat_rates VATRules.initial_tables
            [("standard", 0.21); ("zero", 0)])
         [("sauna", "super_reduced"); ("pool", "zero")])
      "pool" 0 10
    = Ok rate.
Proof.
  apply (get_vat_rate_never_raises _ "pool" 0 10).
  repeat constructor.
Defined.

End VatRuleProperties.

(** * Further properties of the confidence scorer *)

Section ScorerFlagProperties.

Import ConfidenceScorer.

Lemma size_flags_run (size : Q) (sc : scorer) :
  flags (snd (_calculate_size_confidence size sc))
  = (flags sc ++ size_flags size)%list.
Proof.
  unfold _calculate_size_confidence, bathroom_size_factors, size_flags.
  cbn [size_loop]. unfold in_range.
  cbn [range_min range_max sb_flag sb_score].
  repeat (match goal with
          | |- context [Qle_bool ?a size && Qltb size ?b] =>
              destruct (Qle_bool a size && Qltb size b)
          end;
          [cbn; now rewrite ?app_nil_r |]).
  cbn [andb].
  destruct (Qle_bool 12 size); reflexivity.
Qed.

Lemma task_flags_run (ts : list string) (sc : scorer) :
  flags (snd (_calculate_task_confidence ts sc))
  = (flags sc ++ task_flags ts)%list.
Proof.
  unfold _calculate_task_confidence, task_flags.
  destruct ts as [| t ts]; [reflexivity |].
  unfold mbind.
  destruct (List.length (t :: ts) =? 1)%nat;
    destruct (5 <? List.length (t :: ts))%nat;
    destruct (filter _ _);
    destruct (List.length (t :: ts) <=? 2)%nat;
    destruct (List.length (t :: ts) <=? 4)%nat;
    cbn; rewrite <- ?app_assoc, ?app_nil_r; reflexivity.
Qed.

Lemma price_flags_run (tp : list task_price) (fp : Q) (sc : scorer) :
  flags (snd (_calculate_price_confidence tp fp sc))
  = (flags sc ++ price_flags tp fp (historical_pricing sc))%list
  /\ historical_pricing (snd (_calculate_price_confidence tp fp sc))
     = historical_pricing sc.
Proof.
  unfold _calculate_price_confidence, price_flags.
  destruct tp as [| l tp]; [now rewrite app_nil_r |].
  fold (price_ratio fp (historical_pricing sc)).
  set (ratio := price_ratio fp (historical_pricing sc)).
  unfold price_thresholds. cbn [price_loop pt_flag pt_score multiplier].
  repeat (match goal with
          | |- context [Qle_bool ratio ?m] => destruct (Qle_bool ratio m)
          end;
          [cbn; now rewrite ?app_nil_r |]).
  now cbn.
Qed.

(** The flags left by a scoring call. *)
Lemma calculate_confidence_flags (req : requirements) (tp : list task_price)
    (fp : Q) (sc : scorer) :
  flags (snd (calculate_confidence req tp fp sc))
  = (size_flags (get_or (bathroom_size req) 4.0)
     ++ task_flags (get_or (tasks req) [])
     ++ price_flags tp fp (historical_pricing sc))%list
  /\ historical_pricing (snd (calculate_confidence req tp fp sc))
     = historical_pricing sc.
Proof.
  unfold calculate_confidence, sub_scores, mbind, reset_flags.
  set (sc0 := {| historical_pricing := historical_pricing sc; flags := [] |}).
  pose proof (size_flags_run (get_or (bathroom_size req) 4.0) sc0) as H1.
  pose proof (size_loop_history bathroom_size_factors
                (get_or (bathroom_size req) 4.0) sc0) as G1.
  fold (_calculate_size_confidence (get_or (bathroom_size req) 4.0) sc0) in G1.
  destruct (_calculate_size_confidence _ sc0) as [s1 sc1].
  cbn [snd] in H1, G1.
  pose proof (task_flags_run (get_or (tasks req) []) sc1) as H3.
  pose proof (_calculate_task_confidence_history (get_or (tasks req) []) sc1)
    as G3.
  destruct (_calculate_task_confidence _ sc1) as [s3 sc3].
  cbn [snd] in H3, G3.
  destruct (price_flags_run tp fp sc3) as [H4 G4].
  destruct (_calculate_price_confidence tp fp sc3) as [s4 sc4].
  unfold ret. cbn [snd] in H4, G4 |- *.
  rewrite H4, H3, H1, G4, G3, G1. cbn [flags historical_pricing sc0 app].
  split; [now rewrite <- app_assoc | reflexivity].
Qed.

(** Membership of a given flag in the list of the possible ones. *)
Ltac in_possible :=
  unfold possible_flags; cbn [In];
  repeat (first [left; reflexivity | right]).
Ltac all_possible :=
  repeat (apply Forall_cons; [in_possible |]); apply Forall_nil.

Lemma size_flags_short (size : Q) :
  (List.length (size_flags size) <= 1)%nat
  /\ Forall (fun f => In f possible_flags) (size_flags size).
Proof.
  unfold size_flags.
  repeat (match goal with
          | |- context [Qle_bool ?a size && Qltb size ?b] =>
              destruct (Qle_bool a size && Qltb size b)
          end);
    (split; [cbn; lia |]); all_possible.
Qed.

Lemma missing_essential_cases (ts : list string) :
  let missing := filter (fun task => negb (str_mem task ts))
                   ["plumbing"; "tiles"] in
  missing = [] \/ missing = ["plumbing"; "tiles"] \/ missing = ["plumbing"]
  \/ missing = ["tiles"].
Proof.
  cbn [filter].
  destruct (negb (str_mem "plumbing" ts)), (negb (str_mem "tiles" ts)); auto.
Qed.

Lemma task_flags_short (ts : list string) :
  (List.length (task_flags ts) <= 2)%nat
  /\ Forall (fun f => In f possible_flags) (task_flags ts).
Proof.
  unfold task_flags. destruct ts as [| t ts].
  - split; [cbn; lia |]. all_possible.
  - destruct (missing_essential_cases (t :: ts)) as [E | [E | [E | E]]];
      cbv zeta in E; rewrite E; clear E;
      destruct (List.length (t :: ts) =? 1)%nat eqn:L1;
      destruct (5 <? List.length (t :: ts))%nat eqn:L5;
      try (apply Nat.eqb_eq in L1; apply Nat.ltb_lt in L5; lia);
      (split; [cbn; lia |]); all_possible.
Qed.

Lemma price_flags_short (tp : list task_price) (fp : Q)
    (history : dict price_history) :
  (List.length (price_flags tp fp history) <= 1)%nat
  /\ Forall (fun f => In f possible_flags) (price_flags tp fp history).
Proof.
  unfold price_flags. destruct tp; [split; [cbn; lia | constructor] |].
  cbv zeta.
  repeat (match goal with
          | |- context [Qle_bool ?r ?m] => destruct (Qle_bool r m)
          end);
    (split; [cbn; lia |]); all_possible.
Qed.

(** Every flag left by a scoring call is one of the possible ones. *)
Lemma flags_of_a_scoring_call_aux (req : requirements)
    (tp : list task_price) (fp : Q) (sc : scorer) :
  Forall (fun f => In f possible_flags)
    (flags (snd (calculate_confidence req tp fp sc))).
Proof.
  destruct (calculate_confidence_flags req tp fp sc) as [E _]. rewrite E.
  apply Forall_app. split; [apply size_flags_short |].
  apply Forall_app. split; [apply task_flags_short | apply price_flags_short].
Qed.

(** X11.  The flags of a scoring call are a function of its arguments and
    of the historical table only: earlier flags are discarded, and the list
    is made of the size flag, then the task flags, then the price flag.
    There are at most four of them, each from a fixed list of twelve, so
    the cap of 20% on the penalty is reached and never exceeded: the
    penalty is 5% per flag. *)
Theorem flags_of_a_scoring_call (req : requirements)
    (task_prices : list task_price) (final_price : Q) (sc : scorer) :
  let fl := get_flags (snd (calculate_confidence req task_prices final_price sc)) in
  fl = (size_flags (get_or (bathroom_size req) 4.0)
        ++ task_flags (get_or (tasks req) [])
        ++ price_flags task_prices final_price (historical_pricing sc))%list
  /\ (List.length fl <= 4)%nat
  /\ Forall (fun f => In f possible_flags) fl
  /\ py_min (inject_Z (Z.of_nat (List.length fl)) * 0.05) 0.20
     == inject_Z (Z.of_nat (List.length fl)) * 0.05.
Proof.
  cbv zeta. unfold get_flags.
  destruct (calculate_confidence_flags req task_prices final_price sc)
    as [E _].
  rewrite E.
  destruct (size_flags_short (get_or (bathroom_size req) 4.0)) as [L1 F1].
  destruct (task_flags_short (get_or (tasks req) [])) as [L2 F2].
  destruct (price_flags_short task_prices final_price (historical_pricing sc))
    as [L3 F3].
  split; [reflexivity |].
  match goal with
  | |- (List.length ?l <= 4)%nat /\ _ =>
      assert (L : (List.length l <= 4)%nat) by (rewrite !length_app; lia)
  end.
  split; [exact L |]. split.
  - apply Forall_app. split; [exact F1 |]. apply Forall_app. now split.
  - match goal with
    | |- py_min (inject_Z (Z.of_nat ?m) * _) _ == _ =>
        assert (N : inject_Z (Z.of_nat m) <= 4)
          by (unfold Qle, inject_Z; cbn [Qnum Qden]; lia);
        set (q := inject_Z (Z.of_nat m)) in *
    end.
    unfold py_min. destruct (Qlt_le_dec 0.20 (q * 0.05)); [lra | reflexivity].
Qed.

Lemma sub_scores_ranges (req : requirements) (tp : list task_price) (fp : Q)
    (sc : scorer) :
  let '(s1, s2, s3, s4, s5) := fst (sub_scores req tp fp sc) in
  (0.7 <= s1 /\ s1 <= 1) /\ (0.8 <= s2 /\ s2 <= 1)
  /\ (0.5 <= s3 /\ s3 <= 0.9) /\ (0.5 <= s4 /\ s4 <= 1)
  /\ (0.5 <= s5 /\ s5 <= 0.95).
Proof.
  unfold sub_scores, mbind, reset_flags.
  set (sc0 := {| historical_pricing := historical_pricing sc; flags := [] |}).
  assert (H1 : 0.7 <= fst (_calculate_size_confidence
                             (get_or (bathroom_size req) 4.0) sc0)
               /\ fst (_calculate_size_confidence
                         (get_or (bathroom_size req) 4.0) sc0) <= 1).
  { unfold _calculate_size_confidence, bathroom_size_factors; simpl.
    repeat (match goal with
            | |- context [in_range ?b ?x] => destruct (in_range b x)
            end; simpl).
    all: split; unfold Qle; simpl; lia. }
  destruct (_calculate_size_confidence _ sc0) as [s1 sc1]. cbn [fst] in H1.
  assert (H3 : 0.5 <= fst (_calculate_task_confidence
                             (get_or (tasks req) []) sc1)
               /\ fst (_calculate_task_confidence
                         (get_or (tasks req) []) sc1) <= 0.9).
  { unfold _calculate_task_confidence.
    destruct (get_or (tasks req) []) as [| t ts].
    - simpl. split; unfold Qle; simpl; lia.
    - unfold mbind.
      destruct (List.length (t :: ts) =? 1)%nat;
        destruct (5 <? List.length (t :: ts))%nat;
        destruct (filter _ _);
        destruct (List.length (t :: ts) <=? 2)%nat;
        destruct (List.length (t :: ts) <=? 4)%nat; simpl;
        split; unfold Qle; simpl; lia. }
  destruct (_calculate_task_confidence _ sc1) as [s3 sc3]. cbn [fst] in H3.
  pose proof (_calculate_price_confidence_value tp fp sc3) as H4.
  destruct (_calculate_price_confidence tp fp sc3) as [s4 sc4].
  cbn [fst] in H4. unfold ret. cbn [fst].
  split; [exact H1 |]. split.
  { unfold _calculate_location_confidence, dict_get_or, location_confidence.
    cbn [dict_get].
    repeat (match goal with
            | |- context [String.eqb ?l ?k] => destruct (String.eqb l k)
            end);
      split; unfold Qle; simpl; lia. }
  split; [exact H3 |]. split.
  { rewrite H4. unfold price_score_of. destruct tp.
    - split; unfold Qle; simpl; lia.
    - cbv zeta. unfold price_bucket_score.
      repeat (match goal with
              | |- context [Qle_bool ?r ?m] => destruct (Qle_bool r m)
              end);
        split; unfold Qle; simpl; lia. }
  unfold _calculate_complexity_confidence.
  destruct (get_or (tasks req) []) as [| t ts].
  - split; unfold Qle; simpl; lia.
  - set (scores := map _ (t :: ts)).
    assert (F : Forall (fun x => 0.5 <= x /\ x <= 0.95) scores).
    { apply Forall_forall. intros x Hx. apply in_map_iff in Hx.
      destruct Hx as (task & <- & _).
      destruct (str_mem task task_complexity_simple);
        [| destruct (str_mem task task_complexity_moderate);
           [| destruct (str_mem task task_complexity_complex)]];
        split; unfold Qle; simpl; lia. }
    destruct (py_sum_between 0.5 0.95 scores 0 F) as [L U].
    fold (py_sum scores) in L, U.
    assert (P : 0 < inject_Z (Z.of_nat (List.length scores))).
    { unfold scores. rewrite length_map. cbn [List.length].
      rewrite Nat2Z.inj_succ. unfold Qlt; simpl. lia. }
    set (n := inject_Z (Z.of_nat (List.length scores))) in *.
    split.
    + apply Qle_shift_div_l; [exact P | lra].
    + apply Qle_shift_div_r; [exact P | lra].
Qed.

(** X12.  The confidence score lies between 44.8 and 97: the floor at 0
    applied to the score never comes into play. *)
Theorem confidence_score_floor (req : requirements)
    (task_prices : list task_price) (final_price : Q) (sc : scorer) :
  44.8 <= fst (calculate_confidence req task_prices final_price sc)
  /\ fst (calculate_confidence req task_prices final_price sc) <= 97.
Proof.
  unfold calculate_confidence, mbind.
  pose proof (sub_scores_ranges req task_prices final_price sc) as R.
  destruct (sub_scores req task_prices final_price sc)
    as [[[[[s1 s2] s3] s4] s5] sc'].
  cbn [fst] in R |- *.
  destruct R as ([L1 U1] & [L2 U2] & [L3 U3] & [L4 U4] & [L5 U5]).
  unfold weighted_score.
  destruct (flag_penalty_bounds (List.length (flags sc'))) as [PL PU].
  set (p := py_min _ _) in *.
  set (c := (s1 * 0.15 + s2 * 0.10 + s3 * 0.20 + s4 * 0.35 + s5 * 0.20) * 100).
  assert (C : 56 <= c /\ c <= 97) by (unfold c; split; lra).
  destruct C as [CL CU].
  assert (M : 44.8 <= py_max (c * (1 - p)) 0
              /\ py_max (c * (1 - p)) 0 <= 97).
  { assert (0 <= c * p) by (apply Qmult_le_0_compat; lra).
    assert (c * p <= c * 0.20) by (apply Qmult_le_l; lra).
    unfold py_max. destruct (Qlt_le_dec _ _); split; nra. }
  destruct M as [ML MU].
  destruct (py_round_between (py_max (c * (1 - p)) 0) 1 448 970) as [RL RU].
  - apply Qle_trans with 44.8; [unfold Qle; simpl; lia | exact ML].
  - apply Qle_trans with 97; [exact MU | unfold Qle; simpl; lia].
  - split.
    + apply Qle_trans with (448 # scale 1); [unfold Qle; simpl; lia | exact RL].
    + apply Qle_trans with (970 # scale 1); [exact RU | unfold Qle; simpl; lia].
Qed.

Lemma categorize_count (c : flag_categories) (f : string) :
  categories_size (categorize c f)
  = (categories_size c + (if categorized f then 1 else 0))%nat
  /\ (contains "location" f = false ->
      location_issues (categorize c f) = location_issues c).
Proof.
  unfold categorize, categorized, categories_size.
  destruct (contains "size" f), (contains "small" f), (contains "large" f),
    (contains "task" f), (contains "price" f), (contains "low" f),
    (contains "high" f), (contains "location" f);
    cbn [orb size_issues task_issues price_issues location_issues];
    rewrite ?length_app; cbn [List.length];
    (split; [lia | first [reflexivity | discriminate]]).
Qed.

Lemma possible_flag_category (f : string) :
  In f possible_flags ->
  categorized f = negb (String.eqb f "above_average")
  /\ contains "location" f = false.
Proof.
  unfold possible_flags. cbn [In].
  intros H.
  repeat (destruct H as [<- | H]; [vm_compute; split; reflexivity |]).
  destruct H.
Qed.

Lemma categorize_fold (fl : list string) (c : flag_categories) :
  Forall (fun f => In f possible_flags) fl ->
  (categories_size (fold_left categorize fl c)
   + count_occ string_dec fl "above_average"
   = categories_size c + List.length fl)%nat
  /\ location_issues (fold_left categorize fl c) = location_issues c.
Proof.
  intros H. revert c. induction H as [| f fl Hf _ IH]; intros c.
  - cbn. split; [lia | reflexivity].
  - cbn [fold_left count_occ List.length].
    destruct (IH (categorize c f)) as [I1 I2].
    destruct (categorize_count c f) as [C1 C2].
    destruct (possible_flag_category f Hf) as [P1 P2].
    rewrite I2, (C2 P2). split; [| reflexivity].
    rewrite C1, P1 in I1.
    destruct (string_dec f "above_average") as [-> | N].
    + rewrite String.eqb_refl in I1. cbn [negb] in I1. lia.
    + apply String.eqb_neq in N. rewrite N in I1. cbn [negb] in I1. lia.
Qed.

(** X13.  In the flag summary that follows a scoring call, every recorded
    flag is put in one of the categories except [above_average], which
    matches none of the words looked for: the categories together hold the
    total number of flags less the [above_average] ones.  No flag ever
    falls in the location category. *)
Theorem flag_summary_misses_above_average (req : requirements)
    (task_prices : list task_price) (final_price : Q) (sc : scorer) :
  let s :=
    get_flag_summary
      (snd (calculate_confidence req task_prices final_price sc)) in
  (categories_size (categories s)
   + count_occ string_dec (all_flags s) "above_average"
   = total_flags s)%nat
  /\ location_issues (categories s) = []
  /\ categorized "above_average" = false.
Proof.
  cbv zeta. unfold get_flag_summary.
  cbn [categories all_flags total_flags].
  pose proof (flags_of_a_scoring_call_aux req task_prices final_price sc)
    as F.
  destruct (categorize_fold _
              {| size_issues := []; task_issues := []; price_issues := [];
                 location_issues := [] |} F) as [H1 H2].
  split; [exact H1 |]. split; [exact H2 | reflexivity].
Qed.

(** X14.  [get_confidence_report] does not report on the last quote: it
    runs a scoring call of its own on empty requirements, so that for every
    state of the scorer the reported score is 59.4, the only flag is
    [no_tasks_detected] with severity [high], no suggestion is made, and
    the flags of the earlier call are lost. *)
Theorem confidence_report_is_constant (sc : scorer) :
  let '(r, sc') := get_confidence_report sc in
  r_confidence_score r == 59.4
  /\ all_flags (r_flags r) = ["no_tasks_detected"]
  /\ total_flags (r_flags r) = 1%nat
  /\ severity (r_flags r) = "high"
  /\ r_suggestions r = []
  /\ r_historical_data r = historical_pricing sc
  /\ flags sc' = ["no_tasks_detected"]
  /\ historical_pricing sc' = historical_pricing sc.
Proof.
  destruct sc as [history old_flags].
  vm_compute. repeat split; reflexivity.
Qed.

End ScorerFlagProperties.

(** * Further properties of the extraction *)

Section MoreExtractionProperties.

Import SmartPricingEngine.

Lemma find_first {A : Type} (p : A -> bool) (l : list A) (x : A) :
  find p l = Some x ->
  exists pre post,
    l = (pre ++ x :: post)%list
    /\ Forall (fun y => p y = false) pre
    /\ p x = true.
Proof.
  induction l as [| y l IH]; cbn [find]; [discriminate |].
  destruct (p y) eqn:E.
  - intros H. injection H as <-. exists [], l. repeat split; auto.
  - intros H. destruct (IH H) as (pre & post & -> & F & Hx).
    exists (y :: pre), post. repeat split; auto.
Qed.

(** X15.  The location is always a city of the multiplier table, so its
    multiplier (between 1 and 1.3) is always found; it is the first city in
    the order of the table, not of the text, that occurs in the text, and
    [marseille] when none occurs. *)
Theorem location_is_first_city_of_table (text : string) :
  (exists m,
     dict_get city_multipliers (_extract_location text) = Some m
     /\ 1 <= m /\ m <= 1.3)
  /\ ((forall city, In city (dict_keys city_multipliers) ->
       contains city text = false) ->
      _extract_location text = "marseille")
  /\ (forall city, In city (dict_keys city_multipliers) ->
      contains city text = true ->
      contains (_extract_location text) text = true
      /\ exists pre post,
           dict_keys city_multipliers
           = (pre ++ _extract_location text :: post)%list
           /\ Forall (fun c => contains c text = false) pre).
Proof.
  split; [| split].
  - pose proof (_extract_location_known text) as K.
    unfold dict_mem in K.
    destruct (dict_get city_multipliers (_extract_location text)) as [m |] eqn:G;
      [| discriminate K].
    exists m. split; [reflexivity |].
    revert G. generalize (_extract_location text). intros loc.
    unfold city_multipliers. cbn [dict_get].
    repeat (match goal with
            | |- context [String.eqb loc ?k] => destruct (String.eqb loc k)
            end;
            [intros H; injection H as <-; split; unfold Qle; simpl; lia |]).
    discriminate.
  - intros Hnone. unfold _extract_location.
    destruct (find _ _) as [city |] eqn:F; [| reflexivity].
    apply find_some in F. destruct F as [Hin Hc].
    rewrite (Hnone city Hin) in Hc. discriminate Hc.
  - intros city Hin Hc. unfold _extract_location.
    destruct (find (fun city => contains city text)
                (dict_keys city_multipliers)) as [loc |] eqn:F.
    + destruct (find_first _ _ _ F) as (pre & post & E & Fa & Hl).
      split; [exact Hl |]. exists pre, post. now split.
    + exfalso. pose proof (find_none _ _ F city Hin) as N. cbv beta in N.
      congruence.
Qed.

Lemma location_is_first_city_of_table_witness :
  _extract_location "from paris to marseille" = "marseille"
  /\ _extract_location "a bathroom in london" = "marseille".
Proof.
  destruct (location_is_first_city_of_table "a bathroom in london")
    as (_ & Hnone & _).
  split; [reflexivity |]. apply Hnone.
  intros city Hin. cbn in Hin.
  repeat (destruct Hin as [<- | Hin]; [reflexivity |]). destruct Hin.
Defined.

Lemma span_app (p : ascii -> bool) (s a b : string) :
  span p s = (a, b) -> s = (a ++ b)%string.
Proof.
  revert a b. induction s as [| c s IH]; intros a b; cbn [span].
  - intros H. injection H as <- <-. reflexivity.
  - destruct (p c).
    + destruct (span p s) as [a' b'] eqn:E. intros H. injection H as <- <-.
      cbn [String.append]. now rewrite (IH a' b' eq_refl).
    + intros H. injection H as <- <-. reflexivity.
Qed.

Lemma contains_app_r (sub a b : string) :
  contains sub b = true -> contains sub (a ++ b) = true.
Proof.
  intros H. induction a as [| c a IH]; cbn [String.append]; [exact H |].
  cbn [contains]. rewrite IH. apply orb_true_r.
Qed.

Lemma contains_prefix (sub s : string) :
  prefix sub s = true -> contains sub s = true.
Proof. intros H. destruct s; cbn [contains]; now rewrite H. Qed.

Lemma unit_follows_contains (s : string) :
  unit_follows s = true -> contains area_unit s = true.
Proof.
  unfold unit_follows. destruct (span isspace s) as [a rest] eqn:E.
  intros H. rewrite (span_app _ _ _ _ E).
  apply contains_app_r. now apply contains_prefix.
Qed.

Lemma contains_tail (sub : string) (c : ascii) (s : string) :
  contains sub s = true -> contains sub (String c s) = true.
Proof. intros H. cbn [contains]. rewrite H. apply orb_true_r. Qed.

Lemma match_size_at_contains (s : string) (g : string * string) :
  match_size_at s = Some g -> contains area_unit s = true.
Proof.
  unfold match_size_at. destruct (span isdigit s) as [ds r1] eqn:E.
  rewrite (span_app _ _ _ _ E).
  destruct ds as [| d ds]; [discriminate |].
  intros H. apply contains_app_r.
  destruct r1 as [| c r1'].
  - destruct (unit_follows ""%string) eqn:U; [| discriminate H].
    now apply unit_follows_contains.
  - assert (Tail : unit_follows (String c r1') = true ->
                   contains area_unit (String c r1') = true)
      by apply unit_follows_contains.
    destruct (Ascii.eqb c "."%char) eqn:Dot.
    + apply Ascii.eqb_eq in Dot. subst c.
      destruct (span isdigit r1') as [fs r2] eqn:E2.
      destruct fs as [| f fs].
      * destruct (unit_follows (String "." r1')) eqn:U; [| discriminate H].
        now apply Tail.
      * destruct (unit_follows r2) eqn:U2.
        -- apply contains_tail. rewrite (span_app _ _ _ _ E2).
           apply contains_app_r. now apply unit_follows_contains.
        -- destruct (unit_follows (String "." r1')) eqn:U; [| discriminate H].
           now apply Tail.
    + assert (Hc : (if unit_follows (String c r1')
                    then Some (String d ds, ""%string) else None) = Some g).
      { revert H. destruct c as [[] [] [] [] [] [] [] []];
          try discriminate Dot; intros H; exact H. }
      destruct (unit_follows (String c r1')) eqn:U; [| discriminate Hc].
      now apply Tail.
Qed.

Lemma search_size_contains (s : string) (g : string * string) :
  search_size s = Some g -> contains area_unit s = true.
Proof.
  induction s as [| c s IH]; cbn [search_size].
  - destruct (match_size_at ""%string) eqn:M; [| discriminate].
    intros _. now apply (match_size_at_contains _ _ M).
  - destruct (match_size_at (String c s)) eqn:M.
    + intros _. now apply (match_size_at_contains _ _ M).
    + intros H. apply contains_tail. now apply IH.
Qed.

(** X16.  On a valid text the size is never negative, and it is the default
    4.0 whenever the lowercased text has no area unit in it. *)
Theorem size_is_default_without_unit (transcript : string) :
  (10 <= String.length (strip transcript))%nat ->
  exists req size,
    parse_transcript transcript = Ok req
    /\ bathroom_size req = Some size
    /\ 0 <= size
    /\ (contains area_unit (strip (lower transcript)) = false ->
        size = 4.0).
Proof.
  intros Hlen.
  pose proof (length_strip transcript) as L.
  unfold parse_transcript.
  destruct (String.length transcript =? 0)%nat eqn:E0;
    [apply Nat.eqb_eq in E0; lia |].
  destruct (String.length (strip transcript) <? 10)%nat eqn:E1;
    [apply Nat.ltb_lt in E1; lia |].
  do 2 eexists. split; [reflexivity |]. cbn [bathroom_size].
  split; [reflexivity |].
  destruct (search_size (strip (lower transcript))) as [[i f] |] eqn:S.
  - split; [apply float_of_decimal_nonneg |].
    intros N. rewrite (search_size_contains _ _ S) in N. discriminate N.
  - split; [unfold Qle; simpl; lia | reflexivity].
Qed.

Lemma size_is_default_without_unit_witness :
  exists req size,
    parse_transcript "Repaint the walls of a 6 m2 bathroom" = Ok req
    /\ bathroom_size req = Some size
    /\ 0 <= size
    /\ (contains area_unit
          (strip (lower "Repaint the walls of a 6 m2 bathroom")) = false ->
        size = 4.0).
Proof.
  apply (size_is_default_without_unit "Repaint the walls of a 6 m2 bathroom").
  vm_compute. lia.
Defined.

Lemma lower_char_idem (c : ascii) : lower_char (lower_char c) = lower_char c.
Proof. destruct c as [[] [] [] [] [] [] [] []]; reflexivity. Qed.

Lemma isspace_lower_char (c : ascii) : isspace (lower_char c) = isspace c.
Proof. destruct c as [[] [] [] [] [] [] [] []]; reflexivity. Qed.

Lemma lower_idem (s : string) : lower (lower s) = lower s.
Proof.
  induction s as [| c s IH]; cbn [lower]; [reflexivity |].
  now rewrite lower_char_idem, IH.
Qed.

Lemma length_lower (s : string) : String.length (lower s) = String.length s.
Proof. induction s as [| c s IH]; cbn [lower String.length]; congruence. Qed.

Lemma lstrip_lower (s : string) : lstrip (lower s) = lower (lstrip s).
Proof.
  induction s as [| c s IH]; cbn [lower lstrip]; [reflexivity |].
  rewrite isspace_lower_char. destruct (isspace c); [exact IH | reflexivity].
Qed.

Lemma rstrip_lower (s : string) : rstrip (lower s) = lower (rstrip s).
Proof.
  induction s as [| c s IH]; cbn [lower rstrip]; [reflexivity |].
  rewrite IH, isspace_lower_char.
  destruct (rstrip s); cbn [lower]; [destruct (isspace c) |]; reflexivity.
Qed.

Lemma strip_lower (s : string) : strip (lower s) = lower (strip s).
Proof. unfold strip. now rewrite lstrip_lower, rstrip_lower. Qed.

(** X17.  The extraction does not depend on the case of the text: a text
    and its lowercased form are either both rejected, with the same error,
    or both accepted with the same size, location, tasks and budget
    flag. *)
Theorem extraction_ignores_case (transcript : string) :
  match parse_transcript transcript, parse_transcript (lower transcript) with
  | Ok r1, Ok r2 =>
      same_extraction r1 r2
      /\ original_transcript r1 = Some transcript
      /\ original_transcript r2 = Some (lower transcript)
  | Raise e1, Raise e2 => e1 = e2
  | _, _ => False
  end.
Proof.
  unfold parse_transcript.
  assert (L : String.length (strip (lower transcript))
              = String.length (strip transcript))
    by (rewrite strip_lower; apply length_lower).
  rewrite lower_idem, length_lower, L.
  destruct (String.length transcript =? 0)%nat; [reflexivity |].
  destruct (String.length (strip transcript) <? 10)%nat; [reflexivity |].
  unfold same_extraction.
  cbn [bathroom_size location tasks budget_conscious original_transcript].
  repeat split; reflexivity.
Qed.

End MoreExtractionProperties.

(** * Further properties of the quotes *)

Section QuoteProperties.

Import SmartPricingEngine.

Variable pow_half : Q -> Q.

Lemma parse_transcript_ok_valid (transcript : string) (req : requirements) :
  parse_transcript transcript = Ok req ->
  (10 <= String.length (strip transcript))%nat.
Proof.
  unfold parse_transcript.
  destruct (String.length transcript =? 0)%nat; [discriminate |].
  destruct (String.length (strip transcript) <? 10)%nat eqn:E1;
    [discriminate |].
  intros _. now apply Nat.ltb_ge in E1.
Qed.

(** The line of a task, written out. *)
Lemma line_of_explicit (req : requirements) (size : Q) (loc : string)
    (mult : Q) (task : string) :
  bathroom_size req = Some size ->
  location req = Some loc ->
  dict_get city_multipliers loc = Some mult ->
  line_of pow_half req task
  = {| tp_task := Some task;
       tp_task_type := None;
       tp_materials :=
         Some (MaterialDatabase.get_task_materials_cost pow_half task size
                 "standard" * mult);
       tp_labor :=
         Some (LaborCalculator.calculate_labor_cost pow_half task size
                 "standard" * mult);
       tp_total :=
         Some (MaterialDatabase.get_task_materials_cost pow_half task size
                 "standard" * mult
               + LaborCalculator.calculate_labor_cost pow_half task size
                   "standard" * mult);
       tp_city_multiplier := Some mult;
       tp_error := None |}.
Proof.
  intros Hs Hl Hm.
  unfold line_of, _calculate_task_price, task_price_body, dict_index.
  rewrite Hs, Hl. cbn [field bind]. rewrite Hm. reflexivity.
Qed.

(** Everything a successful call of [generate_quote] has computed. *)
Lemma generate_quote_inv_full (now : clock) (transcript : string)
    (sc sc' : ConfidenceScorer.scorer) (q : quote) :
  generate_quote pow_half now transcript sc = (Ok q, sc') ->
  exists req size loc ts b mult tl tm vat d,
    client_requirements q = req
    /\ bathroom_size req = Some size /\ 0 <= size
    /\ location req = Some loc
    /\ dict_get city_multipliers loc = Some mult
    /\ tasks req = Some ts /\ ts <> []
    /\ Forall (fun task => In task canonical_tasks) ts
    /\ budget_conscious req = Some b
    /\ tl == py_sum (map line_labor (map (line_of pow_half req) ts))
    /\ tm == py_sum (map line_materials (map (line_of pow_half req) ts))
    /\ vat == py_sum (map standard_vat_of_line (map (line_of pow_half req) ts))
    /\ pricing q
       = {| pb_tasks := map (line_of pow_half req) ts;
            labor_total := tl;
            materials_total := tm;
            vat_amount := vat;
            subtotal := tl + tm;
            final_price := _apply_margin_protection (tl + tm + vat) b |}
    /\ _calculate_total_duration pow_half (map (line_of pow_half req) ts) req
       = Ok d
    /\ metrics q
       = {| confidence_score :=
              fst (ConfidenceScorer.calculate_confidence req
                     (map (line_of pow_half req) ts)
                     (_apply_margin_protection (tl + tm + vat) b) sc);
            margin_percentage :=
              _calculate_margin_percentage (tl + tm)
                (_apply_margin_protection (tl + tm + vat) b);
            city_multiplier := mult;
            total_duration := d;
            estimated_duration := d |}
    /\ sc' = snd (ConfidenceScorer.calculate_confidence req
                    (map (line_of pow_half req) ts)
                    (_apply_margin_protection (tl + tm + vat) b) sc).
Proof.
  unfold generate_quote.
  destruct (generate_quote_body pow_half now transcript sc) as [[q0 | e] sc0]
    eqn:B; intros H; [| discriminate H].
  injection H as -> ->.
  unfold generate_quote_body in B.
  destruct (parse_transcript transcript) as [req | e] eqn:P; [| discriminate B].
  pose proof (parse_transcript_ok_valid _ _ P) as Hlen.
  destruct (parse_transcript_valid transcript Hlen)
    as (size & loc & ts & P' & Hs & Hloc & Hne & Hts).
  fold budget_words in P'.
  remember (any_in budget_words (strip (lower transcript))) as b0 eqn:Hb0.
  rewrite P in P'. injection P' as ->.
  set (req := {| bathroom_size := Some size; location := Some loc;
                 tasks := Some ts; budget_conscious := _;
                 original_transcript := _ |}) in *.
  cbn [tasks req field bind] in B.
  destruct (price_tasks_spec pow_half req ts) as (tl & tm & PT & El & Em).
  rewrite PT in B. cbn [bind] in B.
  destruct (calculate_total_vat_unclassified (map (line_of pow_half req) ts)
              VATRules.default_work_value VATRules.default_property_age)
    as (vat & V & Ev).
  { apply Forall_forall. intros line Hin. apply in_map_iff in Hin.
    destruct Hin as (t & <- & _). apply line_of_shape. }
  rewrite V in B. cbn [bind budget_conscious req field] in B.
  destruct (ConfidenceScorer.calculate_confidence _ _ _ sc) as [conf sc1]
    eqn:CC.
  cbn [location req field bind] in B.
  unfold dict_mem in Hloc. unfold dict_index in B.
  destruct (dict_get city_multipliers loc) as [mult |] eqn:M;
    [| discriminate Hloc].
  cbn [bind] in B.
  destruct (_calculate_total_duration _ _ _) as [d | e] eqn:D;
    cbn [bind] in B; [| discriminate B].
  injection B as <- <-.
  exists req, size, loc, ts, b0, mult, tl, tm, vat, d.
  cbn [client_requirements pricing metrics]. rewrite CC. cbn [fst snd].
  repeat (split; [first [reflexivity | assumption] |]).
  reflexivity.
Qed.

Lemma total_duration_value (req : requirements) (size : Q)
    (ts : list string) (acc d : Q) :
  bathroom_size req = Some size ->
  fold_left (total_duration_step pow_half req) (map (line_of pow_half req) ts)
    (Ok acc) = Ok d ->
  d == acc + py_sum (map (standard_duration pow_half size) ts).
Proof.
  intros Hs. revert acc. induction ts as [| t ts IH]; intros acc.
  - cbn. intros H. injection H as <-. unfold py_sum; simpl. ring.
  - cbn [map fold_left]. unfold total_duration_step at 2. cbn [bind].
    destruct (line_of_shape pow_half req t) as (Ht & _).
    rewrite Ht, Hs. cbn [field bind]. intros H.
    rewrite (IH _ H), py_sum_cons. unfold standard_duration. ring.
Qed.

(** X18.  In a generated quote there is one price line per task of the
    requirement, in the same order; no line carries an error marker, so the
    fallback amounts are never used; the total of a line is its materials
    plus its labor, and its multiplier is the city multiplier of the quote.
    The two durations of the quote are equal, the sum of the durations of
    the tasks. *)
Theorem quote_lines_are_complete (now : clock) (transcript : string)
    (sc sc' : ConfidenceScorer.scorer) (q : quote) :
  generate_quote pow_half now transcript sc = (Ok q, sc') ->
  exists ts size,
    tasks (client_requirements q) = Some ts
    /\ bathroom_size (client_requirements q) = Some size
    /\ map tp_task (pb_tasks (pricing q)) = map Some ts
    /\ Forall (fun line =>
                 tp_error line = None
                 /\ tp_task_type line = None
                 /\ tp_total line
                    = Some (line_materials line + line_labor line)
                 /\ tp_city_multiplier line
                    = Some (city_multiplier (metrics q)))
         (pb_tasks (pricing q))
    /\ total_duration (metrics q) = estimated_duration (metrics q)
    /\ total_duration (metrics q)
       == py_sum (map (standard_duration pow_half size) ts).
Proof.
  intros G.
  destruct (generate_quote_inv_full _ _ _ _ _ G)
    as (req & size & loc & ts & b & mult & tl & tm & vat & d & Hr & Hs & _
        & Hl & Hm & Ht & _ & _ & _ & _ & _ & _ & Hp & Hd & Hme & _).
  exists ts, size. rewrite Hr, Hp, Hme.
  cbn [pb_tasks city_multiplier total_duration estimated_duration].
  split; [exact Ht |]. split; [exact Hs |]. split.
  { rewrite map_map. apply map_ext. intros t.
    now rewrite (line_of_explicit req size loc mult t Hs Hl Hm). }
  split.
  { apply Forall_forall. intros line Hin. apply in_map_iff in Hin.
    destruct Hin as (t & <- & _).
    rewrite (line_of_explicit req size loc mult t Hs Hl Hm).
    repeat split; reflexivity. }
  split; [reflexivity |].
  unfold _calculate_total_duration in Hd.
  rewrite (total_duration_value req size ts 0 d Hs Hd). ring.
Qed.







Hypothesis pow_half_nonneg : forall x, 0 <= x -> 0 <= pow_half x.






End QuoteProperties.

Section QuoteWitnesses.

Import SmartPricingEngine.

Lemma quote_lines_are_complete_witness :
  exists q sc',
    generate_quote sqrt_8_decimals noon marseille_transcript
      ConfidenceScorer.init = (Ok q, sc')
    /\ exists ts size,
         tasks (client_requirements q) = Some ts
         /\ bathroom_size (client_requirements q) = Some size
         /\ map tp_task (pb_tasks (pricing q)) = map Some ts
         /\ total_duration (metrics q)
            == py_sum (map (standard_duration sqrt_8_decimals size) ts).
Proof.
  eassert (G : generate_quote sqrt_8_decimals noon marseille_transcript
                 ConfidenceScorer.init = (Ok _, _))
    by (vm_compute; reflexivity).
  eexists. eexists. split; [exact G |].
  destruct (quote_lines_are_complete sqrt_8_decimals _ _ _ _ _ G)
    as (ts & size & H1 & H2 & H3 & _ & _ & H4).
  exists ts, size. split; [exact H1 |]. split; [exact H2 |].
  split; [exact H3 | exact H4].
Defined.




End QuoteWitnesses.
